(** * Certificate location and decoding of the EPak fix tool

    A shallow embedding of [pdfCertificateExtractor.js] (class
    [PDFCertificateExtractor]), [certificateParser.js] (class
    [CertificateParser]), the pattern table of [analyzePdf.js] and the
    callers [BatchPdfProcessor] and
    [EpakFixSheetGenerator.extractAadhaarData], with the properties the
    specification states about them and further properties of the code.

    JavaScript strings are sequences of UTF-16 code units, numbers are
    integers of [Z] (with [NaN] and [undefined] written out where the code
    can produce them), exceptions are the [Throw] constructor of [result],
    and the node-forge library is an interface ([Forge]) whose operations
    the extractor calls.  The file system, the clock and the date
    formatting the batch processor uses are variables of its section. *)

From Stdlib Require Import ZArith Lia List Bool String Ascii DecimalString.
From stdpp Require Import base option list gmap sorting.
Import ListNotations.

Local Open Scope Z_scope.

(** ** Comparisons on [Z] as propositions *)

Ltac zbool :=
  repeat match goal with
  | H : _ && _ = true |- _ => apply andb_prop in H; destruct H
  | H : _ || _ = false |- _ => apply orb_false_elim in H; destruct H
  | H : negb _ = true |- _ => apply negb_true_iff in H
  | H : negb _ = false |- _ => apply negb_false_iff in H
  | H : (_ <=? _) = true |- _ => apply Z.leb_le in H
  | H : (_ <=? _) = false |- _ => apply Z.leb_gt in H
  | H : (_ <? _) = true |- _ => apply Z.ltb_lt in H
  | H : (_ <? _) = false |- _ => apply Z.ltb_ge in H
  | H : (_ =? _) = true |- _ => apply Z.eqb_eq in H
  | H : (_ =? _) = false |- _ => apply Z.eqb_neq in H
  | H : _ && _ = false |- _ => apply andb_false_iff in H; destruct H
  | H : _ || _ = true |- _ => apply orb_prop in H; destruct H
  end.

(** ** JavaScript values *)

Module JS.

(** A string is its sequence of UTF-16 code units. *)
Abbreviation jsstring := (list Z).

(** The code units of an ASCII (Latin-1) literal. *)
Definition str (s : string) : jsstring :=
  map (fun a => Z.of_N (N_of_ascii a)) (list_ascii_of_string s).

(** A number that may be [NaN]. *)
Inductive number : Type :=
| Num (z : Z)
| NaN.

(** The outcome of a call: a value or a thrown [Error] with its message. *)
Inductive result (A : Type) : Type :=
| Ok (a : A)
| Throw (message : jsstring).
Arguments Ok {A} a.
Arguments Throw {A} message.

Definition bind {A B} (r : result A) (k : A -> result B) : result B :=
  match r with
  | Ok a => k a
  | Throw m => Throw m
  end.

Definition rmap {A B} (f : A -> B) (r : result A) : result B :=
  bind r (fun a => Ok (f a)).

(** [try { r } catch (e) { throw new Error(prefix + e.message) }] *)
Definition rethrow {A} (prefix : string) (r : result A) : result A :=
  match r with
  | Ok a => Ok a
  | Throw m => Throw (str prefix ++ m)
  end.

(** [WhiteSpace] and [LineTerminator] code units, which [parseInt] and the
    regular-expression class [\s] skip. *)
Definition isWhiteSpace (c : Z) : bool :=
  (c =? 9) || (c =? 10) || (c =? 11) || (c =? 12) || (c =? 13) || (c =? 32)
  || (c =? 160) || (c =? 5760) || ((8192 <=? c) && (c <=? 8202))
  || (c =? 8232) || (c =? 8233) || (c =? 8239) || (c =? 8287)
  || (c =? 12288) || (c =? 65279).

Fixpoint trimStart (s : jsstring) : jsstring :=
  match s with
  | c :: r => if isWhiteSpace c then trimStart r else s
  | [] => []
  end.

(** The value of a code unit read as a digit [0-9a-zA-Z]. *)
Definition digitValue (c : Z) : option Z :=
  if (48 <=? c) && (c <=? 57) then Some (c - 48)
  else if (97 <=? c) && (c <=? 122) then Some (c - 87)
  else if (65 <=? c) && (c <=? 90) then Some (c - 55)
  else None.

Definition radixDigit (R c : Z) : option Z :=
  match digitValue c with
  | Some d => if d <? R then Some d else None
  | None => None
  end.

(** The longest prefix of radix-[R] digits, as an integer; [None] when the
    prefix is empty. *)
Fixpoint parseDigits (R : Z) (s : jsstring) (seen : bool) (acc : Z) : option Z :=
  match s with
  | c :: r =>
      match radixDigit R c with
      | Some d => parseDigits R r true (acc * R + d)
      | None => if seen then Some acc else None
      end
  | [] => if seen then Some acc else None
  end.

(** [parseInt(s, radix)]; [radix = 0] stands for an absent radix and [None]
    for [NaN].  The result is the exact integer: the code only compares it
    with 0 and 1900 or reads at most two hexadecimal digits, where the
    rounding to a double changes nothing. *)
Definition parseInt (s : jsstring) (radix : Z) : option Z :=
  let s0 := trimStart s in
  let '(sign, s1) :=
    match s0 with
    | c :: r => if c =? 45 then (-1, r) else if c =? 43 then (1, r) else (1, s0)
    | [] => (1, s0)
    end in
  if negb (radix =? 0) && ((radix <? 2) || (36 <? radix)) then None
  else
    let stripPrefix := (radix =? 0) || (radix =? 16) in
    let R := if radix =? 0 then 10 else radix in
    let '(R', s2) :=
      if stripPrefix then
        match s1 with
        | z :: x :: r =>
            if (z =? 48) && ((x =? 120) || (x =? 88)) then (16, r) else (R, s1)
        | _ => (R, s1)
        end
      else (R, s1) in
    option_map (Z.mul sign) (parseDigits R' s2 false 0).

(** [String.fromCharCode(n)] for one argument: [ToUint16]. *)
Definition fromCharCode (n : option Z) : Z :=
  match n with
  | Some z => z mod 65536
  | None => 0
  end.

(** [s.toUpperCase()] on the letters [a-z]; the code applies it to one of
    [MmFfTt] only. *)
Definition toUpperCase (s : jsstring) : jsstring :=
  map (fun c => if (97 <=? c) && (c <=? 122) then c - 32 else c) s.

(** [a === b] on strings. *)
Definition streq (a b : jsstring) : bool := bool_decide (a = b).

(** [s.includes(needle)] *)
Fixpoint includes (s needle : jsstring) : bool :=
  match s with
  | [] => streq needle []
  | _ :: r => streq (firstn (length needle) s) needle || includes r needle
  end.

(** [x || y] on optional strings: the empty string and [undefined] are
    falsy. *)
Definition truthy (o : option jsstring) : bool :=
  match o with
  | Some (_ :: _) => true
  | _ => false
  end.

Definition orElse (o : option jsstring) (d : option jsstring) : option jsstring :=
  if truthy o then o else d.

(** [bytes[k]] for a number [k]: [undefined] outside the array. *)
Definition index {A} (l : list A) (k : Z) : option A :=
  if k <? 0 then None else l !! Z.to_nat k.

(** [l.slice(start, end)] for integers; an end of [None] is [NaN], which
    [slice] reads as 0. *)
Definition slice {A} (l : list A) (start : Z) (end_ : option Z) : list A :=
  let len := Z.of_nat (length l) in
  let clamp k := if k <? 0 then Z.max (len + k) 0 else Z.min k len in
  let from := clamp start in
  let to := clamp (default 0 end_) in
  firstn (Z.to_nat (to - from)) (skipn (Z.to_nat from) l).

(** [ToInt32] *)
Definition toInt32 (z : Z) : Z := (z + 2147483648) mod 4294967296 - 2147483648.

(** [(x << 8) | b] on an int32 [x]; an [undefined] operand is 0. *)
Definition shl8or (x : Z) (b : option Z) : Z :=
  toInt32 (Z.lor (toInt32 (Z.shiftl x 8)) (toInt32 (default 0 b))).

End JS.
Import JS.

(** ** IdentityDecoder: [CertificateParser.getPinCode], [getBirthYear],
       [getGenderInfo] *)

(** [static NA = 'NA'] *)
Definition NA : jsstring := str "NA".

(** [n > k] for a number that may be [NaN]. *)
Definition gtNum (n : option Z) (k : Z) : bool :=
  match n with
  | Some z => k <? z
  | None => false
  end.

(** [s.charAt(i)] *)
Definition charAt (s : jsstring) (i : nat) : jsstring :=
  match s !! i with
  | Some c => [c]
  | None => []
  end.

(** [s.indexOf(needle)], counted from [i]. *)
Fixpoint indexOfFrom (s needle : jsstring) (i : Z) : Z :=
  if streq (firstn (length needle) s) needle then i
  else match s with
       | [] => -1
       | _ :: r => indexOfFrom r needle (i + 1)
       end.

Definition indexOf (s needle : jsstring) : Z := indexOfFrom s needle 0.

(** [getPinCode(postalCode)]: an absent argument is [None]. *)
Definition getPinCode (postalCode : option jsstring) : jsstring :=
  match postalCode with
  | Some p => if truthy (Some p) && gtNum (parseInt p 0) 0 then p else NA
  | None => NA
  end.

(** [getBirthYear(dnQualifier)] *)
Definition getBirthYear (dnQualifier : option jsstring) : jsstring :=
  match dnQualifier with
  | Some q =>
      if truthy (Some q) && (4 <=? Z.of_nat (length q)) then
        let sub := firstn 4 q in
        if gtNum (parseInt sub 0) 1900 then sub else NA
      else NA
  | None => NA
  end.

(** [getGenderInfo(dnQualifier)] *)
Definition getGenderInfo (dnQualifier : option jsstring) : jsstring :=
  match dnQualifier with
  | Some q =>
      if truthy (Some q) && (5 <=? Z.of_nat (length q)) then
        let gender := charAt q 4 in
        if 0 <=? indexOf (str "MmFfTt") gender then toUpperCase gender else NA
      else NA
  | None => NA
  end.

(** The specification's [decodeQualifier]: the pair the two extractors
    store as [details.yob] and [details.gender]. *)
Definition decodeQualifier (dnQualifier : option jsstring) : jsstring * jsstring :=
  (getBirthYear dnQualifier, getGenderInfo dnQualifier).

(** ** ByteScanner: [PDFCertificateExtractor.hexToBytes] *)

(** [for (i = 0; i < hex.length; i += 2)
      bytes += String.fromCharCode(parseInt(hex.substr(i, 2), 16))] *)
Fixpoint hexToBytes (hex : jsstring) : jsstring :=
  match hex with
  | a :: b :: rest => fromCharCode (parseInt [a; b] 16) :: hexToBytes rest
  | [a] => [fromCharCode (parseInt [a] 16)]
  | [] => []
  end.

(** ** node-forge

    The ASN.1 objects [forge.asn1.fromDer] builds: the code reads their
    [tagClass], [type] and [value], and a [value] is a binary string or an
    array of objects. *)

#[warnings="-register-all"]
Inductive asn1 : Type :=
| Asn1Str (tagClass type : Z) (value : jsstring)
| Asn1Arr (tagClass type : Z) (value : list asn1).

(** What [x.value] can be. *)
Inductive jsval : Type :=
| JUndefined
| JStr (s : jsstring)
| JArr (l : list asn1).

(** What [x.value[i]] can be when it is defined: an ASN.1 object, or one
    character of a string value. *)
Inductive elem : Type :=
| ENode (a : asn1)
| EChar (c : Z).

Definition asn1_tagClass (a : asn1) : Z :=
  match a with Asn1Str c _ _ | Asn1Arr c _ _ => c end.

Definition asn1_type (a : asn1) : Z :=
  match a with Asn1Str _ t _ | Asn1Arr _ t _ => t end.

Definition asn1_value (a : asn1) : jsval :=
  match a with
  | Asn1Str _ _ s => JStr s
  | Asn1Arr _ _ l => JArr l
  end.

(** [v.length] of a string or an array. *)
Definition valueLength (v : jsval) : Z :=
  match v with
  | JUndefined => 0
  | JStr s => Z.of_nat (length s)
  | JArr l => Z.of_nat (length l)
  end.

(** [v[i]]; [None] is [undefined]. *)
Definition valueAt (v : jsval) (i : nat) : option elem :=
  match v with
  | JUndefined => None
  | JStr s => EChar <$> s !! i
  | JArr l => ENode <$> l !! i
  end.

(** [e.type] and [e.value] of an element: a character has neither. *)
Definition elemType (e : option elem) : option Z :=
  match e with
  | Some (ENode a) => Some (asn1_type a)
  | _ => None
  end.

Definition elemValue (e : option elem) : jsval :=
  match e with
  | Some (ENode a) => asn1_value a
  | _ => JUndefined
  end.

(** [Array.isArray(v) && v.length === n] / [> n] *)
Definition arrayOfLength (v : jsval) (p : Z -> bool) : bool :=
  match v with
  | JArr l => p (Z.of_nat (length l))
  | _ => false
  end.

(** [forge.asn1.Type] *)
Definition INTEGER : Z := 2.
Definition SEQUENCE : Z := 16.
Definition SET : Z := 17.
Definition UTCTIME : Z := 23.
Definition GENERALIZEDTIME : Z := 24.

(** [n === k] for a number that may be [undefined]. *)
Definition eqNum (n : option Z) (k : Z) : bool :=
  match n with
  | Some z => z =? k
  | None => false
  end.

(** One entry of [cert.subject.attributes] / [cert.issuer.attributes]. *)
Record Attr : Type := {
  attr_shortName : option jsstring;
  attr_type : option jsstring;
  attr_name : option jsstring;
  attr_value : jsstring
}.

(** The operations of node-forge the two classes call.  A certificate
    object and a PKCS#7 message are the library's own; the code reads the
    listed properties of them. *)
Class Forge : Type := {
  Certificate : Type;
  Pkcs7 : Type;
  (** [cert.serialNumber] *)
  cert_serialNumber : Certificate -> jsstring;
  (** [cert.validity.notAfter.getTime()] *)
  cert_notAfter : Certificate -> number;
  (** [cert.subject.attributes], [cert.issuer.attributes] *)
  cert_subject : Certificate -> list Attr;
  cert_issuer : Certificate -> list Attr;
  (** [p7.certificates]; [None] when the message has no such property *)
  p7_certificates : Pkcs7 -> option (list Certificate);
  (** [forge.asn1.fromDer(binaryString)] *)
  asn1_fromDer : jsstring -> result asn1;
  (** [forge.asn1.toDer(obj).getBytes()] *)
  asn1_toDer : asn1 -> result jsstring;
  (** [forge.asn1.derToOid(v)] *)
  asn1_derToOid : jsval -> result jsstring;
  (** [forge.asn1.utcTimeToDate(v)], as the date's [getTime()] *)
  asn1_utcTimeToDate : jsval -> result number;
  (** [forge.asn1.generalizedTimeToDate(v)], as the date's [getTime()] *)
  asn1_generalizedTimeToDate : jsval -> result number;
  (** [forge.util.bytesToHex(v)] *)
  util_bytesToHex : jsval -> result jsstring;
  (** [forge.util.decodeUtf8(array)], reached for an array value only *)
  util_decodeUtf8 : list asn1 -> result jsstring;
  (** [forge.pkcs7.messageFromAsn1(obj)] *)
  pkcs7_messageFromAsn1 : asn1 -> result Pkcs7;
  (** [forge.pki.certificateToAsn1(cert)] *)
  pki_certificateToAsn1 : Certificate -> result asn1;
  (** [forge.pki.certificateFromAsn1(obj)] *)
  pki_certificateFromAsn1 : asn1 -> result Certificate;
  (** [forge.pki.certificateFromPem(text)], on the bytes of the text *)
  pki_certificateFromPem : list Z -> result Certificate
}.

(** ** CertificateAttributeExtractor: [CertificateParser] *)

(** The [details] object both extractors build. *)
Record AadhaarDetails : Type := {
  serialNumber : jsstring;
  endDate : number;
  signerName : jsstring;
  tpin : jsstring;
  state : jsstring;
  gender : jsstring;
  yob : jsstring;
  pincode : jsstring;
  issuerName : jsstring;
  issuerOrganisation : jsstring
}.

(** [o || this.NA] *)
Definition orNA (o : option jsstring) : jsstring :=
  if truthy o then default [] o else NA.

(** [attributes[k] = v] when [k] is truthy. *)
Definition setIf (k : option jsstring) (v : jsstring)
    (m : gmap jsstring jsstring) : gmap jsstring jsstring :=
  match k with
  | Some (c :: r) => <[c :: r := v]> m
  | _ => m
  end.

(** [getAttributes(attributesObj)]: by short name, then by OID, then by
    name, each later entry overwriting an earlier one of the same key. *)
Definition getAttributes (attributes : list Attr) : gmap jsstring jsstring :=
  foldl
    (fun m attr =>
       setIf (attr_name attr) (attr_value attr)
         (setIf (attr_type attr) (attr_value attr)
            (setIf (attr_shortName attr) (attr_value attr) m)))
    ∅ attributes.

(** The [nameMap] table of [extractAsn1Attributes]. *)
Definition nameMap : list (jsstring * jsstring) :=
  [ (str "2.5.4.3", str "CN"); (str "2.5.4.6", str "C");
    (str "2.5.4.7", str "L"); (str "2.5.4.8", str "ST");
    (str "2.5.4.10", str "O"); (str "2.5.4.11", str "OU");
    (str "2.5.4.12", str "T"); (str "2.5.4.17", str "postalCode");
    (str "2.5.4.46", str "dnQualifier") ].

(** [nameMap[oid]]: an OID is dotted-decimal text, which names no
    property an object inherits. *)
Definition nameMapLookup (oid : jsstring) : option jsstring :=
  snd <$> find (fun kv => streq (fst kv) oid) nameMap.

(** [field.type === SEQUENCE && field.value.length > 0
     && field.value[0].type === SET]: the test that takes a field of
    TBSCertificate for the issuer or the subject. *)
Definition isNameField (field : asn1) : bool :=
  (asn1_type field =? SEQUENCE) && (0 <? valueLength (asn1_value field))
  && eqNum (elemType (valueAt (asn1_value field) 0)) SET.

(** [field.value[1].value], the argument of the two time decoders. *)
Definition notAfterOf (field : asn1) : jsval := elemValue (valueAt (asn1_value field) 1).

(** The fields the loop of [extractFromAsn1] visits: the elements of an
    array value; the characters of a string value have no [type]. *)
Definition tbsFields (tbsCertificate : asn1) : list asn1 :=
  match asn1_value tbsCertificate with
  | JArr l => l
  | _ => []
  end.

(** What the loop over [tbsCertificate.value] has found so far. *)
Record TbsScan : Type := {
  scan_serialNumber : option jsstring;
  scan_validity : option number;
  scan_issuerAsn1 : option asn1;
  scan_subjectAsn1 : option asn1
}.

Section CertificateParser.
Context {F : Forge}.

(** [extractAadhaarSignDetails(cert)] *)
Definition extractAadhaarSignDetails (cert : Certificate) : AadhaarDetails :=
  let subjectAttrs := getAttributes (cert_subject cert) in
  let dnQualifier :=
    orElse (subjectAttrs !! str "dnQualifier") (subjectAttrs !! str "2.5.4.46") in
  let postalCode :=
    orElse (subjectAttrs !! str "postalCode") (subjectAttrs !! str "2.5.4.17") in
  let issuerAttrs := getAttributes (cert_issuer cert) in
  {| serialNumber := cert_serialNumber cert;
     endDate := cert_notAfter cert;
     signerName := orNA (subjectAttrs !! str "CN");
     tpin := orNA (subjectAttrs !! str "T");
     state := orNA (subjectAttrs !! str "ST");
     gender := getGenderInfo dnQualifier;
     yob := getBirthYear dnQualifier;
     pincode := getPinCode postalCode;
     issuerName := orNA (issuerAttrs !! str "CN");
     issuerOrganisation := orNA (issuerAttrs !! str "O") |}.

(** One round of [for (const rdn of nameAsn1.value)]. *)
Definition rdnStep (attributes : gmap jsstring jsstring) (rdn : asn1)
    : result (gmap jsstring jsstring) :=
  if (asn1_type rdn =? SET) && (0 <? valueLength (asn1_value rdn)) then
    let attrSeq := valueAt (asn1_value rdn) 0 in
    if eqNum (elemType attrSeq) SEQUENCE && (2 <=? valueLength (elemValue attrSeq)) then
      bind (asn1_derToOid (elemValue (valueAt (elemValue attrSeq) 0))) (fun oid =>
      bind (match elemValue (valueAt (elemValue attrSeq) 1) with
            | JArr l => util_decodeUtf8 l
            | JStr s => Ok s
            | JUndefined => Ok []
            end) (fun value =>
      let attributes := <[oid := value]> attributes in
      Ok (match nameMapLookup oid with
          | Some alias => <[alias := value]> attributes
          | None => attributes
          end)))
    else Ok attributes
  else Ok attributes.

Fixpoint rdnLoop (attributes : gmap jsstring jsstring) (rdns : list asn1)
    : result (gmap jsstring jsstring) :=
  match rdns with
  | [] => Ok attributes
  | rdn :: rest => bind (rdnStep attributes rdn) (fun m => rdnLoop m rest)
  end.

(** [extractAsn1Attributes(nameAsn1)]; the characters of a string value
    have no [type], so only an array value adds attributes. *)
Definition extractAsn1Attributes (nameAsn1 : option asn1)
    : result (gmap jsstring jsstring) :=
  match nameAsn1 with
  | Some (Asn1Arr _ _ rdns) => rdnLoop ∅ rdns
  | _ => Ok ∅
  end.

(** One round of the loop over [tbsCertificate.value]. *)
Definition tbsStep (st : TbsScan) (field : asn1) : result TbsScan :=
  bind (if (asn1_type field =? INTEGER) && negb (truthy (scan_serialNumber st))
        then rmap Some (util_bytesToHex (asn1_value field))
        else Ok (scan_serialNumber st)) (fun serial =>
  let validity :=
    if (asn1_type field =? SEQUENCE) && (valueLength (asn1_value field) =? 2)
       && negb (bool_decide (is_Some (scan_validity st)))
    then
      let arg := notAfterOf field in
      match asn1_utcTimeToDate arg with
      | Ok notAfter => Some notAfter
      | Throw _ =>
          match asn1_generalizedTimeToDate arg with
          | Ok notAfter => Some notAfter
          | Throw _ => None
          end
      end
    else scan_validity st in
  let isName := isNameField field in
  let issuer :=
    if isName && negb (bool_decide (is_Some (scan_issuerAsn1 st)))
    then Some field else scan_issuerAsn1 st in
  let subject :=
    if isName && bool_decide (is_Some (scan_issuerAsn1 st))
       && negb (bool_decide (is_Some (scan_subjectAsn1 st)))
    then Some field else scan_subjectAsn1 st in
  Ok {| scan_serialNumber := serial; scan_validity := validity;
        scan_issuerAsn1 := issuer; scan_subjectAsn1 := subject |}).

Fixpoint tbsLoop (st : TbsScan) (fields : list asn1) : result TbsScan :=
  match fields with
  | [] => Ok st
  | field :: rest => bind (tbsStep st field) (fun st' => tbsLoop st' rest)
  end.

Definition tbsStart : TbsScan :=
  {| scan_serialNumber := None; scan_validity := None;
     scan_issuerAsn1 := None; scan_subjectAsn1 := None |}.

(** The [details] object of [extractFromAsn1], from what the loop found
    and the two attribute maps. *)
Definition buildDetails (st : TbsScan)
    (subjectAttrs issuerAttrs : gmap jsstring jsstring) : AadhaarDetails :=
  let dnQualifier :=
    orElse (subjectAttrs !! str "2.5.4.46") (subjectAttrs !! str "dnQualifier") in
  let postalCode :=
    orElse (subjectAttrs !! str "2.5.4.17") (subjectAttrs !! str "postalCode") in
  {| serialNumber := orNA (scan_serialNumber st);
     endDate := match scan_validity st with
                | Some t => t
                | None => Num 0
                end;
     signerName := orNA (orElse (subjectAttrs !! str "2.5.4.3") (subjectAttrs !! str "CN"));
     tpin := orNA (orElse (subjectAttrs !! str "2.5.4.12") (subjectAttrs !! str "T"));
     state := orNA (orElse (subjectAttrs !! str "2.5.4.8") (subjectAttrs !! str "ST"));
     gender := if truthy dnQualifier then getGenderInfo dnQualifier else NA;
     yob := if truthy dnQualifier then getBirthYear dnQualifier else NA;
     pincode := if truthy postalCode then getPinCode postalCode else NA;
     issuerName := orNA (orElse (issuerAttrs !! str "2.5.4.3") (issuerAttrs !! str "CN"));
     issuerOrganisation :=
       orNA (orElse (issuerAttrs !! str "2.5.4.10") (issuerAttrs !! str "O")) |}.

(** [extractFromAsn1(asn1Cert)].  [asn1Cert.value[0]] must be an object
    for [tbsCertificate.value.length] to be read; the two [TypeError]
    messages are V8's. *)
Definition extractFromAsn1 (asn1Cert : asn1) : result AadhaarDetails :=
  rethrow "Failed to extract from ASN.1: "
    match valueAt (asn1_value asn1Cert) 0 with
    | None => Throw (str "Cannot read properties of undefined (reading 'value')")
    | Some (EChar _) => Throw (str "Cannot read properties of undefined (reading 'length')")
    | Some (ENode tbsCertificate) =>
        bind (tbsLoop tbsStart (tbsFields tbsCertificate)) (fun st =>
        bind (extractAsn1Attributes (scan_subjectAsn1 st)) (fun subjectAttrs =>
        bind (extractAsn1Attributes (scan_issuerAsn1 st)) (fun issuerAttrs =>
        Ok (buildDetails st subjectAttrs issuerAttrs))))
    end.

(** [parseCertificateFromBuffer(certBuffer)].  The marker is ASCII, so it
    occurs in the UTF-8 decoding of the buffer exactly when its bytes
    occur in the buffer. *)
Definition parseCertificateFromBuffer (certBuffer : list Z) : result AadhaarDetails :=
  rethrow "Failed to parse certificate from buffer: "
    (if includes certBuffer (str "BEGIN CERTIFICATE") then
       match pki_certificateFromPem certBuffer with
       | Ok cert => Ok (extractAadhaarSignDetails cert)
       | Throw _ => bind (asn1_fromDer certBuffer) extractFromAsn1
       end
     else
       match bind (asn1_fromDer certBuffer) pki_certificateFromAsn1 with
       | Ok cert => Ok (extractAadhaarSignDetails cert)
       | Throw m =>
           if includes m (str "OID is not RSA") || includes m (str "X509v3 Certificate")
           then bind (asn1_fromDer certBuffer) extractFromAsn1
           else Throw m
       end).

(** [details.tpin !== 'NA' || details.gender !== 'NA' || details.yob !== 'NA'
     || details.pincode !== 'NA'] *)
Definition hasAadhaarData (details : AadhaarDetails) : bool :=
  negb (streq (tpin details) NA) || negb (streq (gender details) NA)
  || negb (streq (yob details) NA) || negb (streq (pincode details) NA).

(** [try { details = parseCertificateFromBuffer(certificate);
          if (hasAadhaarData) return ... } catch (parseError) { }]:
    whether the [return] is reached. *)
Definition bufferHasAadhaarData (certificate : list Z) : bool :=
  match parseCertificateFromBuffer certificate with
  | Ok details => hasAadhaarData details
  | Throw _ => false
  end.

End CertificateParser.

(** ** Pkcs7Decoder: [PDFCertificateExtractor] *)

(** An entry of [foundCerts]. *)
Record FoundCert : Type := {
  buffer : list Z;
  size : Z;
  offset : Z
}.

(** [Buffer.from(s, 'binary')]: the low byte of each code unit. *)
Definition bufferFrom (s : jsstring) : list Z := map (fun c => Z.land c 255) s.

(** [n & k] for a number that may be [undefined]. *)
Definition andNum (n : option Z) (k : Z) : Z := Z.land (toInt32 (default 0 n)) k.

(** [len = 0; for (j = 0; j < numLengthBytes; j++)
      len = (len << 8) | bytes[start + j]] *)
Definition readLength (bytes : list Z) (start numLengthBytes : Z) : Z :=
  foldl (fun len j => shl8or len (index bytes (start + j))) 0 (seqZ 0 numLengthBytes).

(** The length of the [0xA0] section whose length byte is at [pos]
    (extractCertificateByPattern, strategy 1): the section length, which
    is [undefined] when the byte is, and where the content starts. *)
Definition decodeSectionLength (bytes : list Z) (pos : Z) : option Z * Z :=
  let certSectionLength := index bytes pos in
  if eqNum certSectionLength 128 then
    (Some (Z.of_nat (length bytes) - (pos + 1)), pos + 1)
  else if negb (andNum certSectionLength 128 =? 0) then
    let numLengthBytes := andNum certSectionLength 127 in
    (Some (readLength bytes (pos + 1) numLengthBytes), pos + 1 + numLengthBytes)
  else (certSectionLength, pos + 1).

(** The length of the SEQUENCE at [scanPos] inside such a section:
    [seqLength], which is [undefined] when its byte is, and
    [seqLengthBytes]. *)
Definition decodeSequenceLength (bytes : list Z) (scanPos : Z) : option Z * Z :=
  let seqLength := index bytes (scanPos + 1) in
  if negb (andNum seqLength 128 =? 0) then
    let numLengthBytes := andNum seqLength 127 in
    (Some (readLength bytes (scanPos + 2) numLengthBytes), 2 + numLengthBytes)
  else (seqLength, 2).

(** [bytes[i] === 0x30 && (bytes[i + 1] === 0x82 || bytes[i + 1] === 0x83)] *)
Definition longSequenceAt (bytes : list Z) (i : Z) : bool :=
  eqNum (index bytes i) 48
  && (eqNum (index bytes (i + 1)) 130 || eqNum (index bytes (i + 1)) 131).

(** The first entry of the greatest [size]: [foundCerts.sort((a, b) =>
    b.size - a.size)[0]] under a stable sort. *)
Fixpoint largest (best : FoundCert) (rest : list FoundCert) : FoundCert :=
  match rest with
  | [] => best
  | c :: rest' => largest (if size best <? size c then c else best) rest'
  end.

Section PDFCertificateExtractor.
Context {F : Forge}.

(** [asn1.value && Array.isArray(asn1.value) && asn1.value.length === 3]
    for the object [fromDer] returns, [false] when it throws. *)
Definition parsesWith (certBinary : jsstring) (p : Z -> bool) : bool :=
  match asn1_fromDer certBinary with
  | Ok a => arrayOfLength (asn1_value a) p
  | Throw _ => false
  end.

(** The body of the loop of [scanForCertificates] at index [i]. *)
Definition scanAt (bytes : list Z) (i : Z) : option FoundCert :=
  if longSequenceAt bytes i then
    let numLengthBytes := andNum (index bytes (i + 1)) 127 in
    let certLen := readLength bytes (i + 2) numLengthBytes in
    let headerSize := 2 + numLengthBytes in
    if (500 <=? certLen) && (certLen <=? 10000)
       && (i + headerSize + certLen <=? Z.of_nat (length bytes)) then
      let certBinary := slice bytes i (Some (i + headerSize + certLen)) in
      if parsesWith certBinary (Z.eqb 3) then
        Some {| buffer := bufferFrom certBinary;
                size := headerSize + certLen;
                offset := i |}
      else None
    else None
  else None.

(** [scanForCertificates(bytes)] *)
Definition scanForCertificates (bytes : list Z) : list FoundCert :=
  omap (scanAt bytes) (seqZ 0 (Z.of_nat (length bytes) - 100)).

(** The test applied to each found certificate: it parses and has
    Aadhaar data. *)
Definition isAadhaar (cert : FoundCert) : bool :=
  bufferHasAadhaarData (buffer cert).

(** Strategy 1, the raw scan inside a SEQUENCE of more than three
    elements: the body of the loop at [rawPos]. *)
Definition rawScanAt (bytes : list Z) (structStart rawPos : Z) : option FoundCert :=
  if longSequenceAt bytes rawPos then
    let numLengthBytes := andNum (index bytes (rawPos + 1)) 127 in
    let certLen := readLength bytes (rawPos + 2) numLengthBytes in
    let certLenBytes := 2 + numLengthBytes in
    if (100 <? certLen) && (certLen <? 10000)
       && (rawPos + certLenBytes + certLen <=? Z.of_nat (length bytes)) then
      let rawCertBinary := slice bytes rawPos (Some (rawPos + certLenBytes + certLen)) in
      if parsesWith rawCertBinary (Z.eqb 3) then
        Some {| buffer := bufferFrom rawCertBinary;
                size := certLen + certLenBytes;
                offset := rawPos - structStart |}
      else None
    else None
  else None.

(** Strategy 1, what the SEQUENCE found at [scanPos] yields: [Some] is a
    [return] of that buffer, [None] moves on to the next SEQUENCE.
    [String.fromCharCode.apply(null, seqBytes)] is taken to give back the
    slice as a string, as it does up to the engine's limit on the number
    of arguments; above that limit the call, which stands outside the
    inner [try], throws a [RangeError] that [extractCertificateByPattern]
    reports under its prefix, a case the model does not have. *)
Definition sequenceAt (bytes : list Z) (scanPos : Z) : option (list Z) :=
  let '(seqLength, seqLengthBytes) := decodeSequenceLength bytes scanPos in
  let structEnd := (fun l => scanPos + seqLengthBytes + l) <$> seqLength in
  let seqBinary := slice bytes scanPos structEnd in
  match asn1_fromDer seqBinary with
  | Throw _ => None
  | Ok testAsn1 =>
      match asn1_value testAsn1 with
      | JArr elems =>
          if Z.of_nat (length elems) =? 3 then Some (bufferFrom seqBinary)
          else if 3 <? Z.of_nat (length elems) then
            match find (fun elem => (asn1_type elem =? SEQUENCE)
                                    && arrayOfLength (asn1_value elem) (Z.eqb 3)) elems with
            | Some elem =>
                match asn1_toDer elem with
                | Ok nestedCertDer => Some (bufferFrom nestedCertDer)
                | Throw _ => None
                end
            | None =>
                let foundCerts :=
                  match structEnd with
                  | Some e => omap (rawScanAt bytes scanPos) (seqZ scanPos (e - 100 - scanPos))
                  | None => []
                  end in
                match foundCerts with
                | [] => None
                | first :: rest =>
                    match find isAadhaar foundCerts with
                    | Some cert => Some (buffer cert)
                    | None => Some (buffer (largest first rest))
                    end
                end
            end
          else None
      | _ => None
      end
  end.

(** Strategy 1, [while (scanPos < sectionEnd && scanPos < bytes.length)].
    The loop can run forever (an advance of zero), so it is given a number
    of rounds: the outer [None] is that number exhausted, [Some None] the
    loop left without a certificate. *)
Fixpoint sectionLoop (fuel : nat) (bytes : list Z) (sectionEnd : option Z)
    (scanPos : Z) : option (option (list Z)) :=
  match fuel with
  | O => None
  | S fuel' =>
      if gtNum sectionEnd scanPos && (scanPos <? Z.of_nat (length bytes)) then
        if eqNum (index bytes scanPos) 48 then
          match sequenceAt bytes scanPos with
          | Some certificate => Some (Some certificate)
          | None =>
              let '(seqLength, seqLengthBytes) := decodeSequenceLength bytes scanPos in
              match seqLength with
              | Some l => sectionLoop fuel' bytes sectionEnd (scanPos + (seqLengthBytes + l))
              | None => Some None
              end
          end
        else sectionLoop fuel' bytes sectionEnd (scanPos + 1)
      else Some None
  end.

(** Strategy 1, the body of [for (i = 0; i < bytes.length - 4; i++)]. *)
Definition sectionAt (fuel : nat) (bytes : list Z) (i : Z) : option (option (list Z)) :=
  if eqNum (index bytes i) 160 then
    let '(certSectionLength, contentStart) := decodeSectionLength bytes (i + 1) in
    sectionLoop fuel bytes (Z.add contentStart <$> certSectionLength) contentStart
  else Some None.

Fixpoint strategy1 (fuel : nat) (bytes : list Z) (positions : list Z)
    : option (option (list Z)) :=
  match positions with
  | [] => Some None
  | i :: rest =>
      match sectionAt fuel bytes i with
      | None => None
      | Some (Some certificate) => Some (Some certificate)
      | Some None => strategy1 fuel bytes rest
      end
  end.

(** Strategy 2, the body of [for (i = 0; i < bytes.length - 100; i++)]:
    [Some] is a [return]. *)
Definition strategy2At (bytes : list Z) (i : Z) : option (list Z) :=
  if longSequenceAt bytes i then
    let numLengthBytes := andNum (index bytes (i + 1)) 127 in
    let certLength := readLength bytes (i + 2) numLengthBytes in
    let lengthOffset := 2 + numLengthBytes in
    if (certLength <? 400) || (10000 <? certLength) then None
    else if Z.of_nat (length bytes) <? i + lengthOffset + certLength then None
    else
      let certBinary := slice bytes i (Some (i + lengthOffset + certLength)) in
      if parsesWith certBinary (Z.leb 3) then Some (bufferFrom certBinary) else None
  else None.

Definition strategy2 (bytes : list Z) : option (list Z) :=
  head (omap (strategy2At bytes) (seqZ 0 (Z.of_nat (length bytes) - 100))).

(** [extractCertificateByPattern(pkcs7Binary)]; [bytes] is the array of
    the string's char codes, which the model does not tell apart from the
    string. *)
Definition extractCertificateByPattern (fuel : nat) (pkcs7Binary : jsstring)
    : option (result (list Z)) :=
  let bytes := pkcs7Binary in
  rethrow "Pattern-based extraction failed: " <$>
    match scanForCertificates bytes with
    | first :: rest =>
        match find isAadhaar (first :: rest) with
        | Some cert => Some (Ok (buffer cert))
        | None => Some (Ok (buffer first))
        end
    | [] =>
        match strategy1 fuel bytes (seqZ 0 (Z.of_nat (length bytes) - 4)) with
        | None => None
        | Some (Some certificate) => Some (Ok certificate)
        | Some None =>
            match strategy2 bytes with
            | Some certificate => Some (Ok certificate)
            | None =>
                Some (Throw (str "Could not find valid certificate in PKCS#7 data using any extraction strategy"))
            end
        end
    end.

(** [extractCertificateFromASN1], the walk to the certificates field:
    the first [subField.value[0]] in loop order. *)
Definition certificatesField (asn1Obj : asn1) : option asn1 :=
  match asn1_value asn1Obj with
  | JArr fields =>
      head (flat_map (fun field =>
        if (asn1_tagClass field =? 0) && (asn1_type field =? 16) then
          match asn1_value field with
          | JArr subFields =>
              omap (fun subField =>
                if (asn1_tagClass subField =? 2) && (asn1_type subField =? 0) then
                  match asn1_value subField with
                  | JArr (certAsn1 :: _) => Some certAsn1
                  | _ => None
                  end
                else None) subFields
          | _ => []
          end
        else []) fields)
  | _ => None
  end.

(** [extractCertificateFromASN1(asn1Binary)] *)
Definition extractCertificateFromASN1 (fuel : nat) (asn1Binary : jsstring)
    : option (result (list Z)) :=
  rethrow "Failed to extract certificate from ASN.1: " <$>
    match asn1_fromDer asn1Binary with
    | Throw m =>
        if includes m (str "Unparsed DER bytes")
        then extractCertificateByPattern fuel asn1Binary
        else Some (Throw m)
    | Ok asn1Obj =>
        Some match certificatesField asn1Obj with
             | Some certAsn1 => rmap bufferFrom (asn1_toDer certAsn1)
             | None => Throw (str "Could not find certificate in ASN.1 structure")
             end
    end.

(** [extractCertificateFromPKCS7], the standard parsing inside the inner
    [try]: the DER of [p7.certificates[0]], or [None] when the message has
    no certificate. *)
Definition standardPKCS7 (pkcs7Binary : jsstring) : result (option (list Z)) :=
  bind (asn1_fromDer pkcs7Binary) (fun p7Asn1 =>
  bind (pkcs7_messageFromAsn1 p7Asn1) (fun p7 =>
  match p7_certificates p7 with
  | Some (cert :: _) =>
      bind (pki_certificateToAsn1 cert) (fun certAsn1 =>
      bind (asn1_toDer certAsn1) (fun certDer => Ok (Some (bufferFrom certDer))))
  | _ => Ok None
  end)).

(** [extractCertificateFromPKCS7(pkcs7Binary)] *)
Definition extractCertificateFromPKCS7 (fuel : nat) (pkcs7Binary : jsstring)
    : option (result (list Z)) :=
  rethrow "Failed to extract certificate from PKCS#7: " <$>
    match standardPKCS7 pkcs7Binary with
    | Ok (Some certificate) => Some (Ok certificate)
    | Ok None => Some (Throw (str "No certificates found in signature"))
    | Throw _ => extractCertificateFromASN1 fuel pkcs7Binary
    end.

End PDFCertificateExtractor.

(** ** SignatureLocator: the regular expressions

    The patterns of [extractCertificateFromPDF] and [analyzePdf.js] are
    sequences of literal characters, greedy quantifiers over one character
    class, and capture groups; they are matched by backtracking as
    JavaScript does, against the Latin-1 view of the document. *)

Inductive cclass : Type :=
| ClsSpace        (* \s *)
| ClsHex          (* [0-9A-Fa-f] *)
| ClsDigit        (* \d *)
| ClsAny          (* [\s\S] *)
| ClsNotBracket.  (* [^\]] *)

Definition isHexDigit (c : Z) : bool :=
  ((48 <=? c) && (c <=? 57)) || ((65 <=? c) && (c <=? 70)) || ((97 <=? c) && (c <=? 102)).

Definition inClass (k : cclass) (c : Z) : bool :=
  match k with
  | ClsSpace => isWhiteSpace c
  | ClsHex => isHexDigit c
  | ClsDigit => (48 <=? c) && (c <=? 57)
  | ClsAny => true
  | ClsNotBracket => negb (c =? 93)
  end.

Inductive item : Type :=
| Lit (c : Z)
| Rep (k : cclass) (min : nat) (max : option nat)
| Open
| Close.

Definition lits (s : string) : list item := map Lit (str s).

(** How many leading characters are in the class, up to the bound. *)
Fixpoint runLength (k : cclass) (s : jsstring) (bound : option nat) : nat :=
  match bound, s with
  | Some O, _ => O
  | _, c :: r => if inClass k c then S (runLength k r (pred <$> bound)) else O
  | _, [] => O
  end.

(** A greedy quantifier: the continuation [k] is tried after [n]
    repetitions, then after one fewer, down to [min]. *)
Fixpoint tryRep {R} (k : nat -> option R) (min n : nat) : option R :=
  if bool_decide (n < min)%nat then None
  else match k n with
       | Some r => Some r
       | None => match n with
                 | O => None
                 | S n' => tryRep k min n'
                 end
       end.

(** The match of the items at the head of [rest], which starts at offset
    [pos]: the end offset and the captured groups.  [opens] holds the
    open groups, each as the text from where it opened and that offset. *)
Fixpoint matchItems (items : list item) (rest : jsstring) (pos : nat)
    (opens : list (jsstring * nat)) (caps : list jsstring)
    : option (nat * list jsstring) :=
  match items with
  | [] => Some (pos, caps)
  | Lit c :: items' =>
      match rest with
      | c' :: rest' => if c' =? c then matchItems items' rest' (S pos) opens caps else None
      | [] => None
      end
  | Open :: items' => matchItems items' rest pos ((rest, pos) :: opens) caps
  | Close :: items' =>
      match opens with
      | (text, start) :: opens' =>
          matchItems items' rest pos opens' (caps ++ [firstn (pos - start) text])
      | [] => None
      end
  | Rep k min max :: items' =>
      tryRep (fun n => matchItems items' (skipn n rest) (pos + n) opens caps)
             min (runLength k rest max)
  end.

(** One match: [match.index] and the groups [match[1]], [match[2]], ... *)
Record Match : Type := {
  index_ : nat;
  groups : list jsstring
}.

(** [match[1]], [match[2]] *)
Definition group (m : Match) (i : nat) : jsstring := default [] (groups m !! (i - 1)%nat).

(** The matches from offset [pos] on, [rest] being the text from there;
    each round consumes at least one character, so [S (length rest)]
    rounds reach the end. *)
Fixpoint matchAllFrom (fuel : nat) (re : list item) (rest : jsstring) (pos : nat)
    : list Match :=
  match fuel with
  | O => []
  | S fuel' =>
      match matchItems re rest pos [] [] with
      | Some (e, caps) =>
          let next := if bool_decide (e = pos) then S pos else e in
          {| index_ := pos; groups := caps |}
            :: (if bool_decide (length rest < next - pos)%nat then []
                else matchAllFrom fuel' re (skipn (next - pos) rest) next)
      | None =>
          match rest with
          | [] => []
          | _ :: rest' => matchAllFrom fuel' re rest' (S pos)
          end
      end
  end.

(** [[...text.matchAll(re)]] for a global [re]. *)
Definition matchAll (re : list item) (text : jsstring) : list Match :=
  matchAllFrom (S (length text)) re text 0.

(** [\/Contents\s*<([0-9A-Fa-f]+)>] *)
Definition contentsHex : list item :=
  lits "/Contents" ++ [Rep ClsSpace 0 None; Lit 60; Open; Rep ClsHex 1 None; Close; Lit 62].

(** [sigRegex] of [extractCertificateFromPDF]. *)
Definition sigRegex : list item := contentsHex.

(** ** The table of [analyzePdf.js] *)

Record Pattern : Type := {
  name : string;
  regex : list item;
  extract : Match -> jsstring
}.

Definition patterns : list Pattern :=
  [ {| name := "Standard /Contents hex";
       regex := contentsHex;
       extract := fun m => group m 1 |};
    {| name := "Indirect /Contents reference";
       regex := lits "/Contents"
                ++ [Rep ClsSpace 1 None; Open; Rep ClsDigit 1 None; Close;
                    Rep ClsSpace 1 None; Open; Rep ClsDigit 1 None; Close;
                    Rep ClsSpace 1 None; Lit 82];
       extract := fun m => group m 1 ++ str " " ++ group m 2 ++ str " R" |};
    {| name := "/ByteRange with /Contents";
       regex := lits "/ByteRange"
                ++ [Rep ClsSpace 0 None; Lit 91; Open; Rep ClsNotBracket 1 None; Close;
                    Lit 93; Rep ClsAny 0 (Some 500%nat)]
                ++ contentsHex;
       extract := fun m => group m 2 |};
    {| name := "/Sig dictionary";
       regex := lits "/Type" ++ [Rep ClsSpace 0 None] ++ lits "/Sig"
                ++ [Rep ClsAny 0 (Some 1000%nat)] ++ contentsHex;
       extract := fun m => group m 1 |};
    {| name := "PKCS#7 detached";
       regex := lits "/SubFilter" ++ [Rep ClsSpace 0 None] ++ lits "/adbe.pkcs7.detached"
                ++ [Rep ClsAny 0 (Some 1000%nat)] ++ contentsHex;
       extract := fun m => group m 1 |};
    {| name := "PKCS#7 SHA1";
       regex := lits "/SubFilter" ++ [Rep ClsSpace 0 None] ++ lits "/adbe.pkcs7.sha1"
                ++ [Rep ClsAny 0 (Some 1000%nat)] ++ contentsHex;
       extract := fun m => group m 1 |};
    {| name := "Aadhaar eSign";
       regex := lits "/SubFilter" ++ [Rep ClsSpace 0 None] ++ lits "/ETSI.CAdES.detached"
                ++ [Rep ClsAny 0 (Some 1000%nat)] ++ contentsHex;
       extract := fun m => group m 1 |} ].

(** An entry of [foundSignatures]; [hexDigits] is the number of hex
    digits of [data], of which [size] is the half, and [None] where the
    script prints ['N/A']. *)
Record FoundSignature : Type := {
  pattern : string;
  data : jsstring;
  hexDigits : option Z;
  position : nat
}.

Definition foundBy (p : Pattern) (m : Match) : FoundSignature :=
  let sigData := extract p m in
  {| pattern := name p;
     data := sigData;
     hexDigits := if forallb isHexDigit sigData && negb (streq sigData [])
                  then Some (Z.of_nat (length sigData)) else None;
     position := index_ m |}.

(** [foundSignatures] after the loop over [patterns]. *)
Definition foundSignatures (pdfString : jsstring) : list FoundSignature :=
  flat_map (fun p => map (foundBy p) (matchAll (regex p) pdfString)) patterns.

(** ** CandidateSelector: [extractCertificateFromPDF] and its callers *)

(** [isPDF(buffer)]: the first five bytes decode to ['%PDF-'] exactly when
    they are its five ASCII bytes. *)
Definition isPDF (buffer_ : list Z) : bool := streq (firstn 5 buffer_) (str "%PDF-").

Section CandidateSelector.
Context {F : Forge}.

(** The loop over [matches]: [Some (Some certificate)] is its [return],
    [Some None] its end, [None] a decode that does not come back. *)
Fixpoint trySignatures (fuel : nat) (matches : list Match) : option (option (list Z)) :=
  match matches with
  | [] => Some None
  | m :: rest =>
      match extractCertificateFromPKCS7 fuel (hexToBytes (group m 1)) with
      | None => None
      | Some (Ok certificate) =>
          if bufferHasAadhaarData certificate then Some (Some certificate)
          else trySignatures fuel rest
      | Some (Throw _) => trySignatures fuel rest
      end
  end.

(** [extractCertificateFromPDF(pdfBuffer)]; the Latin-1 string of a buffer
    has the bytes as its code units. *)
Definition extractCertificateFromPDF (fuel : nat) (pdfBuffer : list Z)
    : option (result (list Z)) :=
  let matches := matchAll sigRegex pdfBuffer in
  rethrow "Failed to extract certificate from PDF: " <$>
    match matches with
    | [] => Some (Throw (str "No signature found in PDF. The PDF may not be digitally signed."))
    | first :: _ =>
        match trySignatures fuel matches with
        | None => None
        | Some (Some certificate) => Some (Ok certificate)
        | Some None => extractCertificateFromPKCS7 fuel (hexToBytes (group first 1))
        end
    end.

(** The full pipeline, as every caller runs it:
    [certBuffer = await extractCertificateFromPDF(pdfBuffer)] and then
    [parseCertificateFromBuffer(certBuffer)]
    ([EpakFixSheetGenerator.extractAadhaarData], the upload route,
    [processSinglePDF]). *)
Definition extractIdentityFromDocument (fuel : nat) (pdfBuffer : list Z)
    : option (result AadhaarDetails) :=
  (fun r => bind r parseCertificateFromBuffer) <$> extractCertificateFromPDF fuel pdfBuffer.

(** [BatchPdfProcessor.processSinglePDF] from the file's bytes on:
    [Ok] is [result.aadhaarDetails] with [success], [Throw] is
    [result.error].  The debug copy it writes of the certificate is left
    out. *)
Definition processSinglePDF (fuel : nat) (pdfBuffer : list Z)
    : option (result AadhaarDetails) :=
  if negb (isPDF pdfBuffer) then Some (Throw (str "File is not a valid PDF"))
  else
    match extractCertificateFromPDF fuel pdfBuffer with
    | None => None
    | Some (Throw m) => Some (Throw (str "Failed to extract certificate: " ++ m))
    | Some (Ok certBuffer) =>
        Some (rethrow "Failed to parse certificate: " (parseCertificateFromBuffer certBuffer))
    end.

End CandidateSelector.

(** ** A node-forge for the examples

    The general statements below hold for every [Forge].  The examples
    need one to run: [plainForge] reads DER and indefinite-length BER as
    [forge.asn1.fromDer] does in its default (strict, all bytes parsed)
    mode and recognises no X.509 certificate and no PKCS#7 message, which
    is node-forge on the inputs of the examples: none of them holds a
    certificate the library accepts, a BIT STRING (whose content the
    library tries to parse further) or a time value.  On certificates and
    messages the instance throws and on times it answers [NaN]; the
    examples run under it give the time decoders nothing but the empty
    value of a NULL, for which the library returns an invalid date, whose
    time is [NaN].  Outside such inputs the instance is not the library:
    it accepts no certificate and no message at all, it encodes an INTEGER
    as it stands where the library normalises it, and its message for a
    malformed length need not be the library's.  Every statement below
    that names this instance is about one of the example inputs. *)

Module PlainForge.

(** [bytes.getInt(8 * n)] of the [n] length bytes. *)
Definition bigEndian (bs : list Z) : Z := foldl (fun acc b => acc * 256 + b) 0 bs.

(** One tag-length-value at the head of [bytes], and what follows it.
    The elements of a constructed value of indefinite length run to the
    two zero bytes that end it. *)
Fixpoint readValue (fuel : nat) (bytes : list Z) : result (asn1 * list Z) :=
  match fuel with
  | O => Throw (str "Too few bytes to parse DER.")
  | S fuel' =>
      match bytes with
      | b1 :: b2 :: rest =>
          let tagClass := Z.land b1 192 in
          let type := Z.land b1 31 in
          let constructed := Z.land b1 32 =? 32 in
          if b2 =? 128 then
            if constructed then
              rmap (fun '(l, after) => (Asn1Arr tagClass type l, after))
                ((fix readToEnd (k : nat) (bs : list Z) : result (list asn1 * list Z) :=
                    match k, bs with
                    | S k', z1 :: z2 :: bs' =>
                        if (z1 =? 0) && (z2 =? 0) then Ok ([], bs')
                        else
                          bind (readValue fuel' bs) (fun '(a, bs'') =>
                          rmap (fun '(l, after) => (a :: l, after)) (readToEnd k' bs''))
                    | _, _ => Throw (str "Too few bytes to parse DER.")
                    end) fuel' rest)
            else Throw (str "Non-constructed ASN.1 object of indefinite length.")
          else
            let n := if Z.land b2 128 =? 0 then O else Z.to_nat (Z.land b2 127) in
            if bool_decide (length rest < n)%nat
            then Throw (str "Too few bytes to parse DER.")
            else
              let len := if Z.land b2 128 =? 0 then b2 else bigEndian (firstn n rest) in
              let body := skipn n rest in
              if Z.of_nat (length body) <? len
              then Throw (str "Too few bytes to read ASN.1 value.")
              else
                let content := firstn (Z.to_nat len) body in
                let after := skipn (Z.to_nat len) body in
                if constructed then
                  rmap (fun l => (Asn1Arr tagClass type l, after))
                    ((fix readAll (k : nat) (bs : list Z) : result (list asn1) :=
                        match k, bs with
                        | _, [] => Ok []
                        | O, _ => Throw (str "Too few bytes to parse DER.")
                        | S k', _ =>
                            bind (readValue fuel' bs) (fun '(a, bs') =>
                            rmap (cons a) (readAll k' bs'))
                        end) fuel' content)
                else Ok (Asn1Str tagClass type content, after)
      | _ => Throw (str "Too few bytes to parse DER.")
      end
  end.

Definition fromDer (bytes : jsstring) : result asn1 :=
  bind (readValue (S (length bytes)) bytes) (fun '(a, rest) =>
  match rest with
  | [] => Ok a
  | _ => Throw (str "Unparsed DER bytes remain after ASN.1 parsing.")
  end).

(** The big-endian bytes of a positive length. *)
Fixpoint lengthBytes (fuel : nat) (n : Z) : list Z :=
  match fuel with
  | O => []
  | S fuel' => if n <=? 0 then [] else lengthBytes fuel' (n / 256) ++ [n mod 256]
  end.

Definition header (tag : Z) (len : Z) : list Z :=
  if len <? 128 then [tag; len]
  else let bs := lengthBytes 8 len in tag :: (128 + Z.of_nat (length bs)) :: bs.

Fixpoint encode (a : asn1) : jsstring :=
  match a with
  | Asn1Str c t v => header (Z.lor c t) (Z.of_nat (length v)) ++ v
  | Asn1Arr c t l =>
      let body := flat_map encode l in
      header (Z.lor (Z.lor c t) 32) (Z.of_nat (length body)) ++ body
  end.

(** The decimal text of a number. *)
Definition decimal (z : Z) : jsstring := str (NilZero.string_of_int (Z.to_int z)).

(** [forge.asn1.derToOid] on a binary string. *)
Fixpoint oidArcs (bs : list Z) (value : Z) : jsstring :=
  match bs with
  | [] => []
  | b :: rest =>
      let value := toInt32 (Z.shiftl value 7) in
      if Z.land b 128 =? 0 then str "." ++ decimal (value + b) ++ oidArcs rest 0
      else oidArcs rest (value + Z.land b 127)
  end.

Definition derToOid (v : jsval) : result jsstring :=
  match v with
  | JStr (b :: rest) => Ok (decimal (b / 40) ++ str "." ++ decimal (b mod 40) ++ oidArcs rest 0)
  | JStr [] => Ok (str "NaN.NaN")
  | _ => Throw (str "bytes.getByte is not a function")
  end.

Definition hexDigit (d : Z) : Z := if d <? 10 then 48 + d else 87 + d.

(** [forge.util.bytesToHex] *)
Definition bytesToHex (v : jsval) : result jsstring :=
  match v with
  | JStr s => Ok (flat_map (fun b => [hexDigit (Z.land b 255 / 16); hexDigit (Z.land b 255 mod 16)]) s)
  | _ => Ok []
  end.

Definition noCertificate {A} : result A :=
  Throw (str "Cannot read X.509 certificate. ASN.1 object is not an X509v3 Certificate.").

Definition time (v : jsval) : result number :=
  match v with
  | JStr _ => Ok NaN
  | _ => Throw (str "utc.substr is not a function")
  end.

End PlainForge.

Definition plainForge : Forge :=
  {| Certificate := Empty_set;
     Pkcs7 := Empty_set;
     cert_serialNumber := fun c => match c with end;
     cert_notAfter := fun c => match c with end;
     cert_subject := fun c => match c with end;
     cert_issuer := fun c => match c with end;
     p7_certificates := fun p => match p with end;
     asn1_fromDer := PlainForge.fromDer;
     asn1_toDer := fun a => Ok (PlainForge.encode a);
     asn1_derToOid := PlainForge.derToOid;
     asn1_utcTimeToDate := PlainForge.time;
     asn1_generalizedTimeToDate := PlainForge.time;
     util_bytesToHex := PlainForge.bytesToHex;
     util_decodeUtf8 := fun _ => Ok (str "[object Object]");
     pkcs7_messageFromAsn1 := fun _ =>
       Throw (str "Cannot read PKCS#7 message. ASN.1 object is not an PKCS#7 ContentInfo.");
     pki_certificateToAsn1 := fun c => match c with end;
     pki_certificateFromAsn1 := fun _ => PlainForge.noCertificate;
     pki_certificateFromPem := fun _ => Throw (str "Invalid PEM formatted message.") |}.

(** ** Notions the statements use *)

Definition isDecimalDigit (c : Z) : bool := (48 <=? c) && (c <=? 57).

(** The number a string of decimal digits writes. *)
Definition decimalValue (s : jsstring) : Z := foldl (fun acc c => acc * 10 + (c - 48)) 0 s.

(** The value of a hexadecimal digit. *)
Definition hexValue (c : Z) : Z :=
  if c <=? 57 then c - 48 else if c <=? 70 then c - 55 else c - 87.

(** The content length a slice declares in its header, read as the
    scans read it: the big-endian number in the length bytes whose count
    is the low seven bits of the second byte. *)
Definition declaredLength (certBinary : jsstring) : Z :=
  readLength certBinary 2 (andNum (index certBinary 1) 127).

Section Admissible.
Context {F : Forge}.

(** The admissibility test of the specification: exactly three top-level
    elements and a declared length of 500 to 10000 bytes. *)
Definition admissible (certBinary : jsstring) : bool :=
  parsesWith certBinary (Z.eqb 3)
  && (500 <=? declaredLength certBinary) && (declaredLength certBinary <=? 10000).

(** The test of strategy 2: at least three top-level elements and a
    declared length of 400 to 10000 bytes. *)
Definition admissibleLoose (certBinary : jsstring) : bool :=
  parsesWith certBinary (Z.leb 3)
  && (400 <=? declaredLength certBinary) && (declaredLength certBinary <=? 10000).

End Admissible.

(** A field of the record is [NA] or one of the decoded values. *)
Definition decodedOrNA (decoded : jsstring -> Prop) (field : jsstring) : Prop :=
  field = NA \/ decoded field.

(** The text fields of a record against the values decoded for the
    subject and for the issuer: the names are such values, the postal
    code is one, the year is the first four characters of one and the
    gender the upper-case fifth character of one. *)
Definition fieldsFrom (subjectValue issuerValue : jsstring -> Prop)
    (r : AadhaarDetails) : Prop :=
  decodedOrNA subjectValue (signerName r)
  /\ decodedOrNA subjectValue (tpin r)
  /\ decodedOrNA subjectValue (state r)
  /\ decodedOrNA (fun g => exists (v : jsstring) (c : Z),
                    subjectValue v /\ v !! 4%nat = Some c /\ g = toUpperCase [c]
                    /\ (g = str "M" \/ g = str "F" \/ g = str "T")) (gender r)
  /\ decodedOrNA (fun y => exists v : jsstring, subjectValue v /\ y = take 4 v) (yob r)
  /\ decodedOrNA subjectValue (pincode r)
  /\ decodedOrNA issuerValue (issuerName r)
  /\ decodedOrNA issuerValue (issuerOrganisation r).

(** A field of two elements, which the loop of [extractFromAsn1] takes
    for the validity. *)
Definition isPair (field : asn1) : bool :=
  (asn1_type field =? SEQUENCE) && (valueLength (asn1_value field) =? 2).

(** The second element of the field is a UTCTime or a GeneralizedTime,
    as that of a validity is. *)
Definition holdsTime (field : asn1) : bool :=
  eqNum (elemType (valueAt (asn1_value field) 1)) UTCTIME
  || eqNum (elemType (valueAt (asn1_value field) 1)) GENERALIZEDTIME.

Section Decoded.
Context {F : Forge}.

(** The time the two decoders give for the second element of a field,
    the UTC decoder first. *)
Definition decodeNotAfter (field : asn1) : option number :=
  match asn1_utcTimeToDate (notAfterOf field) with
  | Ok notAfter => Some notAfter
  | Throw _ =>
      match asn1_generalizedTimeToDate (notAfterOf field) with
      | Ok notAfter => Some notAfter
      | Throw _ => None
      end
  end.

(** One of the two decoders returns for the second element of the
    field. *)
Definition decodes (field : asn1) : bool :=
  bool_decide (is_Some (decodeNotAfter field)).

(** The hex text of an INTEGER field, where the library gives one. *)
Definition integerHex (field : asn1) : option jsstring :=
  if asn1_type field =? INTEGER then
    match util_bytesToHex (asn1_value field) with
    | Ok hex => Some hex
    | Throw _ => None
    end
  else None.

End Decoded.

Section Provenance.
Context {F : Forge}.

(** A record read off a certificate object of the library. *)
Definition fromCertificateObject (cert : Certificate) (r : AadhaarDetails) : Prop :=
  serialNumber r = cert_serialNumber cert
  /\ endDate r = cert_notAfter cert
  /\ fieldsFrom (fun v => v ∈ attr_value <$> cert_subject cert)
                (fun v => v ∈ attr_value <$> cert_issuer cert) r.

(** A record read off the fields of a TBSCertificate: the serial number
    is [NA] or the hex of an INTEGER field; the end date is the number 0
    when the decoders return for no two-element SEQUENCE field, and the
    time decoded from the first such field they return for when that
    field holds a time (of a two-element SEQUENCE of another kind for
    which a decoder returns nothing is said); the text fields are [NA] or
    come from the attribute maps of the subject and the issuer the walk
    found. *)
Definition fromAsn1Walk (tbsCertificate : asn1) (r : AadhaarDetails) : Prop :=
  exists (st : TbsScan) (subjectAttrs issuerAttrs : gmap jsstring jsstring),
    tbsLoop tbsStart (tbsFields tbsCertificate) = Ok st
    /\ extractAsn1Attributes (scan_subjectAsn1 st) = Ok subjectAttrs
    /\ extractAsn1Attributes (scan_issuerAsn1 st) = Ok issuerAttrs
    /\ (serialNumber r = NA
        \/ exists field, field ∈ tbsFields tbsCertificate /\ asn1_type field = INTEGER
                         /\ util_bytesToHex (asn1_value field) = Ok (serialNumber r))
    /\ match head (List.filter decodes (List.filter isPair (tbsFields tbsCertificate))) with
       | None => endDate r = Num 0
       | Some field => holdsTime field = true -> decodeNotAfter field = Some (endDate r)
       end
    /\ fieldsFrom (fun v => exists k, subjectAttrs !! k = Some v)
                  (fun v => exists k, issuerAttrs !! k = Some v) r.

End Provenance.

(** The place of a pattern name in the table of [analyzePdf.js]. *)
Definition patternRank (n : string) : nat :=
  default (length patterns) (fst <$> list_find (fun p => String.eqb (name p) n) patterns).

Section Candidates.
Context {F : Forge}.

(** The certificate the PKCS#7 decode yields for one signature
    candidate. *)
Definition candidateCertificate (fuel : nat) (m : Match) : option (result (list Z)) :=
  extractCertificateFromPKCS7 fuel (hexToBytes (group m 1)).

(** A candidate the loop of [extractCertificateFromPDF] passes over: its
    decode comes back, and fails or yields a certificate that does not
    parse to a record with Aadhaar data. *)
Definition passedOver (fuel : nat) (m : Match) : Prop :=
  exists o : result (list Z),
    candidateCertificate fuel m = Some o
    /\ match o with
       | Ok certificate => bufferHasAadhaarData certificate = false
       | Throw _ => True
       end.

End Candidates.

(** ** Example inputs *)

(** A DER SEQUENCE of 500 content bytes with three elements: an OCTET
    STRING of 492 zero bytes and two NULLs. *)
Definition threeElements500 : list Z :=
  [48; 130; 1; 244; 4; 130; 1; 236] ++ replicate 492 0 ++ [5; 0; 5; 0].

(** A DER SEQUENCE of 400 content bytes with four elements: an OCTET
    STRING of 390 zero bytes and three NULLs. *)
Definition fourElements400 : list Z :=
  [48; 130; 1; 144; 4; 130; 1; 134] ++ replicate 390 0 ++ [5; 0; 5; 0; 5; 0].

(** A certificate without issuer, subject or validity: the SEQUENCE of
    a TBSCertificate that holds the INTEGER 5 alone, and two NULLs. *)
Definition bareCertificate : list Z := [48; 9; 48; 3; 2; 1; 5; 5; 0; 5; 0].

(** The record the code builds for it. *)
Definition bareDetails : AadhaarDetails :=
  {| serialNumber := str "05"; endDate := Num 0;
     signerName := NA; tpin := NA; state := NA; gender := NA; yob := NA;
     pincode := NA; issuerName := NA; issuerOrganisation := NA |}.

(** A signature that holds [bareCertificate]: a NULL, then a [0xA0]
    section with the certificate, then filler.  [fromDer] stops after the
    NULL with bytes left over, and strategy 1 finds the certificate. *)
Definition bareSignatureHex : string := "0500A00B300930030201050500050000000000".

(** A document with a bare [/Contents] blob before a signature
    dictionary that carries the Aadhaar eSign subfilter. *)
Definition twoSignatures : jsstring :=
  str "%PDF-1.4 /Contents <AA> /SubFilter /ETSI.CAdES.detached /Contents <BB> /Contents 12 0 R".

(** The lower-case hex text of bytes. *)
Definition hexOf (bytes : list Z) : jsstring :=
  flat_map (fun b => [PlainForge.hexDigit (b / 16); PlainForge.hexDigit (b mod 16)]) bytes.

(** A signature that holds the certificate [cert] in a [0xA0] section
    after a NULL, with filler after it, as [bareSignatureHex] does. *)
Definition signatureWith (cert : list Z) : list Z :=
  [5; 0; 160; Z.of_nat (length cert)] ++ cert ++ [0; 0; 0; 0].

(** The name [SEQUENCE { SET { SEQUENCE { oid, PrintableString } } ... }]. *)
Definition nameOf (attributes : list (list Z * string)) : asn1 :=
  Asn1Arr 0 16
    (map (fun '(oid, text) =>
            Asn1Arr 0 17 [Asn1Arr 0 16 [Asn1Str 0 6 oid; Asn1Str 0 19 (str text)]])
         attributes).

(** A certificate whose subject carries the title [ABCD1234], the state
    [KA] and the qualifier [1990F56789] (OIDs 2.5.4.12, 2.5.4.8 and
    2.5.4.46), issued by the common name [CA] (OID 2.5.4.3); the library
    takes it for no X.509 certificate, as it has no key and no signature. *)
Definition personalCertificate : list Z :=
  PlainForge.encode
    (Asn1Arr 0 16
       [ Asn1Arr 0 16
           [ Asn1Str 0 2 [7];
             nameOf [([85; 4; 3], "CA"%string)];
             nameOf [([85; 4; 12], "ABCD1234"%string); ([85; 4; 8], "KA"%string);
                     ([85; 4; 46], "1990F56789"%string)] ];
         Asn1Str 0 5 []; Asn1Str 0 5 [] ]).

Definition personalDetails : AadhaarDetails :=
  {| serialNumber := str "07"; endDate := Num 0;
     signerName := NA; tpin := str "ABCD1234"; state := str "KA";
     gender := str "F"; yob := str "1990"; pincode := NA;
     issuerName := str "CA"; issuerOrganisation := NA |}.

(** Three documents: an undecodable signature before a personal one, a
    bare certificate before an undecodable signature, and an undecodable
    signature before a bare certificate. *)
Definition personalSecond : jsstring :=
  str "%PDF-1.4 /Contents <00> /Contents <" ++ hexOf (signatureWith personalCertificate)
  ++ str ">".

Definition bareFirst : jsstring :=
  str "%PDF-1.4 /Contents <" ++ str bareSignatureHex ++ str "> /Contents <00>".

Definition bareSecond : jsstring :=
  str "%PDF-1.4 /Contents <00> /Contents <" ++ str bareSignatureHex ++ str ">".

(** A signature whose [0xA0] section holds a SEQUENCE with the length
    bytes [FF FF FF FA]: as an int32 the length is -6, which the six
    header bytes cancel. *)
Definition stuckSignature : list Z :=
  [5; 0; 160; 6; 48; 132; 255; 255; 255; 250; 0; 0; 0; 0].

(** ** [CertificateParser.parseCertificate] *)

Section ParseCertificate.
Context {F : Forge}.

(** [fs.readFileSync(path)]: the bytes of the file, or the error of the
    read; the file is the same at every read of one call. *)
Variable readFileSync : jsstring -> result (list Z).

(** [parseCertificate(certPath)].  As in [parseCertificateFromBuffer],
    the marker is looked for in the bytes, and the PEM reader is given
    them. *)
Definition parseCertificate (certPath : jsstring) : result AadhaarDetails :=
  rethrow "Failed to parse certificate: "
    (bind (readFileSync certPath) (fun certData =>
     bind (if includes certData (str "BEGIN CERTIFICATE")
           then pki_certificateFromPem certData
           else
             bind (readFileSync certPath) (fun derBuffer =>
             bind (asn1_fromDer derBuffer) pki_certificateFromAsn1))
       (fun cert => Ok (extractAadhaarSignDetails cert)))).

End ParseCertificate.

(** ** [BatchPdfProcessor] *)

(** [String(n)] for an integer below [1e21]. *)
Definition numberToString (n : Z) : jsstring := str (NilZero.string_of_int (Z.to_int n)).

(** [l.join(sep)] *)
Fixpoint join (sep : jsstring) (l : list jsstring) : jsstring :=
  match l with
  | [] => []
  | [s] => s
  | s :: rest => s ++ sep ++ join sep rest
  end.

(** [escapeCSV(field)]; [None] is [null] or [undefined]. *)
Definition escapeCSV (field : option jsstring) : jsstring :=
  match field with
  | None => []
  | Some s =>
      if existsb (fun c => c =? 44) s || existsb (fun c => c =? 34) s
         || existsb (fun c => c =? 10) s
      then [34] ++ flat_map (fun c => if c =? 34 then [34; 34] else [c]) s ++ [34]
      else s
  end.

(** [formatTime(ms)] for a whole number of milliseconds below [2^53], on
    which the divisions and [Math.floor] of the doubles give the integer
    quotients. *)
Definition formatTime (ms : Z) : jsstring :=
  let seconds := ms / 1000 in
  let minutes := seconds / 60 in
  let hours := minutes / 60 in
  if 0 <? hours then
    numberToString hours ++ str "h " ++ numberToString (Z.rem minutes 60) ++ str "m "
    ++ numberToString (Z.rem seconds 60) ++ str "s"
  else if 0 <? minutes then
    numberToString minutes ++ str "m " ++ numberToString (Z.rem seconds 60) ++ str "s"
  else numberToString seconds ++ str "s".

(** The [result] object of [processSinglePDF]. *)
Record FileResult : Type := {
  filePath : jsstring;
  fileName : jsstring;
  success : bool;
  aadhaarDetails : option AadhaarDetails;
  error : option jsstring
}.

(** The [results] object of [processPDFDirectory]. *)
Record BatchResults : Type := {
  totalFiles : Z;
  successCount : Z;
  failureCount : Z;
  processingTime : Z;
  files : list FileResult
}.

(** An entry of [output.files] and the [output] of [resultsToJSON]. *)
Record FileData : Type := {
  data_fileName : jsstring;
  data_filePath : jsstring;
  data_status : jsstring;
  data_aadhaarDetails : option AadhaarDetails;
  data_error : option (option jsstring)
}.

Record JsonOutput : Type := {
  summary_totalFiles : Z;
  summary_successCount : Z;
  summary_failureCount : Z;
  summary_processingTime : Z;
  summary_processingTimeFormatted : jsstring;
  output_files : list FileData
}.

(** The [headers] of [resultsToCSV]. *)
Definition headers : list jsstring :=
  [ str "File Name"; str "File Path"; str "Status"; str "Signer Name"; str "TPIN";
    str "Gender"; str "Year of Birth"; str "State"; str "Pincode"; str "Serial Number";
    str "End Date"; str "Issuer Name"; str "Issuer Organisation"; str "Error" ].

(** The results of a list of calls in order, up to the first that
    throws. *)
Fixpoint collect {A B} (f : A -> result B) (l : list A) : result (list B) :=
  match l with
  | [] => Ok []
  | a :: rest => bind (f a) (fun b => rmap (cons b) (collect f rest))
  end.

Section BatchPdfProcessor.
Context {F : Forge}.

Variable readFileSync : jsstring -> result (list Z).

(** [path.basename(p)] *)
Variable basename : jsstring -> jsstring.

(** [findPDFFiles(dirPath, recursive)], which reads the directory tree. *)
Variable findPDFFiles : jsstring -> bool -> result (list jsstring).

(** [new Date(t).toISOString()], which throws a [RangeError] for a time
    out of the range of dates. *)
Variable toISOString : Z -> result jsstring.

(** [processSinglePDF(pdfPath)]: the [result] object it returns, with the
    read of the file inside its [try]. *)
Definition processSinglePDFResult (fuel : nat) (pdfPath : jsstring) : option FileResult :=
  (fun outcome =>
     match outcome with
     | Ok details =>
         {| filePath := pdfPath; fileName := basename pdfPath; success := true;
            aadhaarDetails := Some details; error := None |}
     | Throw m =>
         {| filePath := pdfPath; fileName := basename pdfPath; success := false;
            aadhaarDetails := None; error := Some m |}
     end)
  <$> match readFileSync pdfPath with
      | Ok pdfBuffer => processSinglePDF fuel pdfBuffer
      | Throw m => Some (Throw m)
      end.

(** The loop of [processPDFDirectory] over [pdfFiles]. *)
Fixpoint processFiles (fuel : nat) (pdfFiles : list jsstring) (results : BatchResults)
    : option BatchResults :=
  match pdfFiles with
  | [] => Some results
  | pdfPath :: rest =>
      match processSinglePDFResult fuel pdfPath with
      | None => None
      | Some result =>
          processFiles fuel rest
            {| totalFiles := totalFiles results;
               successCount := if success result then successCount results + 1
                               else successCount results;
               failureCount := if success result then failureCount results
                               else failureCount results + 1;
               processingTime := processingTime results;
               files := files results ++ [result] |}
      end
  end.

(** [processPDFDirectory(dirPath, recursive)] without a progress
    callback; [startTime] and [endTime] are the two readings of
    [Date.now()]. *)
Definition processPDFDirectory (fuel : nat) (dirPath : jsstring) (recursive : bool)
    (startTime endTime : Z) : option (result BatchResults) :=
  match findPDFFiles dirPath recursive with
  | Throw m => Some (Throw m)
  | Ok pdfFiles =>
      (fun results =>
         Ok {| totalFiles := totalFiles results;
               successCount := successCount results;
               failureCount := failureCount results;
               processingTime := endTime - startTime;
               files := files results |})
      <$> processFiles fuel pdfFiles
            {| totalFiles := Z.of_nat (length pdfFiles); successCount := 0;
               failureCount := 0; processingTime := 0; files := [] |}
  end.

(** The [row] of one file in [resultsToCSV].  A field of the details is
    a string, for which [x || ''] is [x]; the end date is a number, which
    is falsy when it is 0 or [NaN]. *)
Definition csvRow (file : FileResult) : result (list jsstring) :=
  let row :=
    [ escapeCSV (Some (fileName file)); escapeCSV (Some (filePath file));
      if success file then str "Success" else str "Failed" ] in
  match success file, aadhaarDetails file with
  | true, Some details =>
      rmap (fun date =>
              row ++ [ escapeCSV (Some (signerName details));
                       escapeCSV (Some (tpin details));
                       escapeCSV (Some (gender details));
                       escapeCSV (Some (yob details));
                       escapeCSV (Some (state details));
                       escapeCSV (Some (pincode details));
                       escapeCSV (Some (serialNumber details));
                       date;
                       escapeCSV (Some (issuerName details));
                       escapeCSV (Some (issuerOrganisation details));
                       [] ])
        match endDate details with
        | Num t => if t =? 0 then Ok [] else toISOString t
        | NaN => Ok []
        end
  | _, _ =>
      Ok (row ++ [ []; []; []; []; []; []; []; []; []; [];
                   escapeCSV (orElse (error file) (Some (str "Unknown error"))) ])
  end.

(** The [rows] of [resultsToCSV] before they are joined. *)
Definition csvRows (results : BatchResults) (includeFailures : bool)
    : result (list (list jsstring)) :=
  rmap (cons headers)
    (collect csvRow (List.filter (fun file => success file || includeFailures) (files results))).

(** [resultsToCSV(results, includeFailures)] *)
Definition resultsToCSV (results : BatchResults) (includeFailures : bool) : result jsstring :=
  rmap (fun rows => join [10] (map (join [44]) rows)) (csvRows results includeFailures).

(** [resultsToJSON(results, includeFailures)] *)
Definition resultsToJSON (results : BatchResults) (includeFailures : bool) : JsonOutput :=
  {| summary_totalFiles := totalFiles results;
     summary_successCount := successCount results;
     summary_failureCount := failureCount results;
     summary_processingTime := processingTime results;
     summary_processingTimeFormatted := formatTime (processingTime results);
     output_files :=
       map (fun file =>
              {| data_fileName := fileName file;
                 data_filePath := filePath file;
                 data_status := if success file then str "success" else str "failed";
                 data_aadhaarDetails :=
                   if success file then aadhaarDetails file else None;
                 data_error :=
                   match success file, aadhaarDetails file with
                   | true, Some _ => None
                   | _, _ => Some (error file)
                   end |})
         (List.filter (fun file => success file || includeFailures) (files results)) |}.

End BatchPdfProcessor.

(** ** Further notions the statements use *)

(** What the scan of a certificates section adds to [scanPos] after a
    SEQUENCE tag at [scanPos] that yields no certificate:
    [seqLengthBytes + seqLength]. *)
Definition advance (bytes : list Z) (scanPos : Z) : option Z :=
  let '(seqLength, seqLengthBytes) := decodeSequenceLength bytes scanPos in
  Z.add seqLengthBytes <$> seqLength.

(** Every SEQUENCE tag of [bytes] moves that scan forward. *)
Definition advancing (bytes : list Z) : bool :=
  forallb (fun p => negb (eqNum (index bytes p) 48)
                    || match advance bytes p with
                       | Some a => 0 <? a
                       | None => true
                       end)
          (seqZ 0 (Z.of_nat (length bytes))).

(** No SEQUENCE tag of [bytes] is followed by a length byte that
    announces more than three length bytes. *)
Definition shortLengths (bytes : list Z) : bool :=
  forallb (fun p => negb (eqNum (index bytes p) 48)
                    || negb (gtNum (index bytes (p + 1)) 131))
          (seqZ 0 (Z.of_nat (length bytes))).

(** Whether an object, or one inside it, has the tag class [c]. *)
Fixpoint usesClass (c : Z) (a : asn1) : bool :=
  match a with
  | Asn1Str c' _ _ => c' =? c
  | Asn1Arr c' _ l => (c' =? c) || existsb (usesClass c) l
  end.

(** The attribute is stored under the key [k] by [getAttributes]. *)
Definition storedUnder (k : jsstring) (attr : Attr) : bool :=
  negb (streq k [])
  && (bool_decide (attr_shortName attr = Some k) || bool_decide (attr_type attr = Some k)
      || bool_decide (attr_name attr = Some k)).

(** The text holds, at offset [p], the key [/Contents], white space, and
    the hex digits [hex] between angle brackets. *)
Definition contentsAt (text : jsstring) (p : nat) (hex : jsstring) : Prop :=
  exists ws post : jsstring,
    drop p text = str "/Contents" ++ ws ++ [60] ++ hex ++ [62] ++ post
    /\ forallb isWhiteSpace ws = true
    /\ hex <> [] /\ forallb isHexDigit hex = true.

(** A reader of one CSV field: a field in double quotes stands for its
    content with each doubled quote read as one. *)
Fixpoint unquote (s : jsstring) : jsstring :=
  match s with
  | c :: r =>
      match r with
      | d :: r' => if (c =? 34) && (d =? 34) then 34 :: unquote r' else c :: unquote r
      | [] => [c]
      end
  | [] => []
  end.

Definition readField (s : jsstring) : jsstring :=
  match s with
  | c :: r => if c =? 34 then unquote (removelast r) else s
  | [] => []
  end.

(** A byte. *)
Definition isByte (b : Z) : bool := (0 <=? b) && (b <=? 255).

(** The text starts with the key, white space and a bracketed run of
    hex digits, [len] characters in all. *)
Definition contentsHead (rest hex : jsstring) (len : nat) : Prop :=
  exists ws post : jsstring,
    rest = str "/Contents" ++ ws ++ [60] ++ hex ++ [62] ++ post
    /\ forallb isWhiteSpace ws = true
    /\ hex <> [] /\ forallb isHexDigit hex = true
    /\ len = (9 + length ws + 1 + length hex + 1)%nat.

(** The number of groups a sequence of items closes. *)
Definition closes (items : list item) : nat :=
  length (List.filter (fun it => match it with Close => true | _ => false end) items).

(** A reader of one CSV line: the cells between the commas that stand
    outside double quotes. *)
Fixpoint splitRow (s : jsstring) (quoted : bool) (cell : jsstring) : list jsstring :=
  match s with
  | [] => [cell]
  | c :: r =>
      if c =? 34 then splitRow r (negb quoted) (cell ++ [c])
      else if (c =? 44) && negb quoted then cell :: splitRow r false []
      else splitRow r quoted (cell ++ [c])
  end.

Definition readRow (line : jsstring) : list jsstring := map readField (splitRow line false []).

(** A comma, a double quote or a line feed. *)
Definition special (c : Z) : bool := (c =? 44) || (c =? 34) || (c =? 10).

(** A [result] object holds details or an error, as [success] tells. *)
Definition consistent (file : FileResult) : Prop :=
  (success file = true /\ is_Some (aadhaarDetails file) /\ error file = None)
  \/ (success file = false /\ aadhaarDetails file = None /\ is_Some (error file)).

(** The number of results with [success]. *)
Definition successes (l : list FileResult) : Z :=
  Z.of_nat (length (List.filter success l)).

Definition nonEmpty (s : jsstring) : bool := negb (streq s []).

Section Errors.
Context {F : Forge}.

(** The messages [extractCertificateFromPKCS7] can throw: its own, that
    of [extractCertificateFromASN1], a message of the library's [fromDer]
    or [toDer], or what [extractCertificateByPattern] threw, each under
    the prefixes of the functions it passed through.  The message under
    the prefix of [extractCertificateByPattern] is left open: its [catch]
    takes every error of the scans, its own and the engine's alike. *)
Definition decodeError (m : jsstring) : Prop :=
  m = str "Failed to extract certificate from PKCS#7: No certificates found in signature"
  \/ exists m' : jsstring,
       m = str "Failed to extract certificate from PKCS#7: Failed to extract certificate from ASN.1: " ++ m'
       /\ (m' = str "Could not find certificate in ASN.1 structure"
           \/ (exists m'' : jsstring, m' = str "Pattern-based extraction failed: " ++ m'')
           \/ (exists bytes : jsstring, asn1_fromDer bytes = Throw m')
           \/ (exists a : asn1, asn1_toDer a = Throw m')).

(** The messages [extractCertificateFromPDF] can throw. *)
Definition extractionError (m : jsstring) : Prop :=
  m = str "Failed to extract certificate from PDF: No signature found in PDF. The PDF may not be digitally signed."
  \/ exists m' : jsstring,
       m = str "Failed to extract certificate from PDF: " ++ m' /\ decodeError m'.

End Errors.

Section PatternCertificates.
Context {F : Forge}.

(** A certificate that is a slice of the scanned bytes which the library
    parses to at least three top-level elements. *)
Definition slicedCertificate (bytes certificate : list Z) : Prop :=
  exists (i : Z) (e : option Z),
    certificate = bufferFrom (slice bytes i e)
    /\ parsesWith (slice bytes i e) (Z.leb 3) = true.

(** A certificate that is the library's encoding of a SEQUENCE of three
    elements, found among the elements of a parsed slice of the scanned
    bytes. *)
Definition nestedCertificate (bytes certificate : list Z) : Prop :=
  exists (i : Z) (e : option Z) (testAsn1 elem : asn1) (elems : list asn1) (der : jsstring),
    asn1_fromDer (slice bytes i e) = Ok testAsn1
    /\ asn1_value testAsn1 = JArr elems /\ elem ∈ elems
    /\ asn1_type elem = SEQUENCE /\ arrayOfLength (asn1_value elem) (Z.eqb 3) = true
    /\ asn1_toDer elem = Ok der /\ certificate = bufferFrom der.

(** The OID and the value [extractAsn1Attributes] reads off an RDN, those
    of its first attribute; [None] for an RDN it passes over. *)
Definition rdnEntry (rdn : asn1) : option (jsstring * jsstring) :=
  if (asn1_type rdn =? SET) && (0 <? valueLength (asn1_value rdn)) then
    let attrSeq := valueAt (asn1_value rdn) 0 in
    if eqNum (elemType attrSeq) SEQUENCE && (2 <=? valueLength (elemValue attrSeq)) then
      match asn1_derToOid (elemValue (valueAt (elemValue attrSeq) 0)),
            match elemValue (valueAt (elemValue attrSeq) 1) with
            | JArr l => util_decodeUtf8 l
            | JStr s => Ok s
            | JUndefined => Ok []
            end with
      | Ok oid, Ok value => Some (oid, value)
      | _, _ => None
      end
    else None
  else None.

End PatternCertificates.

(** The entry is stored under the key [k]: [k] is its OID, or the short
    name [nameMap] has for its OID. *)
Definition entryUnder (k : jsstring) (entry : jsstring * jsstring) : bool :=
  streq (fst entry) k || bool_decide (nameMapLookup (fst entry) = Some k).

(** The number the [n] bytes from [start] on write, most significant
    byte first; a byte past the end of the array counts as 0. *)
Definition bigEndianAt (bytes : list Z) (start n : Z) : Z :=
  foldl (fun len j => len * 256 + default 0 (index bytes (start + j))) 0 (seqZ 0 n).

(** The names of the properties every object inherits, under which a
    lookup in an object does not tell what was stored. *)
Definition inherited (k : jsstring) : bool :=
  existsb (streq k)
    [ str "__proto__"; str "constructor"; str "hasOwnProperty"; str "isPrototypeOf";
      str "propertyIsEnumerable"; str "toLocaleString"; str "toString"; str "valueOf";
      str "__defineGetter__"; str "__defineSetter__"; str "__lookupGetter__";
      str "__lookupSetter__" ].

(** ** Further example inputs *)

(** A signature that is well-formed DER: a SEQUENCE that holds a
    SEQUENCE that holds a [[0]] field with [bareCertificate]. *)
Definition wrappedCertificate : list Z := [48; 15; 48; 13; 160; 11] ++ bareCertificate.

(** The algorithm identifier [sha256WithRSAEncryption] with its NULL
    parameters. *)
Definition algorithmField : asn1 :=
  Asn1Arr 0 16 [Asn1Str 0 6 [42; 134; 72; 134; 247; 13; 1; 1; 11]; Asn1Str 0 5 []].

(** The fields of a TBSCertificate: serial number, signature algorithm,
    issuer and subject. *)
Definition algorithmFirst : list asn1 :=
  [ Asn1Str 0 2 [7];
    algorithmField;
    nameOf [([85; 4; 3], "CA"%string)];
    nameOf [([85; 4; 12], "ABCD1234"%string)] ].

(** A batch of two paths, of which the first holds the document
    [bareFirst] and the second cannot be read. *)
Definition exampleRead (p : jsstring) : result (list Z) :=
  if streq p (str "a.pdf") then Ok bareFirst
  else Throw (str "ENOENT: no such file or directory, open 'b.pdf'").

Definition exampleFind (dirPath : jsstring) (recursive : bool) : result (list jsstring) :=
  Ok [str "a.pdf"; str "b.pdf"].

Definition exampleDate (t : Z) : result jsstring := Throw (str "Invalid time value").

Definition exampleBatch : BatchResults :=
  {| totalFiles := 2; successCount := 1; failureCount := 1; processingTime := 7;
     files :=
       [ {| filePath := str "a.pdf"; fileName := str "a.pdf"; success := true;
            aadhaarDetails := Some bareDetails; error := None |};
         {| filePath := str "b.pdf"; fileName := str "b.pdf"; success := false;
            aadhaarDetails := None;
            error := Some (str "ENOENT: no such file or directory, open 'b.pdf'") |} ] |}.

(** A library that reads every text with the PEM marker as one
    certificate, and nothing else as a certificate. *)
Definition pemForge : Forge :=
  {| Certificate := unit;
     Pkcs7 := Empty_set;
     cert_serialNumber := fun _ => str "0a";
     cert_notAfter := fun _ => Num 1893456000000;
     cert_subject := fun _ =>
       [ {| attr_shortName := Some (str "CN"); attr_type := Some (str "2.5.4.3");
            attr_name := Some (str "commonName"); attr_value := str "Asha" |};
         {| attr_shortName := None; attr_type := Some (str "2.5.4.12");
            attr_name := Some (str "title"); attr_value := str "ABCD1234" |};
         {| attr_shortName := None; attr_type := Some (str "2.5.4.46");
            attr_name := None; attr_value := str "1990F56789" |} ];
     cert_issuer := fun _ =>
       [ {| attr_shortName := Some (str "CN"); attr_type := Some (str "2.5.4.3");
            attr_name := Some (str "commonName"); attr_value := str "CA" |} ];
     p7_certificates := fun p => match p with end;
     asn1_fromDer := PlainForge.fromDer;
     asn1_toDer := fun a => Ok (PlainForge.encode a);
     asn1_derToOid := PlainForge.derToOid;
     asn1_utcTimeToDate := PlainForge.time;
     asn1_generalizedTimeToDate := PlainForge.time;
     util_bytesToHex := PlainForge.bytesToHex;
     util_decodeUtf8 := fun _ => Ok (str "[object Object]");
     pkcs7_messageFromAsn1 := fun _ =>
       Throw (str "Cannot read PKCS#7 message. ASN.1 object is not an PKCS#7 ContentInfo.");
     pki_certificateToAsn1 := fun _ => Ok (Asn1Arr 0 16 []);
     pki_certificateFromAsn1 := fun _ => PlainForge.noCertificate;
     pki_certificateFromPem := fun text =>
       if includes text (str "BEGIN CERTIFICATE") then Ok tt
       else Throw (str "Invalid PEM formatted message.") |}.

Definition pemDetails : AadhaarDetails :=
  {| serialNumber := str "0a"; endDate := Num 1893456000000;
     signerName := str "Asha"; tpin := NA; state := NA;
     gender := str "F"; yob := str "1990"; pincode := NA;
     issuerName := str "CA"; issuerOrganisation := NA |}.

(** A library that decodes the UTCTime [300101000000Z], the first of
    January 2030, and is [plainForge] on everything else. *)
Definition clockForge : Forge :=
  {| Certificate := Empty_set;
     Pkcs7 := Empty_set;
     cert_serialNumber := fun c => match c with end;
     cert_notAfter := fun c => match c with end;
     cert_subject := fun c => match c with end;
     cert_issuer := fun c => match c with end;
     p7_certificates := fun p => match p with end;
     asn1_fromDer := PlainForge.fromDer;
     asn1_toDer := fun a => Ok (PlainForge.encode a);
     asn1_derToOid := PlainForge.derToOid;
     asn1_utcTimeToDate := fun v =>
       match v with
       | JStr s => if streq s (str "300101000000Z") then Ok (Num 1893456000000)
                   else PlainForge.time v
       | _ => PlainForge.time v
       end;
     asn1_generalizedTimeToDate := PlainForge.time;
     util_bytesToHex := PlainForge.bytesToHex;
     util_decodeUtf8 := fun _ => Ok (str "[object Object]");
     pkcs7_messageFromAsn1 := fun _ =>
       Throw (str "Cannot read PKCS#7 message. ASN.1 object is not an PKCS#7 ContentInfo.");
     pki_certificateToAsn1 := fun c => match c with end;
     pki_certificateFromAsn1 := fun _ => PlainForge.noCertificate;
     pki_certificateFromPem := fun _ => Throw (str "Invalid PEM formatted message.") |}.

(** The validity from the first of January 2020 to the first of January
    2030, and a certificate that has it between the serial number and
    the names. *)
Definition validityField : asn1 :=
  Asn1Arr 0 16 [Asn1Str 0 23 (str "200101000000Z"); Asn1Str 0 23 (str "300101000000Z")].

Definition datedFields : list asn1 :=
  [ Asn1Str 0 2 [7];
    nameOf [([85; 4; 3], "CA"%string)];
    validityField;
    nameOf [([85; 4; 12], "ABCD1234"%string); ([85; 4; 8], "KA"%string);
            ([85; 4; 46], "1990F56789"%string)] ].

Definition datedCertificate : list Z :=
  PlainForge.encode (Asn1Arr 0 16 [Asn1Arr 0 16 datedFields; Asn1Str 0 5 []; Asn1Str 0 5 []]).

Definition datedDetails : AadhaarDetails :=
  {| serialNumber := str "07"; endDate := Num 1893456000000;
     signerName := NA; tpin := str "ABCD1234"; state := str "KA";
     gender := str "F"; yob := str "1990"; pincode := NA;
     issuerName := str "CA"; issuerOrganisation := NA |}.

(** A name with two common names and a locality. *)
Definition twoNames : asn1 :=
  nameOf [([85; 4; 3], "Asha"%string); ([85; 4; 7], "Pune"%string); ([85; 4; 3], "Asha Rao"%string)].

(* ================================================================== *)
(** * Properties *)

(** ** [parseInt] *)

Lemma trimStart_suffix (s : jsstring) :
  trimStart s = s \/ (length (trimStart s) < length s)%nat.
Proof.
  induction s as [|c r IH]; simpl; [now left|].
  destruct (isWhiteSpace c); [right|now left].
  destruct IH as [->|IH]; lia.
Qed.

Lemma digitValue_range c d : digitValue c = Some d -> 0 <= d < 36.
Proof.
  unfold digitValue. repeat case_match; intros [= <-]; zbool; lia.
Qed.

Lemma radixDigit_range R c d : radixDigit R c = Some d -> 0 <= d < R.
Proof.
  unfold radixDigit. destruct (digitValue c) as [d'|] eqn:E; [|discriminate].
  destruct (d' <? R) eqn:E'; intros [= <-].
  apply digitValue_range in E. lia.
Qed.

Lemma radixDigit_10 c : radixDigit 10 c = if isDecimalDigit c then Some (c - 48) else None.
Proof.
  unfold radixDigit, digitValue, isDecimalDigit.
  repeat case_match; simplify_eq; zbool; try reflexivity; try lia.
Qed.

(** The digits read are bounded by the length of the text. *)
Lemma parseDigits_upper R : 1 < R -> forall s seen acc n,
  0 <= acc -> parseDigits R s seen acc = Some n ->
  acc <= n /\ n + 1 <= (acc + 1) * R ^ Z.of_nat (length s).
Proof.
  intros HR. induction s as [|c r IH]; intros seen acc n Hacc; simpl length; simpl parseDigits.
  - destruct seen; intros [= <-]. simpl. lia.
  - rewrite Nat2Z.inj_succ, Z.pow_succ_r by lia.
    assert (0 < R ^ Z.of_nat (length r)) by (apply Z.pow_pos_nonneg; lia).
    destruct (radixDigit R c) as [d|] eqn:E.
    + apply radixDigit_range in E. intros H'.
      apply IH in H'; [|nia]. split; [nia|]. nia.
    + destruct seen; intros [= <-]. nia.
Qed.

(** A text that is not all decimal digits is read one digit short. *)
Lemma parseDigits_short : forall s seen acc n,
  0 <= acc -> forallb isDecimalDigit s = false ->
  parseDigits 10 s seen acc = Some n ->
  n + 1 <= (acc + 1) * 10 ^ (Z.of_nat (length s) - 1).
Proof.
  induction s as [|c r IH]; intros seen acc n Hacc Hnot; [discriminate|].
  simpl length. simpl parseDigits. rewrite radixDigit_10.
  simpl in Hnot. rewrite Nat2Z.inj_succ.
  replace (Z.succ (Z.of_nat (length r)) - 1) with (Z.of_nat (length r)) by lia.
  assert (0 < 10 ^ Z.of_nat (length r)) by (apply Z.pow_pos_nonneg; lia).
  destruct (isDecimalDigit c) eqn:E.
  - simpl in Hnot. intros H'. pose proof H' as H''.
    apply IH in H'; [|unfold isDecimalDigit in E; lia|assumption].
    destruct r as [|c' r']; [discriminate|].
    simpl length in *. rewrite Nat2Z.inj_succ in *.
    replace (Z.succ (Z.of_nat (length r')) - 1) with (Z.of_nat (length r')) in H' by lia.
    rewrite Z.pow_succ_r by lia.
    unfold isDecimalDigit in E. nia.
  - destruct seen; intros [= <-]. nia.
Qed.

Lemma parseDigits_decimal : forall s seen acc,
  forallb isDecimalDigit s = true -> (seen = true \/ s <> []) ->
  parseDigits 10 s seen acc = Some (foldl (fun a c => a * 10 + (c - 48)) acc s).
Proof.
  induction s as [|c r IH]; intros seen acc Hall Hne; simpl.
  - destruct Hne as [->|Hne]; [reflexivity|congruence].
  - simpl in Hall. apply andb_prop in Hall as [Hc Hr].
    rewrite radixDigit_10, Hc. apply IH; auto.
Qed.

Lemma digit_not_space c : isDecimalDigit c = true -> isWhiteSpace c = false.
Proof.
  unfold isDecimalDigit, isWhiteSpace. intros H.
  repeat (apply orb_false_intro); try (apply andb_false_iff); lia.
Qed.

(** What [parseInt] reads: a sign and the digits of a suffix, in radix
    10, or in radix 16 after a two-character prefix. *)
Lemma parseInt_shape (s : jsstring) :
  exists sign R s2,
    parseInt s 0 = option_map (Z.mul sign) (parseDigits R s2 false 0)
    /\ (sign = 1 \/ sign = -1)
    /\ ((R = 10 /\ (s2 = s \/ (length s2 < length s)%nat))
        \/ (R = 16 /\ (length s2 + 2 <= length s)%nat)).
Proof.
  unfold parseInt. cbn [Z.eqb negb andb orb].
  pose proof (trimStart_suffix s) as Htrim.
  set (s0 := trimStart s) in *. clearbody s0.
  assert (forall sign s1, (sign = 1 \/ sign = -1) ->
            (s1 = s \/ (length s1 < length s)%nat) ->
            exists sign' R s2,
              (let '(R', s2') :=
                 match s1 with
                 | z :: x :: r =>
                     if (z =? 48) && ((x =? 120) || (x =? 88)) then (16, r) else (10, s1)
                 | _ => (10, s1)
                 end in option_map (Z.mul sign) (parseDigits R' s2' false 0))
              = option_map (Z.mul sign') (parseDigits R s2 false 0)
              /\ (sign' = 1 \/ sign' = -1)
              /\ ((R = 10 /\ (s2 = s \/ (length s2 < length s)%nat))
                  \/ (R = 16 /\ (length s2 + 2 <= length s)%nat))) as Hprefix.
  { intros sign s1 Hsign Hs1.
    destruct s1 as [|z [|x r]]; try (exists sign, 10; eexists; split; [reflexivity|auto]).
    destruct ((z =? 48) && ((x =? 120) || (x =? 88))).
    - exists sign, 16, r. split; [reflexivity|]. split; [assumption|]. right.
      split; [reflexivity|]. destruct Hs1 as [<-|Hs1]; simpl in *; lia.
    - exists sign, 10; eexists; split; [reflexivity|auto]. }
  destruct s0 as [|c r].
  - apply (Hprefix 1 []); auto.
  - destruct (c =? 45); [|destruct (c =? 43)].
    + apply (Hprefix (-1) r); [auto|]. right. destruct Htrim as [<-|Htrim]; simpl in *; lia.
    + apply (Hprefix 1 r); [auto|]. right. destruct Htrim as [<-|Htrim]; simpl in *; lia.
    + apply (Hprefix 1 (c :: r)); auto.
Qed.

Lemma pow16_le_pow10 (k : nat) :
  (2 <= k <= 6)%nat -> 16 ^ (Z.of_nat k - 2) <= 10 ^ (Z.of_nat k - 1).
Proof.
  intros Hk.
  do 7 (destruct k as [|k]; [first [lia | vm_compute; intro; discriminate]|]).
  lia.
Qed.

(** A text [parseInt] reads as more than [10 ^ (length - 1)] is all
    decimal digits. *)
Lemma parseInt_large (s : jsstring) (n : Z) :
  (2 <= length s <= 6)%nat -> parseInt s 0 = Some n ->
  10 ^ (Z.of_nat (length s) - 1) <= n -> forallb isDecimalDigit s = true.
Proof.
  intros Hlen Hp Hn.
  destruct (parseInt_shape s) as (sign & R & s2 & Heq & Hsign & Hshape).
  rewrite Hp in Heq. destruct (parseDigits R s2 false 0) as [m|] eqn:Hm; [|discriminate].
  injection Heq as ->.
  assert (0 < 10 ^ (Z.of_nat (length s) - 1)) by (apply Z.pow_pos_nonneg; lia).
  destruct Hshape as [[-> Hs2]|[-> Hs2]].
  - pose proof (parseDigits_upper 10 ltac:(lia) s2 false 0 m ltac:(lia) Hm) as [Hm0 Hm1].
    destruct Hsign as [->| ->]; [|lia].
    destruct Hs2 as [Hs2|Hs2].
    + rewrite Hs2 in Hm.
      destruct (forallb isDecimalDigit s) eqn:Hall; [reflexivity|].
      pose proof (parseDigits_short s false 0 m ltac:(lia) Hall Hm). lia.
    + assert (10 ^ Z.of_nat (length s2) <= 10 ^ (Z.of_nat (length s) - 1))
        by (apply Z.pow_le_mono_r; lia).
      lia.
  - pose proof (parseDigits_upper 16 ltac:(lia) s2 false 0 m ltac:(lia) Hm) as [Hm0 Hm1].
    destruct Hsign as [->| ->]; [|lia].
    assert (16 ^ Z.of_nat (length s2) <= 16 ^ (Z.of_nat (length s) - 2))
      by (apply Z.pow_le_mono_r; lia).
    assert (16 ^ (Z.of_nat (length s) - 2) <= 10 ^ (Z.of_nat (length s) - 1)).
    { apply pow16_le_pow10, Hlen. }
    lia.
Qed.

(** On a non-empty text of decimal digits [parseInt] is the number
    written. *)
Lemma parseInt_decimal (s : jsstring) :
  forallb isDecimalDigit s = true -> s <> [] -> parseInt s 0 = Some (decimalValue s).
Proof.
  intros Hall Hne. destruct s as [|a r]; [congruence|].
  pose proof Hall as Hall'. simpl in Hall'. apply andb_prop in Hall' as [Ha Hr].
  unfold parseInt. simpl trimStart. rewrite (digit_not_space a Ha).
  assert ((a =? 45) = false) as -> by (unfold isDecimalDigit in Ha; lia).
  assert ((a =? 43) = false) as -> by (unfold isDecimalDigit in Ha; lia).
  cbn [negb andb orb Z.eqb].
  assert (parseDigits 10 (a :: r) false 0 = Some (decimalValue (a :: r))) as Hd
    by (apply parseDigits_decimal; auto).
  assert (forall z : Z, 1 * z = z) as Hone by (intros; lia).
  destruct r as [|x r'].
  - rewrite Hd. simpl. f_equal. apply Hone.
  - simpl in Hr. apply andb_prop in Hr as [Hx _].
    assert ((x =? 120) || (x =? 88) = false) as ->
      by (unfold isDecimalDigit in Hx; apply orb_false_intro; lia).
    rewrite andb_false_r. rewrite Hd. simpl. f_equal. apply Hone.
Qed.

(** Leading white space is skipped. *)
Lemma trimStart_app (ws s : jsstring) :
  forallb isWhiteSpace ws = true -> trimStart (ws ++ s) = trimStart s.
Proof.
  induction ws as [|c r IH]; [reflexivity|].
  cbn [forallb]. intros H. apply andb_prop in H as [Hc Hr].
  cbn [app trimStart]. rewrite Hc. apply IH, Hr.
Qed.

(** Once a digit is read, the digits read so far are a number. *)
Lemma parseDigits_seen (R : Z) : 1 < R -> forall (s : jsstring) (acc : Z),
  0 <= acc -> exists n, parseDigits R s true acc = Some n /\ acc <= n.
Proof.
  intros HR. induction s as [|c r IH]; intros acc Hacc; cbn [parseDigits].
  - exists acc. split; [reflexivity|lia].
  - destruct (radixDigit R c) as [d|] eqn:E.
    + apply radixDigit_range in E.
      destruct (IH (acc * R + d) ltac:(nia)) as (n & Hn & Hle).
      exists n. split; [assumption|nia].
    + exists acc. split; [reflexivity|lia].
Qed.

(** Decimal digits at the head of a text are read whatever follows. *)
Lemma parseDigits_app (digits rest : jsstring) : forall (seen : bool) (acc : Z),
  forallb isDecimalDigit digits = true ->
  parseDigits 10 (digits ++ rest) seen acc
  = parseDigits 10 rest (seen || negb (streq digits []))
      (foldl (fun a c => a * 10 + (c - 48)) acc digits).
Proof.
  induction digits as [|c r IH]; intros seen acc Hall.
  - cbn. rewrite orb_false_r. reflexivity.
  - cbn [forallb] in Hall. apply andb_prop in Hall as [Hc Hr].
    cbn [app parseDigits foldl]. rewrite radixDigit_10, Hc, (IH _ _ Hr).
    unfold streq. rewrite (bool_decide_eq_false_2 (c :: r = [])) by discriminate.
    cbn [negb]. rewrite orb_true_r. reflexivity.
Qed.



(** [parseInt] reads the decimal digits at the head of a text, after
    white space, whatever follows them. *)
Lemma parseInt_leading (ws digits rest : jsstring) :
  forallb isWhiteSpace ws = true ->
  forallb isDecimalDigit digits = true ->
  0 < decimalValue digits ->
  exists n, parseInt (ws ++ digits ++ rest) 0 = Some n /\ decimalValue digits <= n.
Proof.
  intros Hws Hall Hpos.
  destruct digits as [|a r]; [cbn in Hpos; lia|].
  pose proof Hall as Hall'. cbn [forallb] in Hall'. apply andb_prop in Hall' as [Ha Hr].
  assert (exists n, parseDigits 10 ((a :: r) ++ rest) false 0 = Some n
                    /\ decimalValue (a :: r) <= n) as (n & Hn & Hle).
  { rewrite (parseDigits_app (a :: r) rest false 0 Hall).
    unfold streq. rewrite (bool_decide_eq_false_2 (a :: r = [])) by discriminate.
    cbn [negb orb]. apply parseDigits_seen; [lia|]. fold (decimalValue (a :: r)). lia. }
  exists n. split; [|assumption].
  unfold parseInt. rewrite (trimStart_app ws _ Hws).
  cbn [app trimStart]. rewrite (digit_not_space a Ha).
  assert ((a =? 45) = false) as -> by (unfold isDecimalDigit in Ha; lia).
  assert ((a =? 43) = false) as -> by (unfold isDecimalDigit in Ha; lia).
  cbn [negb andb orb Z.eqb].
  assert (forall z : Z, 1 * z = z) as Hone by (intros; lia).
  assert (match r ++ rest with
          | x :: _ => (a =? 48) && ((x =? 120) || (x =? 88)) = false
          | [] => True
          end) as Hprefix.
  { destruct r as [|x r'].
    - assert ((a =? 48) = false) as ->; [|destruct rest; reflexivity].
      cbn in Hpos. lia.
    - cbn [forallb] in Hr. apply andb_prop in Hr as [Hx _]. cbn [app].
      assert ((x =? 120) || (x =? 88) = false) as ->
        by (unfold isDecimalDigit in Hx; apply orb_false_intro; lia).
      apply andb_false_r. }
  cbn [app] in Hn.
  destruct (r ++ rest) as [|x t] eqn:Htail.
  - rewrite Hn. cbn. f_equal. apply Hone.
  - rewrite Hprefix, Hn. cbn. f_equal. apply Hone.
Qed.

(** ** IdentityDecoder *)

Lemma indexOfFrom_char (x : Z) (s : jsstring) (c i : Z) :
  indexOfFrom (x :: s) [c] i = if x =? c then i else indexOfFrom s [c] (i + 1).
Proof.
  simpl. unfold streq. destruct (Z.eqb_spec x c) as [->|Hne].
  - rewrite bool_decide_eq_true_2; reflexivity.
  - rewrite bool_decide_eq_false_2; [reflexivity|congruence].
Qed.

Lemma gender_letter (c : Z) :
  (0 <=? indexOf (str "MmFfTt") [c])
  = ((c =? 77) || (c =? 109) || (c =? 70) || (c =? 102) || (c =? 84) || (c =? 116)).
Proof.
  unfold indexOf. change (str "MmFfTt") with [77; 109; 70; 102; 84; 116].
  rewrite !indexOfFrom_char.
  change (indexOfFrom [] [c] (0 + 1 + 1 + 1 + 1 + 1 + 1)) with (-1).
  rewrite !(Z.eqb_sym c).
  repeat (match goal with |- context [?k =? c] => destruct (k =? c) end; [reflexivity|]).
  reflexivity.
Qed.

(** C9. [decodeQualifier] is total over optional text; under four
    characters it yields [(NA, NA)]; from four characters on the year is
    the first four characters exactly when [parseInt] reads them as more
    than 1900, which is exactly when they are four decimal digits writing
    a number above 1900; from five characters on the gender is the upper
    case of the fifth character when that is one of [MmFfTt], else [NA];
    a four-character qualifier can yield a year and no gender. *)
Theorem decodeQualifier_total :
  decodeQualifier None = (NA, NA)
  /\ (forall q : jsstring,
        ((length q < 4)%nat -> decodeQualifier (Some q) = (NA, NA))
        /\ ((4 <= length q)%nat ->
              fst (decodeQualifier (Some q))
              = (if gtNum (parseInt (firstn 4 q) 0) 1900 then firstn 4 q else NA)
              /\ gtNum (parseInt (firstn 4 q) 0) 1900
                 = forallb isDecimalDigit (firstn 4 q) && (1900 <? decimalValue (firstn 4 q)))
        /\ (length q = 4%nat -> snd (decodeQualifier (Some q)) = NA)
        /\ (forall c : Z, (5 <= length q)%nat -> q !! 4%nat = Some c ->
              snd (decodeQualifier (Some q))
              = if (c =? 77) || (c =? 109) then str "M"
                else if (c =? 70) || (c =? 102) then str "F"
                else if (c =? 84) || (c =? 116) then str "T"
                else NA))
  /\ decodeQualifier (Some (str "1990")) = (str "1990", NA)
  /\ decodeQualifier (Some (str "1990F56789")) = (str "1990", str "F").
Proof.
  split; [reflexivity|]. split; [|split; reflexivity].
  intros q. unfold decodeQualifier, getBirthYear, getGenderInfo. cbn [fst snd].
  split; [|split; [intros Hge; split; revert Hge|split]].
  - intros Hlt.
    assert ((4 <=? Z.of_nat (length q)) = false) as -> by lia.
    assert ((5 <=? Z.of_nat (length q)) = false) as -> by lia.
    rewrite !andb_false_r. reflexivity.
  - intros Hge.
    assert ((4 <=? Z.of_nat (length q)) = true) as -> by lia.
    destruct q as [|a r]; [simpl in Hge; lia|]. reflexivity.
  - intros Hge.
    assert (length (firstn 4 q) = 4%nat) as Hlen by (rewrite length_take; lia).
    destruct (forallb isDecimalDigit (firstn 4 q)) eqn:Hall.
    + rewrite parseInt_decimal; [reflexivity|assumption|].
      intros Hnil. rewrite Hnil in Hlen. discriminate.
    + simpl. destruct (parseInt (firstn 4 q) 0) as [n|] eqn:Hp; [|reflexivity].
      simpl. apply Z.ltb_ge. destruct (Z_le_gt_dec n 1900) as [|Hgt]; [assumption|].
      pose proof (parseInt_large (firstn 4 q) n ltac:(lia) Hp) as Hbig.
      rewrite Hlen in Hbig. rewrite Hbig in Hall; [discriminate|].
      change (10 ^ (Z.of_nat 4 - 1)) with 1000. lia.
  - intros Hlen.
    assert ((5 <=? Z.of_nat (length q)) = false) as -> by lia.
    rewrite andb_false_r. reflexivity.
  - intros c Hge Hc.
    assert ((5 <=? Z.of_nat (length q)) = true) as -> by lia.
    destruct q as [|a r]; [simpl in Hge; lia|]. cbn [truthy andb].
    unfold charAt. rewrite Hc. rewrite gender_letter.
    destruct (decide (c = 77)) as [->|]; [reflexivity|].
    destruct (decide (c = 109)) as [->|]; [reflexivity|].
    destruct (decide (c = 70)) as [->|]; [reflexivity|].
    destruct (decide (c = 102)) as [->|]; [reflexivity|].
    destruct (decide (c = 84)) as [->|]; [reflexivity|].
    destruct (decide (c = 116)) as [->|]; [reflexivity|].
    repeat match goal with
           | H : c <> ?k |- _ => apply Z.eqb_neq in H; rewrite H
           end.
    reflexivity.
Qed.

Lemma decodeQualifier_total_witness :
  fst (decodeQualifier (Some (str "2001m"))) = str "2001"
  /\ snd (decodeQualifier (Some (str "2001m"))) = str "M"
  /\ decodeQualifier (Some (str "19x")) = (NA, NA).
Proof.
  destruct decodeQualifier_total as (_ & Hq & _).
  destruct (Hq (str "2001m")) as (_ & Hyear & _ & Hgender).
  destruct (Hq (str "19x")) as (Hshort & _).
  split; [|split].
  - rewrite (proj1 (Hyear ltac:(simpl; lia))). reflexivity.
  - rewrite (Hgender 109 ltac:(simpl; lia) eq_refl). reflexivity.
  - apply Hshort. simpl. lia.
Defined.

(** C10 at the failing input. [getPinCode] tests [parseInt(postalCode) > 0],
    and [parseInt] reads the integer at the head of a text and never
    throws: ['12abc'], [' 42'], ['1e3'] and ['0x10'] are no integers and
    are returned as they are, and so is every text that has, after white
    space, decimal digits of a positive number at its head, whatever
    follows them.  On a text of decimal digits alone the function does
    what the claim says: it is returned exactly when the number is
    positive; ['0'], ['-5'] and ['abc'] yield [NA] and ['560001'] yields
    itself. *)
Theorem getPinCode_accepts_leading_integer :
  getPinCode (Some (str "12abc")) = str "12abc"
  /\ getPinCode (Some (str " 42")) = str " 42"
  /\ getPinCode (Some (str "1e3")) = str "1e3"
  /\ getPinCode (Some (str "0x10")) = str "0x10"
  /\ (forall ws digits rest : jsstring,
        forallb isWhiteSpace ws = true ->
        forallb isDecimalDigit digits = true ->
        0 < decimalValue digits ->
        getPinCode (Some (ws ++ digits ++ rest)) = ws ++ digits ++ rest)
  /\ (forall v : jsstring,
        forallb isDecimalDigit v = true ->
        getPinCode (Some v) = if 0 <? decimalValue v then v else NA)
  /\ getPinCode None = NA
  /\ getPinCode (Some (str "0")) = NA
  /\ getPinCode (Some (str "-5")) = NA
  /\ getPinCode (Some (str "abc")) = NA
  /\ getPinCode (Some (str "560001")) = str "560001".
Proof.
  assert (forall v : jsstring,
            getPinCode (Some v) = if gtNum (parseInt v 0) 0 then v else NA) as Hgen.
  { intros [|c r]; reflexivity. }
  do 4 (split; [reflexivity|]).
  split; [|split; [|repeat split; reflexivity]].
  - intros ws digits rest Hws Hall Hpos. rewrite Hgen.
    destruct (parseInt_leading ws digits rest Hws Hall Hpos) as (n & -> & Hle).
    cbn [gtNum]. assert ((0 <? n) = true) as -> by lia. reflexivity.
  - intros v Hall. rewrite Hgen. destruct v as [|c r]; [reflexivity|].
    rewrite parseInt_decimal; [reflexivity|assumption|discriminate].
Qed.

Lemma getPinCode_accepts_leading_integer_witness :
  getPinCode (Some (str " 560001, Bengaluru")) = str " 560001, Bengaluru".
Proof.
  exact (proj1 (proj2 (proj2 (proj2 (proj2 getPinCode_accepts_leading_integer))))
           (str " ") (str "560001") (str ", Bengaluru") eq_refl eq_refl eq_refl).
Defined.

(** ** ByteScanner: hex decoding *)

Lemma hex_not_space c : isHexDigit c = true -> isWhiteSpace c = false.
Proof.
  unfold isHexDigit, isWhiteSpace. intros H. zbool;
    repeat (apply orb_false_intro); try (apply andb_false_iff); lia.
Qed.

Lemma radixDigit_16 c : isHexDigit c = true -> radixDigit 16 c = Some (hexValue c).
Proof.
  unfold isHexDigit, radixDigit, digitValue, hexValue. intros H.
  zbool; repeat case_match; simplify_eq; zbool; try reflexivity; try lia; f_equal; lia.
Qed.

Lemma hexValue_range c : isHexDigit c = true -> 0 <= hexValue c < 16.
Proof.
  unfold isHexDigit, hexValue. intros H. zbool; repeat case_match; zbool; lia.
Qed.

(** [parseInt] in radix 16 of a text that starts with a hex digit: no
    blank, sign or [0x] prefix is skipped. *)
Lemma parseInt_16_head (a : Z) (r : jsstring) :
  isHexDigit a = true -> (forall b r', r = b :: r' -> isHexDigit b = true) ->
  parseInt (a :: r) 16 = parseDigits 16 (a :: r) false 0.
Proof.
  intros Ha Hr. unfold parseInt. simpl trimStart. rewrite (hex_not_space a Ha).
  assert ((a =? 45) = false) as -> by (unfold isHexDigit in Ha; zbool; lia).
  assert ((a =? 43) = false) as -> by (unfold isHexDigit in Ha; zbool; lia).
  cbn [Z.eqb negb andb orb Z.ltb Z.compare Pos.compare Pos.compare_cont].
  assert (forall o : option Z, option_map (Z.mul 1) o = o) as Hone
    by (intros [z|]; simpl; [f_equal; lia|reflexivity]).
  destruct r as [|b r']; [apply Hone|].
  specialize (Hr b r' eq_refl).
  assert ((b =? 120) || (b =? 88) = false) as ->
    by (unfold isHexDigit in Hr; zbool; apply orb_false_intro; lia).
  rewrite andb_false_r. apply Hone.
Qed.

Lemma hexPair (a b : Z) :
  isHexDigit a = true -> isHexDigit b = true ->
  fromCharCode (parseInt [a; b] 16) = 16 * hexValue a + hexValue b.
Proof.
  intros Ha Hb. rewrite parseInt_16_head; [|assumption|intros ? ? [= <- _]; assumption].
  simpl. rewrite (radixDigit_16 a Ha), (radixDigit_16 b Hb). simpl.
  pose proof (hexValue_range a Ha). pose proof (hexValue_range b Hb).
  rewrite Z.mod_small; lia.
Qed.

Lemma hexSingle (a : Z) :
  isHexDigit a = true -> fromCharCode (parseInt [a] 16) = hexValue a.
Proof.
  intros Ha. rewrite parseInt_16_head; [|assumption|discriminate].
  simpl. rewrite (radixDigit_16 a Ha). simpl.
  pose proof (hexValue_range a Ha). rewrite Z.mod_small; lia.
Qed.

(** Induction on a text two characters at a time, as the loop of
    [hexToBytes] reads it. *)
Lemma pairs_ind (P : jsstring -> Prop) :
  P [] -> (forall a, P [a]) -> (forall a b r, P r -> P (a :: b :: r)) ->
  forall s, P s.
Proof.
  intros Hnil Hone Hstep.
  fix IH 1. intros [|a [|b r]]; [exact Hnil|apply Hone|apply Hstep, IH].
Qed.

(** C7, as the code has it. [hexToBytes] never fails: every text,
    of odd length or with other characters too, yields one code unit per
    started pair.  Where a pair is two hex digits the unit is the value
    of the pair; where the text ends on a single hex digit the last
    unit is the value of that digit. *)
Theorem hexToBytes_total :
  forall hex : jsstring,
    length (hexToBytes hex) = ((length hex + 1) / 2)%nat
    /\ (forall (i : nat) (a b : Z),
          hex !! (2 * i)%nat = Some a -> hex !! (2 * i + 1)%nat = Some b ->
          isHexDigit a = true -> isHexDigit b = true ->
          hexToBytes hex !! i = Some (16 * hexValue a + hexValue b))
    /\ (forall (i : nat) (a : Z),
          hex !! (2 * i)%nat = Some a -> hex !! (2 * i + 1)%nat = None ->
          isHexDigit a = true ->
          hexToBytes hex !! i = Some (hexValue a)).
Proof.
  induction hex as [|a|a b r IH] using pairs_ind.
  - split; [reflexivity|]. split; intros; discriminate.
  - split; [reflexivity|]. split.
    + intros [|i] x y Hx Hy; simpl in *; discriminate.
    + intros [|i] x Hx _ Hhex; simpl in *; [|discriminate].
      injection Hx as <-. rewrite hexSingle; auto.
  - destruct IH as (IHlen & IHpair & IHlast).
    split; [|split].
    + cbn [hexToBytes length]. rewrite IHlen.
      replace (S (S (length r)) + 1)%nat with (length r + 1 + 1 * 2)%nat by lia.
      rewrite Nat.div_add by lia. lia.
    + intros [|i] x y Hx Hy Hhx Hhy.
      * simpl in Hx, Hy. injection Hx as <-. injection Hy as <-.
        cbn [hexToBytes]. simpl. rewrite hexPair; auto.
      * cbn [hexToBytes]. simpl.
        replace (2 * S i)%nat with (S (S (2 * i))) in Hx by lia.
        replace (2 * S i + 1)%nat with (S (S (2 * i + 1))) in Hy by lia.
        apply (IHpair i x y); assumption.
    + intros [|i] x Hx Hy Hhx.
      * simpl in Hy. discriminate.
      * cbn [hexToBytes]. simpl.
        replace (2 * S i)%nat with (S (S (2 * i))) in Hx by lia.
        replace (2 * S i + 1)%nat with (S (S (2 * i + 1))) in Hy by lia.
        apply (IHlast i x); assumption.
Qed.

Lemma hexToBytes_total_witness :
  hexToBytes (str "3082aF7") !! 2%nat = Some 175
  /\ hexToBytes (str "3082aF7") !! 3%nat = Some 7.
Proof.
  destruct (hexToBytes_total (str "3082aF7")) as (_ & Hpair & Hlast).
  split.
  - exact (Hpair 2%nat 97 70 eq_refl eq_refl eq_refl eq_refl).
  - exact (Hlast 3%nat 55 eq_refl eq_refl eq_refl).
Defined.

(** C7 as the specification states it fails: a text of odd length and a
    text with characters that are no hex digits are both decoded, the
    lone digit as its own value, a pair [parseInt] cannot read as the
    code unit 0. *)
Lemma hexToBytes_never_fails :
  hexToBytes (str "abc") = [171; 12]
  /\ hexToBytes (str "zz41") = [0; 65]
  /\ hexToBytes (str "4g") = [4].
Proof. repeat split; reflexivity. Qed.

(** ** ByteScanner: tag lengths *)

(** C6 at the failing input. Inside a certificates section the length
    byte [0x80] of a SEQUENCE decodes to the length 0 with a two-byte
    header, which is what the length byte [0x00] decodes to; the length of
    the section itself is decoded with the indefinite form kept apart
    (the section runs to the end of the buffer); and [0x82 0x01 0x23]
    decodes to [0x123] at either place. *)
Theorem decodeSequenceLength_indefinite_is_zero :
  decodeSequenceLength [48; 128; 0; 0] 0 = (Some 0, 2)
  /\ decodeSequenceLength [48; 0; 0; 0] 0 = (Some 0, 2)
  /\ decodeSectionLength [160; 128; 48; 0; 0; 0] 1 = (Some 4, 2)
  /\ decodeSectionLength [160; 0; 48; 0; 0; 0] 1 = (Some 0, 2)
  /\ decodeSequenceLength [48; 130; 1; 35] 0 = (Some 291, 4)
  /\ decodeSectionLength [160; 130; 1; 35] 1 = (Some 291, 4)
  /\ readLength [48; 130; 1; 35] 2 2 = 291.
Proof. repeat split; reflexivity. Qed.

(** ** Pkcs7Decoder: the byte-pattern scans *)

Lemma index_Some {A} (l : list A) (k : Z) (x : A) :
  index l k = Some x <-> 0 <= k /\ l !! Z.to_nat k = Some x.
Proof.
  unfold index. destruct (Z.ltb_spec k 0); split; try discriminate; intuition lia.
Qed.

(** A slice within the array is the part of the array it names. *)
Lemma slice_within {A} (l : list A) (i e : Z) :
  0 <= i <= e -> e <= Z.of_nat (length l) ->
  slice l i (Some e) = take (Z.to_nat (e - i)) (drop (Z.to_nat i) l).
Proof.
  intros Hi He. unfold slice. cbv beta zeta.
  change (default 0 (Some e)) with e.
  assert ((i <? 0) = false) as -> by lia.
  assert ((e <? 0) = false) as -> by lia.
  rewrite !Z.min_l by lia. reflexivity.
Qed.

Lemma index_slice {A} (l : list A) (i e k : Z) :
  0 <= i <= e -> e <= Z.of_nat (length l) -> 0 <= k < e - i ->
  index (slice l i (Some e)) k = index l (i + k).
Proof.
  intros Hi He Hk. rewrite slice_within by assumption. unfold index.
  assert ((k <? 0) = false) as -> by lia.
  assert ((i + k <? 0) = false) as -> by lia.
  rewrite lookup_take_lt by lia. rewrite lookup_drop. f_equal. lia.
Qed.

Lemma length_slice {A} (l : list A) (i e : Z) :
  0 <= i <= e -> e <= Z.of_nat (length l) ->
  Z.of_nat (length (slice l i (Some e))) = e - i.
Proof.
  intros Hi He. rewrite slice_within by assumption.
  rewrite length_take, length_drop. lia.
Qed.

Lemma readLength_ext (l1 l2 : list Z) (s1 s2 n : Z) :
  (forall j, 0 <= j < n -> index l1 (s1 + j) = index l2 (s2 + j)) ->
  readLength l1 s1 n = readLength l2 s2 n.
Proof.
  intros Hext. unfold readLength.
  assert (forall js acc, Forall (fun j => 0 <= j < n) js ->
            foldl (fun len j => shl8or len (index l1 (s1 + j))) acc js
            = foldl (fun len j => shl8or len (index l2 (s2 + j))) acc js) as Hfold.
  { induction js as [|j js IH]; intros acc Hall; [reflexivity|].
    inversion Hall; subst. simpl. rewrite Hext by assumption. apply IH. assumption. }
  apply Hfold. apply Forall_seqZ. intros; lia.
Qed.

Lemma longSequenceAt_header (bytes : list Z) (i : Z) :
  longSequenceAt bytes i = true ->
  index bytes i = Some 48
  /\ ((index bytes (i + 1) = Some 130 /\ andNum (index bytes (i + 1)) 127 = 2)
      \/ (index bytes (i + 1) = Some 131 /\ andNum (index bytes (i + 1)) 127 = 3)).
Proof.
  unfold longSequenceAt, eqNum. intros H.
  destruct (index bytes i) as [b0|]; [|discriminate].
  destruct (index bytes (i + 1)) as [b1|]; [|rewrite andb_false_r in H; discriminate].
  zbool; subst; split; auto.
Qed.

(** The declared length of a slice cut at a long-form SEQUENCE is the
    length the scan read in the array. *)
Lemma declaredLength_slice (bytes : list Z) (i e : Z) :
  longSequenceAt bytes i = true -> 0 <= i -> i + 5 <= e -> e <= Z.of_nat (length bytes) ->
  declaredLength (slice bytes i (Some e))
  = readLength bytes (i + 2) (andNum (index bytes (i + 1)) 127).
Proof.
  intros Hlong Hi He Hlen. unfold declaredLength.
  rewrite (index_slice bytes i e 1) by lia.
  apply longSequenceAt_header in Hlong as [_ Hn].
  apply readLength_ext. intros j Hj.
  replace (i + 2 + j) with (i + (2 + j)) by lia.
  destruct Hn as [[_ Hn]|[_ Hn]]; rewrite Hn in Hj; apply index_slice; lia.
Qed.

Section ScanInvariant.
Context {F : Forge}.

Lemma scanAt_admissible (bytes : list Z) (i : Z) (c : FoundCert) :
  0 <= i -> scanAt bytes i = Some c ->
  offset c = i
  /\ buffer c = bufferFrom (slice bytes i (Some (i + size c)))
  /\ admissible (slice bytes i (Some (i + size c))) = true.
Proof.
  intros Hi. unfold scanAt.
  destruct (longSequenceAt bytes i) eqn:Hlong; [|discriminate].
  set (n := andNum (index bytes (i + 1)) 127).
  set (certLen := readLength bytes (i + 2) n).
  destruct ((500 <=? certLen) && (certLen <=? 10000)
            && (i + (2 + n) + certLen <=? Z.of_nat (length bytes))) eqn:Hrange;
    [|discriminate].
  destruct (parsesWith (slice bytes i (Some (i + (2 + n) + certLen))) (Z.eqb 3)) eqn:Hparse;
    [|discriminate].
  intros [= <-]. cbn [offset buffer size].
  replace (i + (2 + n + certLen)) with (i + (2 + n) + certLen) by lia.
  split; [reflexivity|]. split; [reflexivity|].
  unfold admissible. rewrite Hparse.
  assert (n = 2 \/ n = 3) as Hn
    by (apply longSequenceAt_header in Hlong as [_ [[_ H]|[_ H]]]; auto).
  zbool. rewrite declaredLength_slice by (assumption || lia).
  fold n. fold certLen. apply andb_true_intro. split; [apply andb_true_intro; split|]; lia.
Qed.

Lemma strategy2At_loose (bytes : list Z) (i : Z) (certificate : list Z) :
  0 <= i -> strategy2At bytes i = Some certificate ->
  exists size_ : Z,
    certificate = bufferFrom (slice bytes i (Some (i + size_)))
    /\ admissibleLoose (slice bytes i (Some (i + size_))) = true.
Proof.
  intros Hi. unfold strategy2At.
  destruct (longSequenceAt bytes i) eqn:Hlong; [|discriminate].
  set (n := andNum (index bytes (i + 1)) 127).
  set (certLength := readLength bytes (i + 2) n).
  destruct ((certLength <? 400) || (10000 <? certLength)) eqn:Hrange; [discriminate|].
  destruct (Z.of_nat (length bytes) <? i + (2 + n) + certLength) eqn:Hfit; [discriminate|].
  destruct (parsesWith (slice bytes i (Some (i + (2 + n) + certLength))) (Z.leb 3)) eqn:Hparse;
    [|discriminate].
  intros [= <-]. exists (2 + n + certLength).
  replace (i + (2 + n + certLength)) with (i + (2 + n) + certLength) by lia.
  split; [reflexivity|].
  unfold admissibleLoose. rewrite Hparse.
  assert (n = 2 \/ n = 3) as Hn
    by (apply longSequenceAt_header in Hlong as [_ [[_ H]|[_ H]]]; auto).
  zbool. rewrite declaredLength_slice by (assumption || lia).
  fold n. fold certLength. apply andb_true_intro. split; [apply andb_true_intro; split|]; lia.
Qed.

End ScanInvariant.

(** C2, as the code has it. Every candidate [scanForCertificates] emits
    is the slice of the scanned bytes at its offset and of its size, and
    that slice passes the admissibility test: it parses with exactly three
    top-level elements and declares a content length of 500 to 10000.
    The slice strategy 2 of [extractCertificateByPattern] returns passes a
    looser test: at least three top-level elements and a declared length
    of 400 to 10000. *)
Theorem scanForCertificates_admissible :
  forall (F : Forge) (bytes : list Z),
    (forall c : FoundCert,
       c ∈ scanForCertificates bytes ->
       buffer c = bufferFrom (slice bytes (offset c) (Some (offset c + size c)))
       /\ admissible (slice bytes (offset c) (Some (offset c + size c))) = true)
    /\ (forall certificate : list Z,
          strategy2 bytes = Some certificate ->
          exists i size_ : Z,
            certificate = bufferFrom (slice bytes i (Some (i + size_)))
            /\ admissibleLoose (slice bytes i (Some (i + size_))) = true).
Proof.
  intros F bytes. split.
  - intros c Hc. unfold scanForCertificates in Hc.
    apply list_elem_of_omap in Hc as (i & Hi & Hscan).
    apply elem_of_seqZ in Hi.
    apply scanAt_admissible in Hscan as (<- & Hbuf & Hadm); [|lia]. auto.
  - intros certificate Hs. unfold strategy2 in Hs.
    apply head_Some_elem_of in Hs.
    apply list_elem_of_omap in Hs as (i & Hi & Hat).
    apply elem_of_seqZ in Hi.
    apply strategy2At_loose in Hat as (size_ & Hbuf & Hadm); [|lia].
    exists i, size_. auto.
Qed.

Lemma scanForCertificates_admissible_witness :
  @admissible plainForge threeElements500 = true
  /\ exists i size_ : Z,
       fourElements400 = bufferFrom (slice (fourElements400 ++ [0]) i (Some (i + size_)))
       /\ @admissibleLoose plainForge (slice (fourElements400 ++ [0]) i (Some (i + size_))) = true.
Proof.
  destruct (scanForCertificates_admissible plainForge (threeElements500 ++ replicate 100 0))
    as [Hscan _].
  destruct (scanForCertificates_admissible plainForge (fourElements400 ++ [0]))
    as [_ Hloose].
  split.
  - refine (proj2 (Hscan {| buffer := threeElements500; size := 504; offset := 0 |} _)).
    vm_compute. left.
  - apply Hloose. vm_compute. reflexivity.
Defined.

(** C2 as the specification states it fails: on a signature that holds
    a four-element SEQUENCE of 400 content bytes and one more byte, the
    byte-pattern fallback returns that SEQUENCE, which fails both parts
    of the admissibility test. *)
Lemma byPattern_returns_inadmissible :
  @extractCertificateByPattern plainForge 0 (fourElements400 ++ [0]) = Some (Ok fourElements400)
  /\ @extractCertificateFromPKCS7 plainForge 0 (fourElements400 ++ [0]) = Some (Ok fourElements400)
  /\ @parsesWith plainForge fourElements400 (Z.eqb 4) = true
  /\ @parsesWith plainForge fourElements400 (Z.eqb 3) = false
  /\ declaredLength fourElements400 = 400
  /\ @admissible plainForge fourElements400 = false.
Proof. repeat split; vm_compute; reflexivity. Qed.

(** ** CertificateAttributeExtractor *)

Section AttributeExtractor.
Context {F : Forge}.

Lemma tbsStep_no_name (st st' : TbsScan) (field : asn1) :
  isNameField field = false -> tbsStep st field = Ok st' ->
  scan_issuerAsn1 st' = scan_issuerAsn1 st /\ scan_subjectAsn1 st' = scan_subjectAsn1 st.
Proof.
  intros Hname. unfold tbsStep. rewrite Hname.
  destruct (if (asn1_type field =? INTEGER) && negb (truthy (scan_serialNumber st))
            then rmap Some (util_bytesToHex (asn1_value field))
            else Ok (scan_serialNumber st)) as [serial|m]; [|discriminate].
  cbn [bind andb]. intros [= <-]. split; reflexivity.
Qed.

Lemma tbsLoop_no_name (fields : list asn1) : forall st st' : TbsScan,
  Forall (fun field => isNameField field = false) fields ->
  tbsLoop st fields = Ok st' ->
  scan_issuerAsn1 st' = scan_issuerAsn1 st /\ scan_subjectAsn1 st' = scan_subjectAsn1 st.
Proof.
  induction fields as [|field rest IH]; intros st st' Hall; simpl.
  - intros [= <-]. split; reflexivity.
  - inversion Hall as [|? ? Hfield Hrest]; subst.
    destruct (tbsStep st field) as [st1|m] eqn:Hstep; [|discriminate].
    simpl. intros Hloop.
    destruct (tbsStep_no_name _ _ _ Hfield Hstep) as [<- <-].
    apply IH; assumption.
Qed.

(** The loop over the fields throws only where the hex conversion of an
    INTEGER field does. *)
Lemma tbsLoop_throw (fields : list asn1) : forall (st : TbsScan) (m : jsstring),
  tbsLoop st fields = Throw m ->
  exists field, field ∈ fields /\ asn1_type field = INTEGER
                /\ util_bytesToHex (asn1_value field) = Throw m.
Proof.
  induction fields as [|field rest IH]; intros st m; simpl; [discriminate|].
  destruct (tbsStep st field) as [st1|m1] eqn:Hstep; simpl.
  - intros Hloop. destruct (IH _ _ Hloop) as (f & Hin & Hf).
    exists f. split; [right; assumption|assumption].
  - intros [= <-]. exists field. split; [left|].
    unfold tbsStep in Hstep.
    destruct ((asn1_type field =? INTEGER) && negb (truthy (scan_serialNumber st))) eqn:Hint;
      [|discriminate].
    destruct (util_bytesToHex (asn1_value field)) as [h|m2]; [discriminate|].
    simpl in Hstep. injection Hstep as <-. zbool. auto.
Qed.

Lemma buildDetails_no_names (st : TbsScan) :
  let r := buildDetails st ∅ ∅ in
  signerName r = NA /\ tpin r = NA /\ state r = NA /\ gender r = NA /\ yob r = NA
  /\ pincode r = NA /\ issuerName r = NA /\ issuerOrganisation r = NA.
Proof. repeat split; reflexivity. Qed.

End AttributeExtractor.

(** C4, as the code has it. When no field of the TBSCertificate is a
    SEQUENCE that starts with a SET, [extractFromAsn1] does not fail for
    that: it returns a record whose subject and issuer fields, gender,
    year and postal code are all [NA].  It then throws only where the
    library's hex conversion of an INTEGER field throws. *)
Theorem extractFromAsn1_without_names :
  forall (F : Forge) (asn1Cert tbsCertificate : asn1),
    valueAt (asn1_value asn1Cert) 0 = Some (ENode tbsCertificate) ->
    Forall (fun field => isNameField field = false) (tbsFields tbsCertificate) ->
    match extractFromAsn1 asn1Cert with
    | Ok r =>
        signerName r = NA /\ tpin r = NA /\ state r = NA /\ gender r = NA /\ yob r = NA
        /\ pincode r = NA /\ issuerName r = NA /\ issuerOrganisation r = NA
    | Throw m =>
        exists (field : asn1) (m' : jsstring),
          field ∈ tbsFields tbsCertificate /\ asn1_type field = INTEGER
          /\ util_bytesToHex (asn1_value field) = Throw m'
          /\ m = str "Failed to extract from ASN.1: " ++ m'
    end.
Proof.
  intros F asn1Cert tbs Htbs Hnone. unfold extractFromAsn1. rewrite Htbs.
  destruct (tbsLoop tbsStart (tbsFields tbs)) as [st|m] eqn:Hloop; simpl.
  - destruct (tbsLoop_no_name _ _ _ Hnone Hloop) as [Hissuer Hsubject].
    simpl in Hissuer, Hsubject. rewrite Hissuer, Hsubject.
    exact (buildDetails_no_names st).
  - destruct (tbsLoop_throw _ _ _ Hloop) as (field & Hin & Htype & Hhex).
    exists field, m. auto.
Qed.

Lemma extractFromAsn1_without_names_witness :
  match @extractFromAsn1 plainForge
          (Asn1Arr 0 16 [Asn1Arr 0 16 [Asn1Str 0 2 [5]; Asn1Arr 0 16 [Asn1Str 0 6 [42]]];
                         Asn1Str 0 5 []]) with
  | Ok r => signerName r = NA /\ tpin r = NA /\ state r = NA /\ gender r = NA /\ yob r = NA
            /\ pincode r = NA /\ issuerName r = NA /\ issuerOrganisation r = NA
  | Throw _ => False
  end.
Proof.
  apply (extractFromAsn1_without_names plainForge
           (Asn1Arr 0 16 [Asn1Arr 0 16 [Asn1Str 0 2 [5]; Asn1Arr 0 16 [Asn1Str 0 6 [42]]];
                          Asn1Str 0 5 []])
           (Asn1Arr 0 16 [Asn1Str 0 2 [5]; Asn1Arr 0 16 [Asn1Str 0 6 [42]]])).
  - reflexivity.
  - repeat constructor.
Defined.

(** C4 as the specification states it fails: a certificate whose
    TBSCertificate holds a serial number and nothing else is decoded to a
    record, from its ASN.1 object and from its bytes alike. *)
Lemma extractFromAsn1_returns_record :
  @extractFromAsn1 plainForge
     (Asn1Arr 0 16 [Asn1Arr 0 16 [Asn1Str 0 2 [5]]; Asn1Str 0 5 []; Asn1Str 0 5 []])
  = Ok bareDetails
  /\ @asn1_fromDer plainForge bareCertificate
     = Ok (Asn1Arr 0 16 [Asn1Arr 0 16 [Asn1Str 0 2 [5]]; Asn1Str 0 5 []; Asn1Str 0 5 []])
  /\ @parseCertificateFromBuffer plainForge bareCertificate = Ok bareDetails.
Proof. repeat split; vm_compute; reflexivity. Qed.

(** ** The fields of a record *)

Lemma orNA_cases (o : option jsstring) : orNA o = NA \/ o = Some (orNA o).
Proof. destruct o as [[|c r]|]; simpl; auto. Qed.

Lemma orElse_cases (a b : option jsstring) : orElse a b = a \/ orElse a b = b.
Proof. unfold orElse. destruct (truthy a); auto. Qed.

Lemma getPinCode_cases (o : option jsstring) : getPinCode o = NA \/ o = Some (getPinCode o).
Proof.
  destruct o as [p|]; unfold getPinCode; [|auto].
  destruct (truthy (Some p) && gtNum (parseInt p 0) 0); auto.
Qed.

Lemma getBirthYear_cases (o : option jsstring) :
  getBirthYear o = NA \/ exists v, o = Some v /\ getBirthYear o = take 4 v.
Proof.
  destruct o as [q|]; unfold getBirthYear; [|auto].
  destruct (truthy (Some q) && (4 <=? Z.of_nat (length q))); [|auto].
  destruct (gtNum (parseInt (take 4 q) 0) 1900); [right; eauto|auto].
Qed.

Lemma getGenderInfo_cases (o : option jsstring) :
  getGenderInfo o = NA
  \/ exists (v : jsstring) (c : Z),
       o = Some v /\ v !! 4%nat = Some c /\ getGenderInfo o = toUpperCase [c]
       /\ (getGenderInfo o = str "M" \/ getGenderInfo o = str "F" \/ getGenderInfo o = str "T").
Proof.
  destruct o as [q|]; unfold getGenderInfo; [|auto].
  destruct (truthy (Some q) && (5 <=? Z.of_nat (length q))) eqn:Hlen; [|auto].
  unfold charAt. destruct (q !! 4%nat) as [c|] eqn:Hc.
  - rewrite gender_letter.
    destruct ((c =? 77) || (c =? 109) || (c =? 70) || (c =? 102) || (c =? 84) || (c =? 116))
      eqn:Hletter; [|auto].
    right. exists q, c. split; [reflexivity|]. split; [assumption|]. split; [reflexivity|].
    zbool; subst; auto.
  - zbool. apply lookup_ge_None in Hc. lia.
Qed.

Lemma setIf_lookup (key : option jsstring) (val : jsstring)
    (m : gmap jsstring jsstring) (k v : jsstring) :
  setIf key val m !! k = Some v -> v = val \/ m !! k = Some v.
Proof.
  unfold setIf. destruct key as [[|c r]|]; auto.
  destruct (decide (c :: r = k)) as [->|Hne].
  - rewrite lookup_insert_eq. intros [= <-]. auto.
  - rewrite lookup_insert_ne by assumption. auto.
Qed.

(** Every value of the map [getAttributes] builds is the value of an
    attribute. *)
Lemma getAttributes_value (attributes : list Attr) (k v : jsstring) :
  getAttributes attributes !! k = Some v -> v ∈ attr_value <$> attributes.
Proof.
  unfold getAttributes.
  assert (forall (m : gmap jsstring jsstring),
            foldl (fun m attr =>
                     setIf (attr_name attr) (attr_value attr)
                       (setIf (attr_type attr) (attr_value attr)
                          (setIf (attr_shortName attr) (attr_value attr) m)))
                  m attributes !! k = Some v ->
            m !! k = Some v \/ v ∈ attr_value <$> attributes) as Hfold.
  { induction attributes as [|attr rest IH]; intros m; simpl; [auto|].
    intros Hm. apply IH in Hm as [Hm|Hm]; [|right; right; assumption].
    apply setIf_lookup in Hm as [->|Hm]; [right; left|].
    apply setIf_lookup in Hm as [->|Hm]; [right; left|].
    apply setIf_lookup in Hm as [->|Hm]; [right; left|auto]. }
  intros Hm. apply Hfold in Hm as [Hm|Hm]; [|assumption].
  rewrite lookup_empty in Hm. discriminate.
Qed.

Lemma decodedOrNA_lookup (decoded : jsstring -> Prop) (o : option jsstring) :
  (forall v, o = Some v -> decoded v) -> decodedOrNA decoded (orNA o).
Proof.
  intros Ho. destruct (orNA_cases o) as [->|Heq]; [left; reflexivity|].
  right. apply Ho. assumption.
Qed.

Lemma orElse_lookup (decoded : jsstring -> Prop) (a b : option jsstring) :
  (forall v, a = Some v -> decoded v) -> (forall v, b = Some v -> decoded v) ->
  forall v, orElse a b = Some v -> decoded v.
Proof. intros Ha Hb v. destruct (orElse_cases a b) as [-> | ->]; auto. Qed.

Lemma gender_from (decoded : jsstring -> Prop) (o : option jsstring) :
  (forall v, o = Some v -> decoded v) ->
  decodedOrNA (fun g => exists (v : jsstring) (c : Z),
                 decoded v /\ v !! 4%nat = Some c /\ g = toUpperCase [c]
                 /\ (g = str "M" \/ g = str "F" \/ g = str "T")) (getGenderInfo o).
Proof.
  intros Ho. destruct (getGenderInfo_cases o) as [->|(v & c & Hv & Hc & Hg & Hl)];
    [left; reflexivity|].
  right. exists v, c. auto.
Qed.

Lemma year_from (decoded : jsstring -> Prop) (o : option jsstring) :
  (forall v, o = Some v -> decoded v) ->
  decodedOrNA (fun y => exists v : jsstring, decoded v /\ y = take 4 v) (getBirthYear o).
Proof.
  intros Ho. destruct (getBirthYear_cases o) as [->|(v & Hv & Hy)]; [left; reflexivity|].
  right. exists v. auto.
Qed.

Lemma pin_from (decoded : jsstring -> Prop) (o : option jsstring) :
  (forall v, o = Some v -> decoded v) -> decodedOrNA decoded (getPinCode o).
Proof.
  intros Ho. destruct (getPinCode_cases o) as [->|Hv]; [left; reflexivity|].
  right. auto.
Qed.

Section RecordFields.
Context {F : Forge}.

Lemma extractAadhaarSignDetails_fields (cert : Certificate) :
  fieldsFrom (fun v => v ∈ attr_value <$> cert_subject cert)
             (fun v => v ∈ attr_value <$> cert_issuer cert)
             (extractAadhaarSignDetails cert).
Proof.
  assert (forall k v, getAttributes (cert_subject cert) !! k = Some v ->
                      v ∈ attr_value <$> cert_subject cert) as Hs
    by (intros k v; apply getAttributes_value).
  assert (forall k v, getAttributes (cert_issuer cert) !! k = Some v ->
                      v ∈ attr_value <$> cert_issuer cert) as Hi
    by (intros k v; apply getAttributes_value).
  unfold fieldsFrom, extractAadhaarSignDetails. cbn [signerName tpin state gender yob pincode
    issuerName issuerOrganisation].
  repeat split;
    first [ apply decodedOrNA_lookup | apply gender_from | apply year_from | apply pin_from ];
    try apply orElse_lookup; eauto.
Qed.

Lemma buildDetails_fields (st : TbsScan) (sA iA : gmap jsstring jsstring) :
  fieldsFrom (fun v => exists k, sA !! k = Some v) (fun v => exists k, iA !! k = Some v)
             (buildDetails st sA iA).
Proof.
  unfold fieldsFrom, buildDetails. cbn [signerName tpin state gender yob pincode
    issuerName issuerOrganisation].
  repeat split;
    try match goal with
        | |- decodedOrNA _ (if ?b then _ else NA) => destruct b; [|left; reflexivity]
        end;
    first [ apply decodedOrNA_lookup | apply gender_from | apply year_from | apply pin_from ];
    repeat apply orElse_lookup; eauto.
Qed.

(** The serial number the loop holds is the hex of an INTEGER field. *)
Lemma tbsLoop_serial (fields : list asn1) : forall (st st' : TbsScan) (h : jsstring),
  tbsLoop st fields = Ok st' -> scan_serialNumber st' = Some h ->
  scan_serialNumber st = Some h
  \/ exists field, field ∈ fields /\ asn1_type field = INTEGER
                   /\ util_bytesToHex (asn1_value field) = Ok h.
Proof.
  induction fields as [|field rest IH]; intros st st' h; simpl.
  - intros [= <-]. auto.
  - destruct (tbsStep st field) as [st1|m] eqn:Hstep; [|discriminate]. simpl.
    intros Hloop Hh. destruct (IH _ _ _ Hloop Hh) as [H1|(f & Hin & Hf)].
    + unfold tbsStep in Hstep.
      destruct ((asn1_type field =? INTEGER) && negb (truthy (scan_serialNumber st))) eqn:Hint.
      * destruct (util_bytesToHex (asn1_value field)) as [h'|m] eqn:Hhex; [|discriminate].
        simpl in Hstep. injection Hstep as <-. simpl in H1. injection H1 as ->.
        right. exists field. split; [left|]. zbool. auto.
      * simpl in Hstep. injection Hstep as <-. simpl in H1. auto.
    + right. exists f. split; [right; assumption|assumption].
Qed.

End RecordFields.

Lemma omap_step {A B} (f : A -> option B) (a : A) (l : list A) :
  omap f (a :: l) = match f a with
                    | Some b => b :: omap f l
                    | None => omap f l
                    end.
Proof. reflexivity. Qed.

(** The first value [f] gives is the value of the first element it gives
    one for. *)
Lemma head_omap {A B} (f : A -> option B) (l : list A) :
  head (omap f l)
  = match head (List.filter (fun a => bool_decide (is_Some (f a))) l) with
    | Some a => f a
    | None => None
    end.
Proof.
  induction l as [|a l IH]; [reflexivity|].
  rewrite omap_step. cbn [List.filter].
  destruct (f a) as [b|] eqn:Hfa.
  - rewrite bool_decide_eq_true_2 by eauto. cbn. symmetry. exact Hfa.
  - rewrite bool_decide_eq_false_2 by (intros [b Hb]; discriminate). exact IH.
Qed.

Section Choice.
Context {F : Forge}.

Lemma tbsStep_Ok (st st' : TbsScan) (field : asn1) :
  tbsStep st field = Ok st' ->
  (if (asn1_type field =? INTEGER) && negb (truthy (scan_serialNumber st))
   then exists hex, util_bytesToHex (asn1_value field) = Ok hex
                    /\ scan_serialNumber st' = Some hex
   else scan_serialNumber st' = scan_serialNumber st)
  /\ scan_validity st'
     = (if isPair field && negb (bool_decide (is_Some (scan_validity st)))
        then decodeNotAfter field else scan_validity st)
  /\ scan_issuerAsn1 st'
     = (if isNameField field && negb (bool_decide (is_Some (scan_issuerAsn1 st)))
        then Some field else scan_issuerAsn1 st)
  /\ scan_subjectAsn1 st'
     = (if isNameField field && bool_decide (is_Some (scan_issuerAsn1 st))
           && negb (bool_decide (is_Some (scan_subjectAsn1 st)))
        then Some field else scan_subjectAsn1 st).
Proof.
  unfold tbsStep.
  destruct ((asn1_type field =? INTEGER) && negb (truthy (scan_serialNumber st))).
  - destruct (util_bytesToHex (asn1_value field)) as [hex|m]; [|discriminate].
    cbn. intros [= <-]. cbn. split; [eauto|]. auto.
  - cbn. intros [= <-]. cbn. auto.
Qed.

Lemma tbsLoop_choice (fields : list asn1) : forall st st' : TbsScan,
  tbsLoop st fields = Ok st' ->
  (if truthy (scan_serialNumber st) then scan_serialNumber st' = scan_serialNumber st
   else match head (List.filter nonEmpty (omap integerHex fields)) with
        | Some hex => scan_serialNumber st' = Some hex
        | None => truthy (scan_serialNumber st') = false
        end)
  /\ scan_validity st'
     = match scan_validity st with
       | Some t => Some t
       | None => head (omap decodeNotAfter (List.filter isPair fields))
       end
  /\ scan_issuerAsn1 st'
     = match scan_issuerAsn1 st with
       | Some name => Some name
       | None => List.filter isNameField fields !! 0%nat
       end
  /\ scan_subjectAsn1 st'
     = match scan_subjectAsn1 st with
       | Some name => Some name
       | None => match scan_issuerAsn1 st with
                 | Some _ => List.filter isNameField fields !! 0%nat
                 | None => List.filter isNameField fields !! 1%nat
                 end
       end.
Proof.
  induction fields as [|field rest IH]; intros st st'; cbn [tbsLoop].
  - intros [= <-]. cbn.
    split; [destruct (truthy (scan_serialNumber st)) eqn:Ht; auto|].
    split; [destruct (scan_validity st); reflexivity|].
    split; [destruct (scan_issuerAsn1 st); reflexivity|].
    destruct (scan_subjectAsn1 st), (scan_issuerAsn1 st); reflexivity.
  - destruct (tbsStep st field) as [mid|m] eqn:Hstep; [|discriminate]. cbn [bind].
    intros Hrest. apply IH in Hrest as (Hs & Hv & Hi & Hj).
    apply tbsStep_Ok in Hstep as (Hs1 & Hv1 & Hi1 & Hj1).
    split; [|split; [|split]].
    + destruct (truthy (scan_serialNumber st)) eqn:Ht.
      * rewrite andb_false_r in Hs1. rewrite Hs1, Ht in Hs. congruence.
      * rewrite andb_true_r in Hs1. rewrite omap_step. unfold integerHex at 1.
        destruct (asn1_type field =? INTEGER).
        -- destruct Hs1 as (hex & -> & Hmid). cbn [List.filter].
           rewrite Hmid in Hs. unfold nonEmpty at 1. unfold streq.
           destruct hex as [|c r]; cbn in Hs |- *.
           ++ exact Hs.
           ++ exact Hs.
        -- rewrite Hs1, Ht in Hs. exact Hs.
    + rewrite Hv, Hv1. cbn [List.filter].
      destruct (scan_validity st) as [t|]; cbn.
      * rewrite andb_false_r. reflexivity.
      * rewrite andb_true_r. destruct (isPair field); [|reflexivity].
        rewrite omap_step. destruct (decodeNotAfter field); reflexivity.
    + rewrite Hi, Hi1. cbn [List.filter].
      destruct (scan_issuerAsn1 st) as [name|]; cbn.
      * rewrite andb_false_r. reflexivity.
      * rewrite andb_true_r. destruct (isNameField field); reflexivity.
    + rewrite Hj, Hj1, Hi1. cbn [List.filter].
      destruct (scan_subjectAsn1 st) as [name|], (scan_issuerAsn1 st) as [name'|]; cbn;
        rewrite ?andb_false_r, ?andb_true_r; try reflexivity;
        destruct (isNameField field); reflexivity.
Qed.

End Choice.

Section ParsedRecord.
Context {F : Forge}.

Lemma extractFromAsn1_Ok (asn1Cert : asn1) (r : AadhaarDetails) :
  extractFromAsn1 asn1Cert = Ok r ->
  exists tbsCertificate,
    valueAt (asn1_value asn1Cert) 0 = Some (ENode tbsCertificate)
    /\ fromAsn1Walk tbsCertificate r.
Proof.
  unfold extractFromAsn1.
  destruct (valueAt (asn1_value asn1Cert) 0) as [[tbs|c]|]; [|discriminate..].
  destruct (tbsLoop tbsStart (tbsFields tbs)) as [st|m] eqn:Hloop; [|discriminate].
  cbn [bind].
  destruct (extractAsn1Attributes (scan_subjectAsn1 st)) as [sA|m] eqn:HsA; [|discriminate].
  cbn [bind].
  destruct (extractAsn1Attributes (scan_issuerAsn1 st)) as [iA|m] eqn:HiA; [|discriminate].
  cbn [bind rethrow]. intros [= <-].
  exists tbs. split; [reflexivity|]. exists st, sA, iA.
  split; [assumption|]. split; [assumption|]. split; [assumption|].
  split; [|split; [|apply buildDetails_fields]].
  - cbn [buildDetails serialNumber].
    destruct (orNA_cases (scan_serialNumber st)) as [->|Hs]; [left; reflexivity|].
    right. destruct (tbsLoop_serial _ _ _ _ Hloop Hs) as [H0|H1]; [discriminate|assumption].
  - cbn [buildDetails endDate].
    pose proof (tbsLoop_choice _ _ _ Hloop) as (_ & Hv & _). cbn in Hv.
    rewrite Hv, head_omap. fold decodes.
    destruct (head (List.filter decodes (List.filter isPair (tbsFields tbs))))
      as [field|] eqn:Hhead; [|reflexivity].
    intros _. apply head_Some_elem_of, list_elem_of_In, filter_In in Hhead as [_ Hdec].
    unfold decodes in Hdec. apply bool_decide_eq_true in Hdec as [t Ht].
    rewrite Ht. reflexivity.
Qed.

End ParsedRecord.

(** C8, as the code has it. A record [parseCertificateFromBuffer]
    returns is read either off a certificate object of the library (its
    serial number and end date are the object's, its text fields [NA] or
    values of the object's subject and issuer attributes) or off the
    ASN.1 fields of the TBSCertificate, where each text field is [NA] or
    a decoded value, the serial number is [NA] or the hex of an INTEGER
    field, and the end date is the number 0, not [NA], when the time
    decoders return for no two-element SEQUENCE field, and the time
    decoded from the first such field they return for when it holds a
    UTCTime or a GeneralizedTime.  A record the document pipeline
    returns is a record [parseCertificateFromBuffer] returns for the
    extracted certificate. *)
Theorem parseCertificateFromBuffer_fields :
  forall F : Forge,
    (forall certBuffer : list Z,
       match parseCertificateFromBuffer certBuffer with
       | Throw _ => True
       | Ok r =>
           (exists cert : Certificate,
              (pki_certificateFromPem certBuffer = Ok cert
               \/ exists asn1Cert, asn1_fromDer certBuffer = Ok asn1Cert
                                   /\ pki_certificateFromAsn1 asn1Cert = Ok cert)
              /\ fromCertificateObject cert r)
           \/ (exists asn1Cert tbsCertificate : asn1,
                 asn1_fromDer certBuffer = Ok asn1Cert
                 /\ valueAt (asn1_value asn1Cert) 0 = Some (ENode tbsCertificate)
                 /\ fromAsn1Walk tbsCertificate r)
       end)
    /\ (forall (fuel : nat) (pdfBuffer : list Z),
          match extractIdentityFromDocument fuel pdfBuffer with
          | Some (Ok r) =>
              exists certBuffer : list Z,
                extractCertificateFromPDF fuel pdfBuffer = Some (Ok certBuffer)
                /\ parseCertificateFromBuffer certBuffer = Ok r
          | _ => True
          end).
Proof.
  intros F. split.
  - intros certBuffer.
    assert (forall cert, fromCertificateObject cert (extractAadhaarSignDetails cert)) as Hobj.
    { intros cert. split; [reflexivity|]. split; [reflexivity|].
      apply extractAadhaarSignDetails_fields. }
    assert (forall r, bind (asn1_fromDer certBuffer) extractFromAsn1 = Ok r ->
              exists asn1Cert tbsCertificate : asn1,
                asn1_fromDer certBuffer = Ok asn1Cert
                /\ valueAt (asn1_value asn1Cert) 0 = Some (ENode tbsCertificate)
                /\ fromAsn1Walk tbsCertificate r) as Hwalk.
    { intros r. destruct (asn1_fromDer certBuffer) as [a|m]; [|discriminate].
      cbn [bind]. intros Hr. apply extractFromAsn1_Ok in Hr as (tbs & Htbs & Hfrom).
      exists a, tbs. auto. }
    unfold parseCertificateFromBuffer.
    destruct (includes certBuffer (str "BEGIN CERTIFICATE")).
    + destruct (pki_certificateFromPem certBuffer) as [cert|m] eqn:Hpem.
      * cbn [rethrow]. left. exists cert. split; [left; reflexivity|apply Hobj].
      * destruct (bind (asn1_fromDer certBuffer) extractFromAsn1) as [r|m'] eqn:Hr;
          cbn [rethrow]; [|exact I].
        right. apply Hwalk. reflexivity.
    + destruct (asn1_fromDer certBuffer) as [a|m] eqn:Hder; cbn [bind].
      * destruct (pki_certificateFromAsn1 a) as [cert|m] eqn:Hcert.
        -- cbn [rethrow]. left. exists cert. split; [right; exists a; auto|apply Hobj].
        -- destruct (includes m (str "OID is not RSA") || includes m (str "X509v3 Certificate"));
             [|exact I].
           destruct (extractFromAsn1 a) as [r|m'] eqn:Hr; cbn [rethrow]; [|exact I].
           right. apply (Hwalk r). cbn [bind]. assumption.
      * destruct (includes m (str "OID is not RSA") || includes m (str "X509v3 Certificate"));
          exact I.
  - intros fuel pdfBuffer. unfold extractIdentityFromDocument.
    destruct (extractCertificateFromPDF fuel pdfBuffer) as [[certBuffer|m]|]; cbn; [|exact I..].
    destruct (parseCertificateFromBuffer certBuffer) as [r|m] eqn:Hr; [|exact I].
    exists certBuffer. auto.
Qed.

(** C8 as the specification states it fails: for a certificate without
    a validity field no time is decoded, and the end date of the record
    is the number 0, which is neither a decoded value nor [NA]. *)
Lemma endDate_zero_not_NA :
  @parseCertificateFromBuffer plainForge bareCertificate = Ok bareDetails
  /\ endDate bareDetails = Num 0
  /\ rmap scan_validity (@tbsLoop plainForge tbsStart [Asn1Str 0 2 [5]]) = Ok None.
Proof. repeat split; vm_compute; reflexivity. Qed.

(** A certificate with a validity: the end date is the time decoded from
    its second element, the first two-element SEQUENCE of the fields. *)
Example validity_decoded :
  @parseCertificateFromBuffer clockForge datedCertificate = Ok datedDetails
  /\ head (List.filter (@decodes clockForge) (List.filter isPair datedFields))
     = Some validityField
  /\ holdsTime validityField = true
  /\ @decodeNotAfter clockForge validityField = Some (endDate datedDetails).
Proof. repeat split; vm_compute; reflexivity. Qed.

(** ** CandidateSelector: the header test *)

(** C5, as the code has it. [isPDF] holds exactly of the buffers that
    start with the five bytes of ['%PDF-'], and for every other buffer
    [processSinglePDF] reports ['File is not a valid PDF'] whatever the
    library and however many rounds the scans are given: nothing of the
    buffer is scanned or decoded. *)
Theorem processSinglePDF_not_a_pdf :
  forall (F : Forge) (fuel : nat) (pdfBuffer : list Z),
    (isPDF pdfBuffer = true <-> take 5 pdfBuffer = str "%PDF-")
    /\ (take 5 pdfBuffer <> str "%PDF-" ->
        processSinglePDF fuel pdfBuffer = Some (Throw (str "File is not a valid PDF"))).
Proof.
  intros F fuel pdfBuffer.
  assert (isPDF pdfBuffer = true <-> take 5 pdfBuffer = str "%PDF-") as Hpdf
    by (unfold isPDF, streq; apply bool_decide_eq_true).
  split; [exact Hpdf|].
  intros Hne. unfold processSinglePDF.
  destruct (isPDF pdfBuffer); [|reflexivity].
  exfalso. apply Hne, Hpdf. reflexivity.
Qed.

Lemma processSinglePDF_not_a_pdf_witness :
  @processSinglePDF plainForge 0 (str "HELLO") = Some (Throw (str "File is not a valid PDF")).
Proof.
  apply (proj2 (processSinglePDF_not_a_pdf plainForge 0 (str "HELLO"))).
  intros H. discriminate H.
Defined.

(** C5 as the specification states it fails: [extractCertificateFromPDF]
    makes no header test.  A buffer that does not start with ['%PDF-'] is
    scanned for the signature pattern, its signature is decoded, and the
    pipeline returns a record. *)
Lemma extractIdentityFromDocument_without_header :
  isPDF (str "/Contents <" ++ str bareSignatureHex ++ str ">") = false
  /\ @extractCertificateFromPDF plainForge 1
       (str "/Contents <" ++ str bareSignatureHex ++ str ">") = Some (Ok bareCertificate)
  /\ @extractIdentityFromDocument plainForge 1
       (str "/Contents <" ++ str bareSignatureHex ++ str ">") = Some (Ok bareDetails).
Proof. repeat split; vm_compute; reflexivity. Qed.

(** ** SignatureLocator *)

Lemma tryRep_Some {R} (k : nat -> option R) (min : nat) : forall (n : nat) (r : R),
  tryRep k min n = Some r -> exists j, (min <= j <= n)%nat /\ k j = Some r.
Proof.
  induction n as [|n IH]; intros r; simpl; case_bool_decide as Hmin; try discriminate.
  - destruct (k 0%nat) as [r'|] eqn:Hk; [|discriminate].
    intros [= <-]. exists 0%nat. split; [lia|assumption].
  - destruct (k (S n)) as [r'|] eqn:Hk.
    + intros [= <-]. exists (S n). split; [lia|assumption].
    + intros Htry. destruct (IH _ Htry) as (j & Hj & Hkj). exists j. split; [lia|assumption].
Qed.

(** A match ends at or after its start. *)
Lemma matchItems_end (items : list item) :
  forall rest pos opens caps e caps',
    matchItems items rest pos opens caps = Some (e, caps') -> (pos <= e)%nat.
Proof.
  induction items as [|it items IH]; intros rest pos opens caps e caps'; simpl.
  - intros [= <- _]. lia.
  - destruct it as [c|k min max| |].
    + destruct rest as [|c' rest']; [discriminate|].
      destruct (c' =? c); [|discriminate]. intros H. apply IH in H. lia.
    + intros H. apply tryRep_Some in H as (j & _ & H). apply IH in H. lia.
    + apply IH.
    + destruct opens as [|[text start] opens']; [discriminate|]. apply IH.
Qed.

(** The matches of a global pattern are in document order, and none
    starts before the search does. *)
Lemma matchAllFrom_sorted (re : list item) : forall (fuel : nat) (rest : jsstring) (pos : nat),
  Forall (fun m => (pos <= index_ m)%nat) (matchAllFrom fuel re rest pos)
  /\ StronglySorted (fun a b => (index_ a < index_ b)%nat) (matchAllFrom fuel re rest pos).
Proof.
  induction fuel as [|fuel IH]; intros rest pos; simpl.
  - split; constructor.
  - destruct (matchItems re rest pos [] []) as [[e caps]|] eqn:Hm.
    + apply matchItems_end in Hm.
      set (next := if bool_decide (e = pos) then S pos else e).
      assert (pos < next)%nat as Hnext by (unfold next; case_bool_decide; lia).
      case_bool_decide as Hlen.
      * split; repeat constructor.
      * destruct (IH (drop (next - pos) rest) next) as [Hall Hsorted].
        split.
        -- constructor; [simpl; lia|].
           eapply Forall_impl; [exact Hall|]. simpl. intros; lia.
        -- constructor; [assumption|].
           eapply Forall_impl; [exact Hall|]. simpl. intros; lia.
    + destruct rest as [|c rest']; [split; constructor|].
      destruct (IH rest' (S pos)) as [Hall Hsorted]. split; [|assumption].
      eapply Forall_impl; [exact Hall|]. simpl. intros; lia.
Qed.

Lemma matchAllFrom_groups (re : list item) (P : list jsstring -> Prop) :
  (forall rest pos e caps, matchItems re rest pos [] [] = Some (e, caps) -> P caps) ->
  forall (fuel : nat) (rest : jsstring) (pos : nat),
    Forall (fun m => P (groups m)) (matchAllFrom fuel re rest pos).
Proof.
  intros HP. induction fuel as [|fuel IH]; intros rest pos; simpl; [constructor|].
  destruct (matchItems re rest pos [] []) as [[e caps]|] eqn:Hm.
  - constructor; [simpl; eapply HP; eassumption|].
    case_bool_decide; [constructor|apply IH].
  - destruct rest as [|c rest']; [constructor|apply IH].
Qed.

Lemma matchItems_lits (s : jsstring) (items : list item) :
  forall rest pos opens caps r,
    matchItems (map Lit s ++ items) rest pos opens caps = Some r ->
    exists rest', rest = s ++ rest'
                  /\ matchItems items rest' (pos + length s) opens caps = Some r.
Proof.
  induction s as [|c s IH]; intros rest pos opens caps r; simpl.
  - intros H. exists rest. split; [reflexivity|]. rewrite Nat.add_0_r. assumption.
  - destruct rest as [|c' rest']; [discriminate|].
    destruct (Z.eqb_spec c' c) as [->|]; [|discriminate].
    intros H. apply IH in H as (rest'' & -> & H). exists rest''.
    split; [reflexivity|]. rewrite <- H. f_equal. lia.
Qed.

Lemma runLength_take (k : cclass) : forall (s : jsstring) (bound : option nat) (j : nat),
  (j <= runLength k s bound)%nat ->
  forallb (inClass k) (take j s) = true /\ length (take j s) = j.
Proof.
  induction s as [|c s IH]; intros bound j Hj.
  - assert (runLength k [] bound = 0%nat) as Hz by (destruct bound as [[|b]|]; reflexivity).
    rewrite Hz in Hj. assert (j = 0%nat) as -> by lia. split; reflexivity.
  - destruct j as [|j]; [split; reflexivity|].
    assert (inClass k c = true /\ (j <= runLength k s (pred <$> bound))%nat) as [Hc Hr].
    { destruct bound as [[|b]|]; simpl in Hj; try lia;
        destruct (inClass k c); try lia; split; auto; simpl; lia. }
    destruct (IH _ _ Hr) as [Hall Hlen]. simpl. rewrite Hc, Hall, Hlen. split; reflexivity.
Qed.

(** What [\/Contents\s*<([0-9A-Fa-f]+)>] captures is a non-empty run of
    hex digits. *)
Lemma contentsHex_capture (rest : jsstring) (pos e : nat) (caps : list jsstring) :
  matchItems contentsHex rest pos [] [] = Some (e, caps) ->
  exists hex, caps = [hex] /\ hex <> [] /\ forallb isHexDigit hex = true.
Proof.
  unfold contentsHex, lits. intros H.
  apply matchItems_lits in H as (rest1 & _ & H).
  simpl in H. apply tryRep_Some in H as (j & _ & H).
  destruct (drop j rest1) as [|c rest2]; [discriminate|].
  destruct (c =? 60); [|discriminate].
  apply tryRep_Some in H as (j2 & Hj2 & H).
  destruct (drop j2 rest2) as [|c' rest3]; [discriminate|].
  destruct (c' =? 62); [|discriminate].
  injection H as _ <-.
  destruct (runLength_take ClsHex rest2 None j2 ltac:(lia)) as [Hall Hlen].
  match goal with
  | |- context [take ?n rest2] => replace n with j2 by lia
  end.
  exists (take j2 rest2). split; [reflexivity|]. split; [|exact Hall].
  intros Hnil. rewrite Hnil in Hlen. simpl in Hlen. lia.
Qed.

Lemma StronglySorted_constant (c : nat) (l : list nat) :
  Forall (eq c) l -> StronglySorted le l.
Proof.
  induction 1 as [|x l <- Hl IH]; constructor; [assumption|].
  eapply Forall_impl; [exact Hl|]. simpl. intros; lia.
Qed.

(** A list built block by block from a list of sorted keys is sorted by
    the key of its blocks. *)
Lemma flat_map_ranked {A B} (rk : A -> nat) (key : B -> nat) (g : A -> list B) (ps : list A) :
  (forall p f, f ∈ g p -> key f = rk p) ->
  StronglySorted le (rk <$> ps) -> StronglySorted le (key <$> flat_map g ps).
Proof.
  intros Hkey. induction ps as [|p ps IH]; intros Hs; simpl; [constructor|].
  apply StronglySorted_cons in Hs as [Hle Hs].
  rewrite fmap_app. apply StronglySorted_app_2.
  - intros x1 x2 Hx1 Hx2.
    apply list_elem_of_fmap in Hx1 as (f1 & -> & Hf1).
    apply list_elem_of_fmap in Hx2 as (f2 & -> & Hf2).
    rewrite (Hkey _ _ Hf1).
    apply list_elem_of_In, in_flat_map in Hf2 as (p' & Hp' & Hf2).
    apply list_elem_of_In in Hf2. rewrite (Hkey _ _ Hf2).
    rewrite Forall_forall in Hle. apply Hle.
    apply list_elem_of_fmap. exists p'. split; [reflexivity|apply list_elem_of_In; assumption].
  - apply (StronglySorted_constant (rk p)).
    apply Forall_forall. intros x Hx.
    apply list_elem_of_fmap in Hx as (f & -> & Hf). symmetry. apply Hkey. assumption.
  - apply IH. assumption.
Qed.

Lemma not_hex_app (a b : jsstring) (c : Z) :
  isHexDigit c = false -> forallb isHexDigit (a ++ c :: b) = false.
Proof.
  intros Hc. rewrite forallb_app. simpl. rewrite Hc. simpl. apply andb_false_r.
Qed.

(** C3, as the code has it. The locator of the pipeline is the one
    pattern [\/Contents\s*<([0-9A-Fa-f]+)>]: its candidates come in
    document order, by increasing offset, and each is a non-empty run of
    hex digits, so that an indirect reference is never a candidate and is
    never decoded.  The table of [analyzePdf.js] reports its matches
    pattern by pattern in the order of the table, the plain [/Contents]
    pattern first and the Aadhaar eSign subfilter last, and reports an
    indirect reference without a size. *)
Theorem locator_document_order :
  forall pdfString : jsstring,
    StronglySorted (fun a b => (index_ a < index_ b)%nat) (matchAll sigRegex pdfString)
    /\ Forall (fun m => group m 1 <> [] /\ forallb isHexDigit (group m 1) = true)
              (matchAll sigRegex pdfString)
    /\ StronglySorted le ((fun f => patternRank (pattern f)) <$> foundSignatures pdfString)
    /\ Forall (fun f => pattern f = "Indirect /Contents reference"%string -> hexDigits f = None)
              (foundSignatures pdfString)
    /\ (patternRank <$> [ "Standard /Contents hex"; "Indirect /Contents reference";
                          "/ByteRange with /Contents"; "/Sig dictionary";
                          "PKCS#7 detached"; "PKCS#7 SHA1"; "Aadhaar eSign" ]%string)
       = [0; 1; 2; 3; 4; 5; 6]%nat.
Proof.
  intros pdfString. split; [|split; [|split; [|split]]].
  - apply matchAllFrom_sorted.
  - unfold matchAll.
    apply (matchAllFrom_groups sigRegex
             (fun caps => default [] (caps !! 0%nat) <> []
                          /\ forallb isHexDigit (default [] (caps !! 0%nat)) = true)).
    intros rest pos e caps Hm.
    apply contentsHex_capture in Hm as (hex & -> & Hne & Hall). simpl. auto.
  - unfold foundSignatures.
    apply (flat_map_ranked (fun p => patternRank (name p))).
    + intros p f Hf. apply list_elem_of_fmap in Hf as (m & -> & _). reflexivity.
    + vm_compute. repeat constructor.
  - unfold foundSignatures. apply Forall_forall. intros f Hf.
    apply list_elem_of_In, in_flat_map in Hf as (p & Hp & Hf).
    apply in_map_iff in Hf as (m & <- & _).
    unfold patterns in Hp. simpl in Hp.
    destruct Hp as [<-|[<-|[<-|[<-|[<-|[<-|[<-|[]]]]]]]]; cbn [foundBy pattern name];
      try discriminate.
    intros _. cbn [foundBy hexDigits extract].
    change (str " ") with [32]. cbn [app].
    rewrite (not_hex_app (group m 1) _ 32 eq_refl). reflexivity.
  - reflexivity.
Qed.

Lemma locator_document_order_witness :
  Forall (fun f => pattern f = "Indirect /Contents reference"%string -> hexDigits f = None)
         (foundSignatures twoSignatures)
  /\ (hexDigits <$> foundSignatures twoSignatures) !! 2%nat = Some None.
Proof.
  split.
  - exact (proj1 (proj2 (proj2 (proj2 (locator_document_order twoSignatures))))).
  - vm_compute. reflexivity.
Defined.

(** C3 as the specification states it fails: in a document with a bare
    [/Contents] blob before the Aadhaar eSign signature, the locator's
    first candidate is the bare blob, and the table of the analyzer
    lists both blobs under the plain pattern before it lists the Aadhaar
    one; the indirect reference is no candidate of the locator. *)
Lemma locator_not_by_specificity :
  (fun m => (index_ m, group m 1)) <$> matchAll sigRegex twoSignatures
  = [(9%nat, str "AA"); (56%nat, str "BB")]
  /\ (fun f => (pattern f, data f)) <$> foundSignatures twoSignatures
     = [ ("Standard /Contents hex"%string, str "AA");
         ("Standard /Contents hex"%string, str "BB");
         ("Indirect /Contents reference"%string, str "12 0 R");
         ("Aadhaar eSign"%string, str "BB") ].
Proof. split; vm_compute; reflexivity. Qed.

(** ** CandidateSelector: the search *)

Section Selection.
Context {F : Forge}.

Lemma trySignatures_passed (fuel : nat) (matches rest : list Match) :
  Forall (passedOver fuel) matches ->
  trySignatures fuel (matches ++ rest) = trySignatures fuel rest.
Proof.
  induction 1 as [|m ms (o & Ho & Hpass) Hms IH]; [reflexivity|].
  simpl. unfold candidateCertificate in Ho. rewrite Ho.
  destruct o as [certificate|msg]; [rewrite Hpass|]; exact IH.
Qed.

Lemma trySignatures_found (fuel : nat) (pre post : list Match) (m : Match)
    (certificate : list Z) :
  Forall (passedOver fuel) pre ->
  candidateCertificate fuel m = Some (Ok certificate) ->
  bufferHasAadhaarData certificate = true ->
  trySignatures fuel (pre ++ m :: post) = Some (Some certificate).
Proof.
  intros Hpre Hm Hdata. rewrite trySignatures_passed by assumption.
  simpl. unfold candidateCertificate in Hm. rewrite Hm, Hdata. reflexivity.
Qed.

Lemma trySignatures_none (fuel : nat) (matches : list Match) :
  Forall (passedOver fuel) matches -> trySignatures fuel matches = Some None.
Proof.
  intros Hall. rewrite <- (app_nil_r matches).
  rewrite trySignatures_passed by assumption. reflexivity.
Qed.

End Selection.

(** C1, as the code has it. The pipeline goes through the signature
    candidates in locator order and decodes one certificate for each.
    With no candidate it fails with the 'No signature found' error.  It
    returns the record of the first candidate whose certificate parses to
    a record with Aadhaar data, the candidates before it having been
    passed over.  When every candidate is passed over, it gives what the
    first candidate gives, whatever the later ones decoded to: its record
    when its certificate parses, else the error of its decode or of its
    parse.  Under the direct scan of the byte-pattern fallback the one
    certificate of a candidate is the first scanned certificate with
    Aadhaar data, else the first scanned certificate. *)
Theorem extractIdentityFromDocument_selection :
  forall (F : Forge) (fuel : nat) (pdfBuffer : list Z),
    (matchAll sigRegex pdfBuffer = [] ->
     extractIdentityFromDocument fuel pdfBuffer
     = Some (Throw (str "Failed to extract certificate from PDF: No signature found in PDF. The PDF may not be digitally signed.")))
    /\ (forall (pre post : list Match) (m : Match) (certificate : list Z) (r : AadhaarDetails),
          matchAll sigRegex pdfBuffer = pre ++ m :: post ->
          Forall (passedOver fuel) pre ->
          candidateCertificate fuel m = Some (Ok certificate) ->
          parseCertificateFromBuffer certificate = Ok r ->
          hasAadhaarData r = true ->
          extractIdentityFromDocument fuel pdfBuffer = Some (Ok r))
    /\ (forall (first : Match) (rest : list Match),
          matchAll sigRegex pdfBuffer = first :: rest ->
          Forall (passedOver fuel) (first :: rest) ->
          extractIdentityFromDocument fuel pdfBuffer
          = (fun o => bind (rethrow "Failed to extract certificate from PDF: " o)
                        parseCertificateFromBuffer) <$> candidateCertificate fuel first)
    /\ (forall (bytes : jsstring) (first : FoundCert) (rest : list FoundCert),
          scanForCertificates bytes = first :: rest ->
          extractCertificateByPattern fuel bytes
          = Some (Ok (buffer (default first (find isAadhaar (first :: rest)))))).
Proof.
  intros F fuel pdfBuffer. split; [|split; [|split]].
  - intros Hnone. unfold extractIdentityFromDocument, extractCertificateFromPDF.
    rewrite Hnone. reflexivity.
  - intros pre post m certificate r Hms Hpre Hm Hr Hdata.
    unfold extractIdentityFromDocument, extractCertificateFromPDF. rewrite Hms.
    assert (bufferHasAadhaarData certificate = true) as Hbuf
      by (unfold bufferHasAadhaarData; rewrite Hr; exact Hdata).
    rewrite (trySignatures_found fuel pre post m certificate Hpre Hm Hbuf).
    destruct (pre ++ m :: post) as [|first rest] eqn:Heq;
      [destruct pre; discriminate|].
    cbn. rewrite Hr. reflexivity.
  - intros first rest Hms Hall.
    unfold extractIdentityFromDocument, extractCertificateFromPDF. rewrite Hms.
    rewrite (trySignatures_none fuel (first :: rest) Hall).
    unfold candidateCertificate.
    destruct (extractCertificateFromPKCS7 fuel (hexToBytes (group first 1))) as [o|];
      reflexivity.
  - intros bytes first rest Hscan. unfold extractCertificateByPattern. rewrite Hscan.
    destruct (find isAadhaar (first :: rest)) as [cert|]; reflexivity.
Qed.

Lemma extractIdentityFromDocument_selection_witness :
  @extractIdentityFromDocument plainForge 1 personalSecond = Some (Ok personalDetails)
  /\ @extractIdentityFromDocument plainForge 1 bareFirst = Some (Ok bareDetails).
Proof.
  split.
  - destruct (extractIdentityFromDocument_selection plainForge 1 personalSecond)
      as (_ & Hfound & _).
    apply (Hfound [ {| index_ := 9; groups := [str "00"] |} ] []
             {| index_ := 24; groups := [hexOf (signatureWith personalCertificate)] |}
             personalCertificate personalDetails).
    + vm_compute. reflexivity.
    + constructor; [|constructor].
      eexists. split; [vm_compute; reflexivity|exact I].
    + vm_compute. reflexivity.
    + vm_compute. reflexivity.
    + vm_compute. reflexivity.
  - destruct (extractIdentityFromDocument_selection plainForge 1 bareFirst)
      as (_ & _ & Hfirst & _).
    rewrite (Hfirst {| index_ := 9; groups := [str bareSignatureHex] |}
               [ {| index_ := 60; groups := [str "00"] |} ]).
    + vm_compute. reflexivity.
    + vm_compute. reflexivity.
    + constructor; [|constructor; [|constructor]].
      * eexists. split; [vm_compute; reflexivity|vm_compute; reflexivity].
      * eexists. split; [vm_compute; reflexivity|exact I].
Defined.

(** C1 as the specification states it fails: the second signature of
    the document decodes to a record (without Aadhaar data), the first
    does not decode, and the pipeline fails with the error of the first
    instead of returning the record. *)
Lemma first_candidate_decides :
  (fun m => @candidateCertificate plainForge 1 m) <$> matchAll sigRegex bareSecond
  = [ Some (Throw (str "Failed to extract certificate from PKCS#7: Failed to extract certificate from ASN.1: Too few bytes to parse DER."));
      Some (Ok bareCertificate) ]
  /\ @parseCertificateFromBuffer plainForge bareCertificate = Ok bareDetails
  /\ @extractIdentityFromDocument plainForge 1 bareSecond
     = Some (Throw (str "Failed to extract certificate from PDF: Failed to extract certificate from PKCS#7: Failed to extract certificate from ASN.1: Too few bytes to parse DER.")).
Proof. repeat split; vm_compute; reflexivity. Qed.

(** ** Pkcs7Decoder: a scan that does not end *)

Lemma sectionLoop_stuck (fuel : nat) :
  @sectionLoop plainForge fuel stuckSignature (Some 10) 4 = None.
Proof.
  induction fuel as [|fuel IH]; [reflexivity|].
  change (@sectionLoop plainForge (S fuel) stuckSignature (Some 10) 4)
    with (@sectionLoop plainForge fuel stuckSignature (Some 10) (4 + (6 + -6))).
  exact IH.
Qed.

(** X1. The loop of strategy 1 over a certificates section advances by
    the header size plus the decoded length; on [stuckSignature] that sum is
    zero and the SEQUENCE does not parse, so the scan stays where it is:
    no number of rounds brings the decode of the signature, or the
    pipeline on a document that holds it, to a result. *)
Theorem extractCertificateFromPKCS7_no_return :
  forall fuel : nat,
    @extractCertificateFromPKCS7 plainForge fuel stuckSignature = None
    /\ @extractIdentityFromDocument plainForge fuel
         (str "%PDF-1.4 /Contents <" ++ hexOf stuckSignature ++ str ">") = None.
Proof.
  intros fuel.
  assert (@strategy1 plainForge fuel stuckSignature
            (seqZ 0 (Z.of_nat (length stuckSignature) - 4)) = None) as Hs1.
  { change (seqZ 0 (Z.of_nat (length stuckSignature) - 4))
      with [0; 1; 2; 3; 4; 5; 6; 7; 8; 9].
    change (@strategy1 plainForge fuel stuckSignature [0; 1; 2; 3; 4; 5; 6; 7; 8; 9])
      with (match @sectionLoop plainForge fuel stuckSignature (Some 10) 4 with
            | None => None
            | Some (Some certificate) => Some (Some certificate)
            | Some None => @strategy1 plainForge fuel stuckSignature [3; 4; 5; 6; 7; 8; 9]
            end).
    rewrite sectionLoop_stuck. reflexivity. }
  assert (@extractCertificateByPattern plainForge fuel stuckSignature = None) as Hpat.
  { unfold extractCertificateByPattern.
    change (@scanForCertificates plainForge stuckSignature) with (@nil FoundCert).
    rewrite Hs1. reflexivity. }
  assert (@extractCertificateFromPKCS7 plainForge fuel stuckSignature = None) as Hp7.
  { unfold extractCertificateFromPKCS7.
    replace (@standardPKCS7 plainForge stuckSignature)
      with (@Throw (option (list Z)) (str "Unparsed DER bytes remain after ASN.1 parsing."))
      by (vm_compute; reflexivity).
    unfold extractCertificateFromASN1.
    replace (@asn1_fromDer plainForge stuckSignature)
      with (@Throw asn1 (str "Unparsed DER bytes remain after ASN.1 parsing."))
      by (vm_compute; reflexivity).
    replace (includes (str "Unparsed DER bytes remain after ASN.1 parsing.")
               (str "Unparsed DER bytes")) with true by (vm_compute; reflexivity).
    rewrite Hpat. reflexivity. }
  split; [exact Hp7|].
  unfold extractIdentityFromDocument, extractCertificateFromPDF.
  replace (matchAll sigRegex (str "%PDF-1.4 /Contents <" ++ hexOf stuckSignature ++ str ">"))
    with [ {| index_ := 9%nat; groups := [hexOf stuckSignature] |} ]
    by (vm_compute; reflexivity).
  cbn [trySignatures].
  replace (hexToBytes (group {| index_ := 9%nat; groups := [hexOf stuckSignature] |} 1))
    with stuckSignature by (vm_compute; reflexivity).
  rewrite Hp7. reflexivity.
Qed.

Lemma parseCertificateFromBuffer_fields_witness :
  (exists asn1Cert tbsCertificate : asn1,
     @asn1_fromDer plainForge personalCertificate = Ok asn1Cert
     /\ valueAt (asn1_value asn1Cert) 0 = Some (ENode tbsCertificate)
     /\ @fromAsn1Walk plainForge tbsCertificate personalDetails)
  /\ (exists asn1Cert tbsCertificate : asn1,
        @asn1_fromDer clockForge datedCertificate = Ok asn1Cert
        /\ valueAt (asn1_value asn1Cert) 0 = Some (ENode tbsCertificate)
        /\ @fromAsn1Walk clockForge tbsCertificate datedDetails).
Proof.
  split.
  - pose proof (proj1 (parseCertificateFromBuffer_fields plainForge) personalCertificate) as H.
    replace (@parseCertificateFromBuffer plainForge personalCertificate)
      with (Ok personalDetails) in H by (vm_compute; reflexivity).
    destruct H as [(cert & _)|H]; [destruct cert|exact H].
  - pose proof (proj1 (parseCertificateFromBuffer_fields clockForge) datedCertificate) as H.
    replace (@parseCertificateFromBuffer clockForge datedCertificate)
      with (Ok datedDetails) in H by (vm_compute; reflexivity).
    destruct H as [(cert & _)|H]; [destruct cert|exact H].
Defined.

(** ** Values of the primitives *)

Example parseInt_ex1 : parseInt (str "560001") 0 = Some 560001.
Proof. reflexivity. Qed.
Example parseInt_ex2 : parseInt (str "  -5x") 0 = Some (-5).
Proof. reflexivity. Qed.
Example parseInt_ex3 : parseInt (str "0x1F") 0 = Some 31.
Proof. reflexivity. Qed.
Example parseInt_ex4 : parseInt (str "abc") 0 = None.
Proof. reflexivity. Qed.
Example parseInt_ex5 : parseInt (str "fZ") 16 = Some 15.
Proof. reflexivity. Qed.
Example shl8or_wrap : shl8or 16777215 (Some 250) = -6.
Proof. reflexivity. Qed.
Example slice_ex : slice [1; 2; 3; 4] 1 (Some 3) = [2; 3] /\ slice [1; 2; 3] 2 None = [].
Proof. split; reflexivity. Qed.

Example getPinCode_ex : getPinCode (Some (str "12abc")) = str "12abc" /\ getPinCode (Some (str "0")) = NA.
Proof. split; reflexivity. Qed.
Example getBirthYear_ex : getBirthYear (Some (str "1990F56789")) = str "1990" /\ getBirthYear (Some (str "1900")) = NA.
Proof. split; reflexivity. Qed.
Example getGenderInfo_ex : getGenderInfo (Some (str "1990f56789")) = str "F" /\ getGenderInfo (Some (str "1990")) = NA.
Proof. split; reflexivity. Qed.
Example hexToBytes_ex : hexToBytes (str "3082abC") = [48; 130; 171; 12] /\ hexToBytes (str "zz-1") = [0; 65535].
Proof. split; reflexivity. Qed.

(** ** SignatureLocator: what the pattern finds *)

Lemma matchItems_lits_intro (s : jsstring) (items : list item) :
  forall rest pos opens caps,
    matchItems (map Lit s ++ items) (s ++ rest) pos opens caps
    = matchItems items rest (pos + length s) opens caps.
Proof.
  induction s as [|c s IH]; intros rest pos opens caps; cbn [map app matchItems length].
  - rewrite Nat.add_0_r. reflexivity.
  - rewrite Z.eqb_refl, IH. f_equal. lia.
Qed.

Lemma tryRep_first {R} (k : nat -> option R) (min n : nat) (r : R) :
  (min <= n)%nat -> k n = Some r -> tryRep k min n = Some r.
Proof.
  intros Hmin Hk. destruct n as [|n]; cbn [tryRep];
    rewrite bool_decide_eq_false_2 by lia; rewrite Hk; reflexivity.
Qed.

Lemma runLength_exact (k : cclass) (a : jsstring) (c : Z) (b : jsstring) :
  forallb (inClass k) a = true -> inClass k c = false ->
  runLength k (a ++ c :: b) None = length a.
Proof.
  intros Ha Hc. induction a as [|x a IH]; cbn [app runLength length].
  - rewrite Hc. reflexivity.
  - cbn in Ha. apply andb_prop in Ha as [Hx Ha]. rewrite Hx. cbn. rewrite IH by assumption.
    reflexivity.
Qed.

Lemma contentsHex_sound (rest : jsstring) (pos e : nat) (opens : list (jsstring * nat))
    (caps caps' : list jsstring) :
  matchItems contentsHex rest pos opens caps = Some (e, caps') ->
  exists (hex : jsstring) (len : nat),
    contentsHead rest hex len /\ caps' = caps ++ [hex] /\ e = (pos + len)%nat.
Proof.
  unfold contentsHex, lits. intros H.
  apply matchItems_lits in H as (rest1 & -> & H).
  simpl in H. apply tryRep_Some in H as (j & Hj & H).
  destruct (drop j rest1) as [|c rest2] eqn:Hdrop; [discriminate|].
  destruct (Z.eqb_spec c 60) as [->|]; [|discriminate].
  apply tryRep_Some in H as (j2 & Hj2 & H).
  destruct (drop j2 rest2) as [|c' rest3] eqn:Hdrop2; [discriminate|].
  destruct (Z.eqb_spec c' 62) as [->|]; [|discriminate].
  injection H as <- <-.
  destruct (runLength_take ClsSpace rest1 None j ltac:(lia)) as [Hws Hwslen].
  destruct (runLength_take ClsHex rest2 None j2 ltac:(lia)) as [Hhex Hhexlen].
  match goal with
  | |- context [take ?n rest2] => replace n with j2 by lia
  end.
  exists (take j2 rest2), (9 + j + 1 + j2 + 1)%nat.
  split; [|split; [reflexivity|lia]].
  exists (take j rest1), rest3.
  split.
  - f_equal. rewrite <- (take_drop j rest1) at 1. f_equal. rewrite Hdrop.
    cbn [app]. f_equal. rewrite <- (take_drop j2 rest2) at 1. f_equal. rewrite Hdrop2.
    reflexivity.
  - split; [exact Hws|]. split.
    + intros Hnil. rewrite Hnil in Hhexlen. simpl in Hhexlen. lia.
    + split; [exact Hhex|]. rewrite Hwslen, Hhexlen. reflexivity.
Qed.

Lemma contentsHex_complete (rest hex : jsstring) (len pos : nat)
    (opens : list (jsstring * nat)) (caps : list jsstring) :
  contentsHead rest hex len ->
  matchItems contentsHex rest pos opens caps = Some ((pos + len)%nat, caps ++ [hex]).
Proof.
  intros (ws & post & -> & Hws & Hne & Hhex & ->).
  unfold contentsHex, lits. rewrite matchItems_lits_intro.
  change (length (str "/Contents")) with 9%nat.
  change ([60] ++ hex ++ [62] ++ post) with (60 :: hex ++ 62 :: post).
  cbn [matchItems].
  rewrite (runLength_exact ClsSpace ws 60 (hex ++ 62 :: post) Hws eq_refl).
  apply tryRep_first; [lia|].
  rewrite drop_app_length. cbn [app].
  change (60 =? 60) with true. cbv iota.
  rewrite (runLength_exact ClsHex hex 62 post Hhex eq_refl).
  apply tryRep_first; [destruct hex; [congruence|cbn; lia]|].
  rewrite drop_app_length. change (62 =? 62) with true. cbv iota.
  f_equal. f_equal; [lia|]. f_equal. f_equal.
  replace (S (pos + 9 + length ws) + length hex - S (pos + 9 + length ws))%nat
    with (length hex) by lia.
  apply take_app_length.
Qed.

(** Inside a match no other match starts. *)
Lemma contentsHead_no_slash (rest hex : jsstring) (len k : nat) :
  contentsHead rest hex len -> (0 < k < len)%nat -> rest !! k <> Some 47.
Proof.
  intros (ws & post & -> & Hws & Hne & Hhex & ->) Hk.
  assert (Forall (fun c => c <> 47) (str "Contents" ++ ws ++ [60] ++ hex ++ [62])) as Hall.
  { apply Forall_app. split; [vm_compute; repeat constructor; discriminate|].
    apply Forall_app. split.
    { apply Forall_forall. intros c Hc Heq. subst c.
      rewrite forallb_forall in Hws. apply list_elem_of_In, Hws in Hc. discriminate. }
    apply Forall_app. split; [repeat constructor; discriminate|].
    apply Forall_app. split; [|repeat constructor; discriminate].
    apply Forall_forall. intros c Hc Heq. subst c.
    rewrite forallb_forall in Hhex. apply list_elem_of_In, Hhex in Hc. discriminate. }
  destruct k as [|k]; [lia|].
  replace (str "/Contents" ++ ws ++ [60] ++ hex ++ [62] ++ post)
    with (47 :: ((str "Contents" ++ ws ++ [60] ++ hex ++ [62]) ++ post))
    by (rewrite <- !app_assoc; reflexivity).
  rewrite lookup_cons, lookup_app_l.
  2: { rewrite !length_app. change (length (str "Contents")) with 8%nat. cbn [length]. lia. }
  intros Hl. rewrite Forall_forall in Hall. apply list_elem_of_lookup_2 in Hl.
  apply Hall in Hl. congruence.
Qed.

Lemma contentsHead_length (rest hex : jsstring) (len : nat) :
  contentsHead rest hex len -> (len <= length rest)%nat /\ (length hex + 11 <= len)%nat.
Proof.
  intros (ws & post & -> & _ & _ & _ & ->). rewrite !length_app.
  change (length (str "/Contents")) with 9%nat. cbn [length]. lia.
Qed.

Lemma contentsHead_slash (rest hex : jsstring) (len : nat) :
  contentsHead rest hex len -> rest !! 0%nat = Some 47.
Proof. intros (ws & post & -> & _). reflexivity. Qed.

Lemma matchAllFrom_sound : forall (fuel : nat) (rest : jsstring) (pos : nat) (m : Match),
  m ∈ matchAllFrom fuel sigRegex rest pos ->
  exists (hex : jsstring) (len : nat),
    groups m = [hex] /\ (pos <= index_ m)%nat
    /\ contentsHead (drop (index_ m - pos) rest) hex len.
Proof.
  unfold sigRegex.
  induction fuel as [|fuel IH]; intros rest pos m; cbn [matchAllFrom].
  - intros Hm. inversion Hm.
  - destruct (matchItems contentsHex rest pos [] []) as [[e caps]|] eqn:Hhere.
    + apply contentsHex_sound in Hhere as (hex & len & Hhead & -> & ->).
      destruct (contentsHead_length _ _ _ Hhead) as [Hlen Hlen'].
      rewrite (bool_decide_eq_false_2 ((pos + len)%nat = pos)) by lia.
      replace (pos + len - pos)%nat with len by lia.
      intros Hm. apply elem_of_cons in Hm as [->|Hm].
      * exists hex, len. cbn. rewrite Nat.sub_diag. auto.
      * rewrite bool_decide_eq_false_2 in Hm by lia.
        apply IH in Hm as (hex' & len' & Hg & Hpos & Hhead').
        exists hex', len'. split; [assumption|]. split; [lia|].
        rewrite drop_drop in Hhead'.
        replace (index_ m - pos)%nat with (len + (index_ m - (pos + len)))%nat by lia.
        assumption.
    + destruct rest as [|c rest']; [intros Hm; inversion Hm|].
      intros Hm. apply IH in Hm as (hex' & len' & Hg & Hpos & Hhead').
      exists hex', len'. split; [assumption|]. split; [lia|].
      replace (index_ m - pos)%nat with (S (index_ m - S pos)) by lia. assumption.
Qed.

Lemma matchAllFrom_complete : forall (fuel : nat) (rest : jsstring) (pos k : nat)
    (hex : jsstring) (len : nat),
  (length rest < fuel)%nat ->
  contentsHead (drop k rest) hex len ->
  {| index_ := (pos + k)%nat; groups := [hex] |} ∈ matchAllFrom fuel sigRegex rest pos.
Proof.
  unfold sigRegex.
  induction fuel as [|fuel IH]; intros rest pos k hex len Hfuel Hhead; [lia|].
  cbn [matchAllFrom].
  destruct (matchItems contentsHex rest pos [] []) as [[e caps]|] eqn:Hhere.
  - pose proof Hhere as Hsound.
    apply contentsHex_sound in Hsound as (hex0 & len0 & Hhead0 & -> & ->).
    destruct (contentsHead_length _ _ _ Hhead0) as [Hlen0 Hpos0].
    rewrite (bool_decide_eq_false_2 ((pos + len0)%nat = pos)) by lia.
    replace (pos + len0 - pos)%nat with len0 by lia.
    rewrite bool_decide_eq_false_2 by lia.
    destruct k as [|k].
    + rewrite drop_0 in Hhead.
      rewrite (contentsHex_complete rest hex len pos [] [] Hhead) in Hhere.
      injection Hhere as _ <-. rewrite Nat.add_0_r. left.
    + right.
      assert (len0 <= S k)%nat as Hk.
      { destruct (Nat.le_gt_cases len0 (S k)) as [|Hlt]; [assumption|]. exfalso.
        apply (contentsHead_no_slash rest hex0 len0 (S k) Hhead0); [lia|].
        apply contentsHead_slash in Hhead. rewrite lookup_drop in Hhead.
        rewrite Nat.add_0_r in Hhead. exact Hhead. }
      replace (pos + S k)%nat with (pos + len0 + (S k - len0))%nat by lia.
      apply (IH _ _ _ hex len).
      * rewrite length_drop. lia.
      * rewrite drop_drop. replace (len0 + (S k - len0))%nat with (S k) by lia. assumption.
  - destruct k as [|k].
    + rewrite drop_0 in Hhead.
      rewrite (contentsHex_complete rest hex len pos [] [] Hhead) in Hhere. discriminate.
    + destruct rest as [|c rest'].
      * destruct Hhead as (ws & post & Hnil & _). discriminate Hnil.
      * replace (pos + S k)%nat with (S pos + k)%nat by lia.
        apply (IH _ _ _ hex len); [cbn in Hfuel; lia|exact Hhead].
Qed.

(** X2. The pattern of [extractCertificateFromPDF] finds exactly the
    places where the text has the key [/Contents], white space, and a
    non-empty run of hex digits between angle brackets: each match
    captures that run, and every such place is the index of a match. *)
Theorem locator_exact :
  forall (pdfString : jsstring) (m : Match),
    m ∈ matchAll sigRegex pdfString
    <-> exists hex : jsstring, groups m = [hex] /\ contentsAt pdfString (index_ m) hex.
Proof.
  intros pdfString m. unfold matchAll. split.
  all: fold sigRegex.
  - intros Hm. apply matchAllFrom_sound in Hm as (hex & len & Hg & _ & Hhead).
    exists hex. split; [assumption|]. rewrite Nat.sub_0_r in Hhead.
    destruct Hhead as (ws & post & Heq & Hws & Hne & Hhex & _). exists ws, post. auto.
  - intros (hex & Hg & ws & post & Heq & Hws & Hne & Hhex).
    destruct m as [p caps]. cbn in Hg, Heq. subst caps.
    change p with (0 + p)%nat.
    apply (matchAllFrom_complete _ _ _ _ hex (9 + length ws + 1 + length hex + 1)); [lia|].
    exists ws, post. auto.
Qed.

Lemma locator_exact_witness :
  {| index_ := 9%nat; groups := [str "AA"] |} ∈ matchAll sigRegex twoSignatures.
Proof.
  apply (proj2 (locator_exact twoSignatures {| index_ := 9%nat; groups := [str "AA"] |})).
  exists (str "AA"). split; [reflexivity|].
  exists (str " "), (str " /SubFilter /ETSI.CAdES.detached /Contents <BB> /Contents 12 0 R").
  split; [reflexivity|]. split; [reflexivity|]. split; [discriminate|reflexivity].
Defined.

(** ** The table of [analyzePdf.js] against the locator *)

Lemma matchItems_app (xs ys : list item) :
  forall rest pos opens caps r,
    matchItems (xs ++ ys) rest pos opens caps = Some r ->
    exists (k : nat) (opens' : list (jsstring * nat)) (caps' : list jsstring),
      matchItems ys (drop k rest) (pos + k) opens' caps' = Some r
      /\ length caps' = (length caps + closes xs)%nat.
Proof.
  induction xs as [|it xs IH]; intros rest pos opens caps r; cbn [app matchItems].
  - intros H. exists 0%nat, opens, caps. rewrite drop_0, Nat.add_0_r.
    split; [assumption|]. unfold closes. cbn. lia.
  - destruct it as [c|cls min max| |].
    + destruct rest as [|c' rest']; [discriminate|].
      destruct (c' =? c); [|discriminate]. intros H.
      apply IH in H as (k & opens' & caps' & H & Hlen).
      exists (S k), opens', caps'. cbn [drop].
      replace (pos + S k)%nat with (S pos + k)%nat by lia. auto.
    + intros H. apply tryRep_Some in H as (j & _ & H).
      apply IH in H as (k & opens' & caps' & H & Hlen).
      exists (j + k)%nat, opens', caps'. rewrite drop_drop in H.
      replace (pos + (j + k))%nat with (pos + j + k)%nat by lia. auto.
    + intros H. apply IH in H as (k & opens' & caps' & H & Hlen).
      exists k, opens', caps'. auto.
    + destruct opens as [|[text start] opens0]; [discriminate|]. intros H.
      apply IH in H as (k & opens' & caps' & H & Hlen).
      exists k, opens', caps'. split; [assumption|].
      rewrite Hlen, length_app. unfold closes. cbn. lia.
Qed.

(** Each match of a global pattern is a match of the pattern at its index. *)
Lemma matchAllFrom_at (re : list item) : forall (fuel : nat) (rest : jsstring) (pos : nat)
    (m : Match),
  m ∈ matchAllFrom fuel re rest pos ->
  (pos <= index_ m)%nat
  /\ exists e : nat,
       matchItems re (drop (index_ m - pos) rest) (index_ m) [] [] = Some (e, groups m).
Proof.
  induction fuel as [|fuel IH]; intros rest pos m; cbn [matchAllFrom].
  - intros Hm. inversion Hm.
  - destruct (matchItems re rest pos [] []) as [[e caps]|] eqn:Hhere.
    + set (next := if bool_decide (e = pos) then S pos else e).
      pose proof (matchItems_end _ _ _ _ _ _ _ Hhere) as Hend.
      assert (pos < next)%nat as Hnext by (unfold next; case_bool_decide; lia).
      intros Hm. apply elem_of_cons in Hm as [->|Hm].
      * cbn. rewrite Nat.sub_diag, drop_0. split; [lia|]. exists e. assumption.
      * case_bool_decide as Hlen; [inversion Hm|].
        apply IH in Hm as (Hpos & e' & Hm). split; [lia|]. exists e'.
        rewrite drop_drop in Hm.
        replace (index_ m - pos)%nat with (next - pos + (index_ m - next))%nat by lia.
        assumption.
    + destruct rest as [|c rest']; [intros Hm; inversion Hm|].
      intros Hm. apply IH in Hm as (Hpos & e' & Hm). split; [lia|]. exists e'.
      replace (index_ m - pos)%nat with (S (index_ m - S pos)) by lia. assumption.
Qed.

Lemma found_by_suffix (prefix : list item) (text : jsstring) (m : Match) :
  m ∈ matchAll (prefix ++ contentsHex) text ->
  exists (k : nat) (hex : jsstring),
    groups m !! closes prefix = Some hex
    /\ hex <> [] /\ forallb isHexDigit hex = true
    /\ {| index_ := (index_ m + k)%nat; groups := [hex] |} ∈ matchAll sigRegex text.
Proof.
  unfold matchAll. intros Hm.
  apply matchAllFrom_at in Hm as (_ & e & Hm). rewrite Nat.sub_0_r in Hm.
  apply matchItems_app in Hm as (k & opens' & caps' & Hm & Hlen).
  apply contentsHex_sound in Hm as (hex & len & Hhead & Hcaps & _).
  exists k, hex. split; [|split; [|split]].
  - rewrite Hcaps. cbn [length] in Hlen. rewrite lookup_app_r by lia.
    rewrite Hlen, Nat.sub_diag. reflexivity.
  - destruct Hhead as (_ & _ & _ & _ & Hne & _). exact Hne.
  - destruct Hhead as (_ & _ & _ & _ & _ & Hhex & _). exact Hhex.
  - rewrite drop_drop in Hhead.
    replace (index_ m + k)%nat with (0 + (index_ m + k))%nat by lia.
    apply (matchAllFrom_complete _ _ _ _ hex len); [lia|assumption].
Qed.

(** X3. Every signature the table of [analyzePdf.js] reports under a
    pattern other than the indirect reference is a candidate of the
    extractor: the one pattern of [extractCertificateFromPDF] has a match
    that captures the same hex text, at or after the reported position.
    Such a signature is reported with a size, the half of the number of
    its hex digits. *)
Theorem analyzer_within_locator :
  forall (pdfString : jsstring) (f : FoundSignature),
    f ∈ foundSignatures pdfString ->
    pattern f <> "Indirect /Contents reference"%string ->
    hexDigits f = Some (Z.of_nat (length (data f)))
    /\ exists m : Match,
         m ∈ matchAll sigRegex pdfString
         /\ group m 1 = data f
         /\ (position f <= index_ m)%nat.
Proof.
  intros pdfString f Hf Hpattern. unfold foundSignatures in Hf.
  apply list_elem_of_In, in_flat_map in Hf as (p & Hp & Hf).
  apply in_map_iff in Hf as (m & <- & Hm). apply list_elem_of_In in Hm.
  assert (forall prefix : list item,
            regex p = prefix ++ contentsHex ->
            extract p m = default [] (groups m !! closes prefix) ->
            hexDigits (foundBy p m) = Some (Z.of_nat (length (data (foundBy p m))))
            /\ exists m' : Match,
                 m' ∈ matchAll sigRegex pdfString
                 /\ group m' 1 = data (foundBy p m)
                 /\ (position (foundBy p m) <= index_ m')%nat) as Hsuffix.
  { intros prefix Hre Hex. rewrite Hre in Hm.
    apply found_by_suffix in Hm as (k & hex & Hg & Hne & Hhex & Hm').
    cbn [foundBy data position index_ hexDigits]. rewrite Hex, Hg.
    change (default [] (Some hex)) with hex.
    split.
    - rewrite Hhex. unfold streq. rewrite bool_decide_eq_false_2 by assumption. reflexivity.
    - eexists. split; [exact Hm'|]. split; [reflexivity|cbn; lia]. }
  unfold patterns in Hp. simpl in Hp.
  destruct Hp as [<-|[<-|[<-|[<-|[<-|[<-|[<-|[]]]]]]]].
  - apply (Hsuffix []); reflexivity.
  - exfalso. apply Hpattern. reflexivity.
  - apply (Hsuffix (lits "/ByteRange"
                    ++ [Rep ClsSpace 0 None; Lit 91; Open; Rep ClsNotBracket 1 None; Close;
                        Lit 93; Rep ClsAny 0 (Some 500%nat)])).
    + cbn [regex]. rewrite <- app_assoc. reflexivity.
    + reflexivity.
  - apply (Hsuffix (lits "/Type" ++ [Rep ClsSpace 0 None] ++ lits "/Sig"
                    ++ [Rep ClsAny 0 (Some 1000%nat)])).
    + cbn [regex]. rewrite <- !app_assoc. reflexivity.
    + reflexivity.
  - apply (Hsuffix (lits "/SubFilter" ++ [Rep ClsSpace 0 None] ++ lits "/adbe.pkcs7.detached"
                    ++ [Rep ClsAny 0 (Some 1000%nat)])).
    + cbn [regex]. rewrite <- !app_assoc. reflexivity.
    + reflexivity.
  - apply (Hsuffix (lits "/SubFilter" ++ [Rep ClsSpace 0 None] ++ lits "/adbe.pkcs7.sha1"
                    ++ [Rep ClsAny 0 (Some 1000%nat)])).
    + cbn [regex]. rewrite <- !app_assoc. reflexivity.
    + reflexivity.
  - apply (Hsuffix (lits "/SubFilter" ++ [Rep ClsSpace 0 None] ++ lits "/ETSI.CAdES.detached"
                    ++ [Rep ClsAny 0 (Some 1000%nat)])).
    + cbn [regex]. rewrite <- !app_assoc. reflexivity.
    + reflexivity.
Qed.

Lemma analyzer_within_locator_witness :
  Some 2 = Some (Z.of_nat (length (str "BB")))
  /\ exists m : Match,
       m ∈ matchAll sigRegex twoSignatures
       /\ group m 1 = str "BB"
       /\ (24 <= index_ m)%nat.
Proof.
  apply (analyzer_within_locator twoSignatures
           {| pattern := "Aadhaar eSign"; data := str "BB"; hexDigits := Some 2;
              position := 24%nat |}).
  - vm_compute. do 3 right. left.
  - discriminate.
Defined.

(** ** Pkcs7Decoder: scans that end *)

Section Returns.
Context {F : Forge}.
Variable bytes : list Z.
Hypothesis Hadv : advancing bytes = true.

Lemma advancing_at (p : Z) (l k : Z) :
  0 <= p < Z.of_nat (length bytes) ->
  eqNum (index bytes p) 48 = true ->
  decodeSequenceLength bytes p = (Some l, k) -> 0 < k + l.
Proof.
  intros Hp Htag Hdec. unfold advancing in Hadv. rewrite forallb_forall in Hadv.
  specialize (Hadv p). rewrite Htag in Hadv. cbn [negb orb] in Hadv.
  unfold advance in Hadv. rewrite Hdec in Hadv. cbn in Hadv.
  apply Z.ltb_lt, Hadv, list_elem_of_In, elem_of_seqZ. lia.
Qed.

Lemma sectionLoop_enough (sectionEnd : option Z) : forall (fuel fuel' : nat) (scanPos : Z),
  0 <= scanPos -> (0 < fuel)%nat -> (0 < fuel')%nat ->
  Z.of_nat (length bytes) - scanPos < Z.of_nat fuel ->
  Z.of_nat (length bytes) - scanPos < Z.of_nat fuel' ->
  sectionLoop fuel bytes sectionEnd scanPos = sectionLoop fuel' bytes sectionEnd scanPos
  /\ is_Some (sectionLoop fuel bytes sectionEnd scanPos).
Proof.
  induction fuel as [|fuel IH]; intros fuel' scanPos Hpos Hpositive Hpositive' Hfuel Hfuel';
    [lia|].
  destruct fuel' as [|fuel']; [lia|].
  cbn [sectionLoop].
  destruct (gtNum sectionEnd scanPos && (scanPos <? Z.of_nat (length bytes))) eqn:Hin;
    [|split; [reflexivity|eauto]].
  apply andb_prop in Hin as [_ Hin]. apply Z.ltb_lt in Hin.
  destruct (eqNum (index bytes scanPos) 48) eqn:Htag.
  - destruct (sequenceAt bytes scanPos) as [certificate|]; [split; [reflexivity|eauto]|].
    destruct (decodeSequenceLength bytes scanPos) as [[l|] k] eqn:Hdec;
      [|split; [reflexivity|eauto]].
    pose proof (advancing_at scanPos l k ltac:(lia) Htag Hdec).
    apply IH; lia.
  - apply IH; lia.
Qed.

Lemma contentStart_nonneg (i : Z) :
  0 <= i -> 0 <= snd (decodeSectionLength bytes (i + 1)).
Proof.
  intros Hi. unfold decodeSectionLength.
  destruct (eqNum (index bytes (i + 1)) 128); [cbn; lia|].
  destruct (negb (andNum (index bytes (i + 1)) 128 =? 0)); cbn; [|lia].
  assert (0 <= andNum (index bytes (i + 1)) 127) by (apply Z.land_nonneg; lia). lia.
Qed.

Lemma sectionAt_enough (fuel fuel' : nat) (i : Z) :
  0 <= i -> (length bytes < fuel)%nat -> (length bytes < fuel')%nat ->
  sectionAt fuel bytes i = sectionAt fuel' bytes i /\ is_Some (sectionAt fuel bytes i).
Proof.
  intros Hi Hfuel Hfuel'. unfold sectionAt.
  destruct (eqNum (index bytes i) 160); [|split; [reflexivity|eauto]].
  pose proof (contentStart_nonneg i Hi) as Hstart.
  destruct (decodeSectionLength bytes (i + 1)) as [certSectionLength contentStart].
  cbn [snd] in Hstart. apply sectionLoop_enough; lia.
Qed.

Lemma strategy1_enough (fuel fuel' : nat) (positions : list Z) :
  Forall (fun i => 0 <= i) positions ->
  (length bytes < fuel)%nat -> (length bytes < fuel')%nat ->
  strategy1 fuel bytes positions = strategy1 fuel' bytes positions
  /\ is_Some (strategy1 fuel bytes positions).
Proof.
  intros Hall Hfuel Hfuel'. induction Hall as [|i positions Hi _ IH]; cbn [strategy1].
  - split; [reflexivity|eauto].
  - destruct (sectionAt_enough fuel fuel' i Hi Hfuel Hfuel') as [<- [o Ho]].
    rewrite Ho. destruct o as [certificate|]; [split; [reflexivity|eauto]|exact IH].
Qed.

Lemma extractCertificateByPattern_enough (fuel fuel' : nat) :
  (length bytes < fuel)%nat -> (length bytes < fuel')%nat ->
  extractCertificateByPattern fuel bytes = extractCertificateByPattern fuel' bytes
  /\ is_Some (extractCertificateByPattern fuel bytes).
Proof.
  intros Hfuel Hfuel'. unfold extractCertificateByPattern.
  destruct (scanForCertificates bytes) as [|first rest].
  - destruct (strategy1_enough fuel fuel' (seqZ 0 (Z.of_nat (length bytes) - 4)))
      as [<- [o Ho]]; [|assumption..|].
    { apply Forall_forall. intros i Hin. apply elem_of_seqZ in Hin. lia. }
    rewrite Ho. split; [reflexivity|].
    destruct o as [certificate|]; [cbn; eauto|]. destruct (strategy2 bytes); cbn; eauto.
  - split; [reflexivity|]. destruct (find isAadhaar (first :: rest)); cbn; eauto.
Qed.

Lemma extractCertificateFromPKCS7_enough (fuel fuel' : nat) :
  (length bytes < fuel)%nat -> (length bytes < fuel')%nat ->
  extractCertificateFromPKCS7 fuel bytes = extractCertificateFromPKCS7 fuel' bytes
  /\ is_Some (extractCertificateFromPKCS7 fuel bytes).
Proof.
  intros Hfuel Hfuel'.
  destruct (extractCertificateByPattern_enough fuel fuel' Hfuel Hfuel') as [Heq [o Ho]].
  unfold extractCertificateFromPKCS7, extractCertificateFromASN1.
  rewrite <- Heq, Ho.
  split; [reflexivity|].
  destruct (standardPKCS7 bytes) as [[certificate|]|m];
    [cbn [fmap option_fmap option_map]; eauto..|].
  destruct (asn1_fromDer bytes) as [asn1Obj|m'];
    [cbn [fmap option_fmap option_map]; eauto|].
  destruct (includes m' (str "Unparsed DER bytes"));
    cbn [fmap option_fmap option_map]; eauto.
Qed.

End Returns.

(** X4. When every SEQUENCE tag of the signature moves the scan of a
    certificates section forward (the header size plus the decoded length
    is positive), [extractCertificateFromPKCS7] returns: it gives one and
    the same result for every number of rounds above the length of the
    signature. *)
Theorem extractCertificateFromPKCS7_returns :
  forall (F : Forge) (pkcs7Binary : jsstring),
    advancing pkcs7Binary = true ->
    exists r : result (list Z),
      forall fuel : nat,
        (length pkcs7Binary < fuel)%nat ->
        extractCertificateFromPKCS7 fuel pkcs7Binary = Some r.
Proof.
  intros F pkcs7Binary Hadv.
  destruct (extractCertificateFromPKCS7_enough pkcs7Binary Hadv
              (S (length pkcs7Binary)) (S (length pkcs7Binary)) ltac:(lia) ltac:(lia))
    as [_ [r Hr]].
  exists r. intros fuel Hfuel. rewrite <- Hr.
  apply (extractCertificateFromPKCS7_enough pkcs7Binary Hadv); lia.
Qed.

Lemma extractCertificateFromPKCS7_returns_witness :
  exists r : result (list Z),
    forall fuel : nat,
      (length (signatureWith bareCertificate) < fuel)%nat ->
      @extractCertificateFromPKCS7 plainForge fuel (signatureWith bareCertificate) = Some r.
Proof.
  apply (extractCertificateFromPKCS7_returns plainForge (signatureWith bareCertificate)).
  vm_compute. reflexivity.
Defined.

Lemma toInt32_small (z : Z) : -2147483648 <= z < 2147483648 -> toInt32 z = z.
Proof. intros Hz. unfold toInt32. rewrite Z.mod_small; lia. Qed.

Lemma shl8or_bound (x limit : Z) (o : option Z) :
  0 <= x <= limit -> limit < 8388607 ->
  match o with
  | Some b => isByte b = true
  | None => True
  end ->
  0 <= shl8or x o <= 256 * limit + 255.
Proof.
  intros Hx Hlimit Ho. unfold shl8or.
  assert (0 <= default 0 o <= 255) as Hb
    by (destruct o as [b|]; cbn; [unfold isByte in Ho; zbool; lia|lia]).
  rewrite Z.shiftl_mul_pow2 by lia. change (2 ^ 8) with 256.
  rewrite (toInt32_small (x * 256)) by lia.
  rewrite (toInt32_small (default 0 o)) by lia.
  pose proof (Z.add_lor_land (x * 256) (default 0 o)) as Hadd.
  assert (0 <= Z.land (x * 256) (default 0 o)) by (apply Z.land_nonneg; lia).
  assert (0 <= Z.lor (x * 256) (default 0 o)) by (apply Z.lor_nonneg; lia).
  rewrite toInt32_small by lia. lia.
Qed.

Lemma index_byte (bytes : list Z) (k : Z) :
  Forall (fun b => isByte b = true) bytes ->
  match index bytes k with
  | Some b => isByte b = true
  | None => True
  end.
Proof.
  intros Hall. unfold index. destruct (k <? 0); [exact I|].
  destruct (bytes !! Z.to_nat k) as [b|] eqn:Hb; [|exact I].
  rewrite Forall_forall in Hall. apply Hall. eapply list_elem_of_lookup_2. eassumption.
Qed.

Lemma readLength_short (bytes : list Z) (start n : Z) :
  Forall (fun b => isByte b = true) bytes -> 0 <= n <= 3 ->
  0 <= readLength bytes start n.
Proof.
  intros Hall Hn. unfold readLength.
  assert (n = 0 \/ n = 1 \/ n = 2 \/ n = 3) as Hcases by lia.
  destruct Hcases as [-> | [-> | [-> | ->]]].
  - change (seqZ 0 0) with (@nil Z). cbn [foldl]. lia.
  - change (seqZ 0 1) with [0]. cbn [foldl].
    apply (shl8or_bound 0 0); [lia..|apply index_byte; assumption].
  - change (seqZ 0 2) with [0; 1]. cbn [foldl].
    assert (0 <= shl8or 0 (index bytes (start + 0)) <= 255) as H1
      by (apply (shl8or_bound 0 0); [lia..|apply index_byte; assumption]).
    apply (shl8or_bound _ 255); [lia..|apply index_byte; assumption].
  - change (seqZ 0 3) with [0; 1; 2]. cbn [foldl].
    assert (0 <= shl8or 0 (index bytes (start + 0)) <= 255) as H1
      by (apply (shl8or_bound 0 0); [lia..|apply index_byte; assumption]).
    assert (0 <= shl8or (shl8or 0 (index bytes (start + 0))) (index bytes (start + 1))
            <= 65535) as H2
      by (apply (shl8or_bound _ 255); [lia..|apply index_byte; assumption]).
    apply (shl8or_bound _ 65535); [lia..|apply index_byte; assumption].
Qed.

Lemma lengthByte_cases (b : Z) :
  isByte b = true ->
  if b <? 128 then andNum (Some b) 128 = 0
  else andNum (Some b) 128 <> 0 /\ andNum (Some b) 127 = b - 128.
Proof.
  intros Hb.
  assert (forallb (fun b => if b <? 128 then andNum (Some b) 128 =? 0
                            else negb (andNum (Some b) 128 =? 0)
                                 && (andNum (Some b) 127 =? b - 128))
                  (seqZ 0 256) = true) as Hall by (vm_compute; reflexivity).
  rewrite forallb_forall in Hall. specialize (Hall b).
  unfold isByte in Hb. zbool.
  specialize (Hall ltac:(apply list_elem_of_In, elem_of_seqZ; lia)).
  destruct (b <? 128); zbool; auto.
Qed.

Lemma shortLengths_advancing (bytes : list Z) :
  Forall (fun b => isByte b = true) bytes -> shortLengths bytes = true ->
  advancing bytes = true.
Proof.
  intros Hall Hshort. unfold advancing, shortLengths in *.
  rewrite forallb_forall in Hshort |- *. intros p Hp. specialize (Hshort p Hp).
  destruct (eqNum (index bytes p) 48); [|reflexivity]. cbn [negb orb] in Hshort |- *.
  unfold advance, decodeSequenceLength.
  pose proof (index_byte bytes (p + 1) Hall) as Hb.
  destruct (index bytes (p + 1)) as [b|]; [|reflexivity].
  pose proof (lengthByte_cases b Hb) as Hcases.
  unfold gtNum in Hshort. apply negb_true_iff, Z.ltb_ge in Hshort.
  unfold isByte in Hb. zbool.
  destruct (Z.ltb_spec b 128) as [Hlow|Hhigh].
  - rewrite Hcases. cbn. apply Z.ltb_lt. lia.
  - destruct Hcases as [Hne Hn]. apply Z.eqb_neq in Hne. rewrite Hne. cbn.
    rewrite Hn. apply Z.ltb_lt.
    pose proof (readLength_short bytes (p + 2) (b - 128) Hall ltac:(lia)). lia.
Qed.

Lemma hexToBytes_bytes (hex : jsstring) :
  forallb isHexDigit hex = true -> Forall (fun b => isByte b = true) (hexToBytes hex).
Proof.
  induction hex as [|a|a b r IH] using pairs_ind; cbn [hexToBytes forallb].
  - constructor.
  - rewrite andb_true_r. intros Ha. rewrite hexSingle by assumption.
    pose proof (hexValue_range a Ha). repeat constructor. unfold isByte.
    apply andb_true_intro. split; lia.
  - intros H. apply andb_prop in H as [Ha H]. apply andb_prop in H as [Hb Hr].
    rewrite hexPair by assumption.
    pose proof (hexValue_range a Ha). pose proof (hexValue_range b Hb).
    constructor; [|apply IH; assumption]. unfold isByte. apply andb_true_intro. split; lia.
Qed.

Lemma length_hexToBytes (hex : jsstring) : (length (hexToBytes hex) <= length hex)%nat.
Proof. induction hex as [|a|a b r IH] using pairs_ind; cbn [hexToBytes length]; lia. Qed.

Section Pipeline.
Context {F : Forge}.

Lemma trySignatures_enough (fuel fuel' : nat) (matches : list Match) :
  Forall (fun m => advancing (hexToBytes (group m 1)) = true
                   /\ (length (hexToBytes (group m 1)) < fuel)%nat
                   /\ (length (hexToBytes (group m 1)) < fuel')%nat) matches ->
  trySignatures fuel matches = trySignatures fuel' matches
  /\ is_Some (trySignatures fuel matches).
Proof.
  intros Hall. induction Hall as [|m rest (Hadv & Hfuel & Hfuel') _ IH]; cbn [trySignatures].
  - split; [reflexivity|eauto].
  - destruct (extractCertificateFromPKCS7_enough _ Hadv fuel fuel' Hfuel Hfuel') as [<- [o Ho]].
    rewrite Ho. destruct o as [certificate|message]; [|exact IH].
    destruct (bufferHasAadhaarData certificate); [split; [reflexivity|eauto]|exact IH].
Qed.

Lemma extractCertificateFromPDF_enough (fuel fuel' : nat) (pdfBuffer : list Z) :
  Forall (fun m => advancing (hexToBytes (group m 1)) = true
                   /\ (length (hexToBytes (group m 1)) < fuel)%nat
                   /\ (length (hexToBytes (group m 1)) < fuel')%nat)
         (matchAll sigRegex pdfBuffer) ->
  extractCertificateFromPDF fuel pdfBuffer = extractCertificateFromPDF fuel' pdfBuffer
  /\ is_Some (extractCertificateFromPDF fuel pdfBuffer).
Proof.
  intros Hall. unfold extractCertificateFromPDF.
  destruct (matchAll sigRegex pdfBuffer) as [|first rest] eqn:Hms.
  - split; [reflexivity|]. cbn [fmap option_fmap option_map]. eauto.
  - destruct (trySignatures_enough fuel fuel' (first :: rest) Hall) as [<- [o Ho]].
    rewrite Ho. destruct o as [certificate|].
    + split; [reflexivity|]. cbn [fmap option_fmap option_map]. eauto.
    + inversion Hall as [|? ? (Hadv & Hfuel & Hfuel') _]; subst.
      destruct (extractCertificateFromPKCS7_enough _ Hadv fuel fuel' Hfuel Hfuel')
        as [<- [o Ho']].
      rewrite Ho'. split; [reflexivity|]. cbn [fmap option_fmap option_map]. eauto.
Qed.

End Pipeline.

Lemma candidate_hex (pdfBuffer : list Z) (m : Match) :
  m ∈ matchAll sigRegex pdfBuffer ->
  forallb isHexDigit (group m 1) = true
  /\ (length (group m 1) < length pdfBuffer)%nat.
Proof.
  unfold matchAll. intros Hm.
  apply matchAllFrom_sound in Hm as (hex & len & Hg & _ & Hhead).
  unfold group. rewrite Hg. cbn.
  destruct (contentsHead_length _ _ _ Hhead) as [Hlen Hlen'].
  rewrite length_drop in Hlen.
  destruct Hhead as (_ & _ & _ & _ & _ & Hhex & _). split; [assumption|lia].
Qed.

(** X5. A document in which no signature candidate has a SEQUENCE tag
    [0x30] followed by a length byte above [0x83] is always brought to a
    result: the pipeline gives one and the same record or error for every
    number of rounds above the length of the document. *)
Theorem extractIdentityFromDocument_returns :
  forall (F : Forge) (pdfBuffer : list Z),
    Forall (fun m => shortLengths (hexToBytes (group m 1)) = true)
           (matchAll sigRegex pdfBuffer) ->
    exists r : result AadhaarDetails,
      forall fuel : nat,
        (length pdfBuffer < fuel)%nat ->
        extractIdentityFromDocument fuel pdfBuffer = Some r.
Proof.
  intros F pdfBuffer Hshort.
  assert (forall fuel fuel' : nat,
            (length pdfBuffer < fuel)%nat -> (length pdfBuffer < fuel')%nat ->
            Forall (fun m => advancing (hexToBytes (group m 1)) = true
                             /\ (length (hexToBytes (group m 1)) < fuel)%nat
                             /\ (length (hexToBytes (group m 1)) < fuel')%nat)
                   (matchAll sigRegex pdfBuffer)) as Hall.
  { intros fuel fuel' Hfuel Hfuel'. rewrite Forall_forall in Hshort |- *.
    intros m Hm. destruct (candidate_hex pdfBuffer m Hm) as [Hhex Hlen].
    pose proof (length_hexToBytes (group m 1)).
    split; [|lia].
    apply shortLengths_advancing; [apply hexToBytes_bytes; assumption|apply Hshort, Hm]. }
  destruct (extractCertificateFromPDF_enough (S (length pdfBuffer)) (S (length pdfBuffer))
              pdfBuffer (Hall (S (length pdfBuffer)) (S (length pdfBuffer)) ltac:(lia) ltac:(lia)))
    as [_ [o Ho]].
  exists (bind o parseCertificateFromBuffer). intros fuel Hfuel.
  unfold extractIdentityFromDocument.
  destruct (extractCertificateFromPDF_enough fuel (S (length pdfBuffer)) pdfBuffer
              (Hall fuel (S (length pdfBuffer)) Hfuel ltac:(lia))) as [-> _].
  rewrite Ho. reflexivity.
Qed.

Lemma extractIdentityFromDocument_returns_witness :
  exists r : result AadhaarDetails,
    forall fuel : nat,
      (length personalSecond < fuel)%nat ->
      @extractIdentityFromDocument plainForge fuel personalSecond = Some r.
Proof.
  apply (extractIdentityFromDocument_returns plainForge personalSecond).
  assert (matchAll sigRegex personalSecond
          = [ {| index_ := 9; groups := [str "00"] |};
              {| index_ := 24; groups := [hexOf (signatureWith personalCertificate)] |} ])
    as -> by (vm_compute; reflexivity).
  repeat constructor; vm_compute; reflexivity.
Defined.

(** ** Pkcs7Decoder: the walk of [extractCertificateFromASN1] *)

Lemma certificatesField_none (asn1Obj : asn1) :
  usesClass 2 asn1Obj = false -> certificatesField asn1Obj = None.
Proof.
  unfold certificatesField. destruct asn1Obj as [c t s|c t fields]; [reflexivity|].
  cbn [asn1_value usesClass]. intros H. apply orb_false_elim in H as [_ H].
  assert (flat_map
            (fun field =>
               if (asn1_tagClass field =? 0) && (asn1_type field =? 16) then
                 match asn1_value field with
                 | JArr subFields =>
                     omap (fun subField =>
                             if (asn1_tagClass subField =? 2) && (asn1_type subField =? 0) then
                               match asn1_value subField with
                               | JArr (certAsn1 :: _) => Some certAsn1
                               | _ => None
                               end
                             else None) subFields
                 | _ => []
                 end
               else []) fields = []) as ->; [|reflexivity].
  induction fields as [|field fields IH]; [reflexivity|].
  cbn [existsb] in H. apply orb_false_elim in H as [Hfield H].
  cbn [flat_map]. rewrite (IH H), app_nil_r.
  destruct ((asn1_tagClass field =? 0) && (asn1_type field =? 16)); [|reflexivity].
  destruct field as [c' t' s'|c' t' subFields]; [reflexivity|].
  cbn [asn1_value usesClass] in Hfield |- *. apply orb_false_elim in Hfield as [_ Hsub].
  induction subFields as [|subField subFields IHs]; [reflexivity|].
  cbn [existsb] in Hsub. apply orb_false_elim in Hsub as [Hs Hsub].
  rewrite omap_step.
  assert ((asn1_tagClass subField =? 2) = false) as ->
    by (destruct subField; cbn [usesClass asn1_tagClass] in *;
        [assumption|apply orb_false_elim in Hs as [Hs _]; assumption]).
  cbn [andb]. apply IHs. assumption.
Qed.

(** X6. The walk of [extractCertificateFromASN1] looks for a field of
    tag class 2.  For a signature the library parses into objects none
    of which has the class 2, the walk finds no certificates field and
    the function throws; and when the standard parsing of
    [extractCertificateFromPKCS7] has thrown on such a signature, that is
    the error of [extractCertificateFromPKCS7] too: the byte-pattern
    scans are not tried on a signature that parses. *)
Theorem extractCertificateFromASN1_finds_no_field :
  forall (F : Forge) (fuel : nat) (asn1Binary : jsstring) (asn1Obj : asn1),
    asn1_fromDer asn1Binary = Ok asn1Obj ->
    usesClass 2 asn1Obj = false ->
    extractCertificateFromASN1 fuel asn1Binary
    = Some (Throw (str "Failed to extract certificate from ASN.1: Could not find certificate in ASN.1 structure"))
    /\ (forall m : jsstring,
          standardPKCS7 asn1Binary = Throw m ->
          extractCertificateFromPKCS7 fuel asn1Binary
          = Some (Throw (str "Failed to extract certificate from PKCS#7: Failed to extract certificate from ASN.1: Could not find certificate in ASN.1 structure"))).
Proof.
  intros F fuel asn1Binary asn1Obj Hder Hclass.
  assert (extractCertificateFromASN1 fuel asn1Binary
          = Some (Throw (str "Failed to extract certificate from ASN.1: Could not find certificate in ASN.1 structure")))
    as Hwalk.
  { unfold extractCertificateFromASN1.
    rewrite Hder, (certificatesField_none _ Hclass). reflexivity. }
  split; [exact Hwalk|].
  intros m Hstandard. unfold extractCertificateFromPKCS7.
  rewrite Hstandard, Hwalk. reflexivity.
Qed.

Lemma extractCertificateFromASN1_finds_no_field_witness :
  @extractCertificateFromASN1 plainForge 0 wrappedCertificate
  = Some (Throw (str "Failed to extract certificate from ASN.1: Could not find certificate in ASN.1 structure"))
  /\ @extractCertificateFromPKCS7 plainForge 0 wrappedCertificate
     = Some (Throw (str "Failed to extract certificate from PKCS#7: Failed to extract certificate from ASN.1: Could not find certificate in ASN.1 structure")).
Proof.
  destruct (extractCertificateFromASN1_finds_no_field plainForge 0%nat wrappedCertificate
              (Asn1Arr 0 16 [Asn1Arr 0 16 [Asn1Arr 128 0
                 [Asn1Arr 0 16 [Asn1Arr 0 16 [Asn1Str 0 2 [5]]; Asn1Str 0 5 []; Asn1Str 0 5 []]]]])
              ltac:(vm_compute; reflexivity) eq_refl) as [Hwalk Hstandard].
  split; [exact Hwalk|].
  apply (Hstandard (str "Cannot read PKCS#7 message. ASN.1 object is not an PKCS#7 ContentInfo.")).
  vm_compute. reflexivity.
Defined.

Example wrappedCertificate_parses :
  @asn1_fromDer plainForge wrappedCertificate
  = Ok (Asn1Arr 0 16 [Asn1Arr 0 16 [Asn1Arr 128 0
          [Asn1Arr 0 16 [Asn1Arr 0 16 [Asn1Str 0 2 [5]]; Asn1Str 0 5 []; Asn1Str 0 5 []]]]]).
Proof. vm_compute. reflexivity. Qed.

(** ** Pkcs7Decoder: the order of the direct scan *)

Lemma seqZ_sorted (m n : Z) : StronglySorted Z.lt (seqZ m n).
Proof.
  destruct (Z.le_gt_cases n 0) as [Hn|Hn]; [rewrite seqZ_nil by lia; constructor|].
  rewrite <- (Z2Nat.id n) by lia. generalize (Z.to_nat n). clear. intros k. revert m.
  induction k as [|k IH]; intros m; [constructor|].
  rewrite seqZ_cons by lia. constructor.
  - replace (Z.pred (Z.of_nat (S k))) with (Z.of_nat k) by lia. apply IH.
  - apply Forall_forall. intros j Hj. apply elem_of_seqZ in Hj. lia.
Qed.

Lemma length_bufferFrom (s : jsstring) : length (bufferFrom s) = length s.
Proof. apply length_map. Qed.

(** X7. [scanForCertificates] lists its candidates by increasing
    offset; each lies within the scanned bytes, is 504 to 10005 bytes long
    with its header, and its buffer has that size.  So the scan finds
    nothing in fewer than 504 bytes. *)
Theorem scanForCertificates_in_order :
  forall (F : Forge) (bytes : list Z),
    StronglySorted (fun a b => offset a < offset b) (scanForCertificates bytes)
    /\ Forall (fun c => 0 <= offset c
                        /\ 504 <= size c <= 10005
                        /\ offset c + size c <= Z.of_nat (length bytes)
                        /\ Z.of_nat (length (buffer c)) = size c)
              (scanForCertificates bytes)
    /\ (scanForCertificates bytes <> [] -> 504 <= Z.of_nat (length bytes)).
Proof.
  intros F bytes.
  assert (forall i c, 0 <= i -> scanAt bytes i = Some c ->
            offset c = i /\ 504 <= size c <= 10005
            /\ i + size c <= Z.of_nat (length bytes)
            /\ Z.of_nat (length (buffer c)) = size c) as Hat.
  { intros i c Hi. unfold scanAt.
    destruct (longSequenceAt bytes i) eqn:Hlong; [|discriminate].
    set (n := andNum (index bytes (i + 1)) 127).
    set (certLen := readLength bytes (i + 2) n).
    destruct ((500 <=? certLen) && (certLen <=? 10000)
              && (i + (2 + n) + certLen <=? Z.of_nat (length bytes))) eqn:Hrange;
      [|discriminate].
    destruct (parsesWith _ _); [|discriminate].
    intros [= <-]. cbn [offset buffer size].
    assert (n = 2 \/ n = 3) as Hn
      by (apply longSequenceAt_header in Hlong as [_ [[_ H]|[_ H]]]; auto).
    zbool. split; [reflexivity|]. split; [lia|]. split; [lia|].
    rewrite length_bufferFrom, length_slice by lia. lia. }
  assert (Forall (fun c => 0 <= offset c
                        /\ 504 <= size c <= 10005
                        /\ offset c + size c <= Z.of_nat (length bytes)
                        /\ Z.of_nat (length (buffer c)) = size c)
              (scanForCertificates bytes)) as Hall.
  { apply Forall_forall. intros c Hc. unfold scanForCertificates in Hc.
    apply list_elem_of_omap in Hc as (i & Hi & Hc). apply elem_of_seqZ in Hi.
    destruct (Hat i c ltac:(lia) Hc) as (-> & Hrest). split; [lia|exact Hrest]. }
  split; [|split; [exact Hall|]].
  - unfold scanForCertificates.
    destruct (Z.le_gt_cases (Z.of_nat (length bytes) - 100) 0) as [Hshort|Hlong].
    + rewrite seqZ_nil by lia. constructor.
    + assert (forall l, Forall (fun i => 0 <= i) l -> StronglySorted Z.lt l ->
                StronglySorted (fun a b => offset a < offset b) (omap (scanAt bytes) l)) as Hs.
      { intros l Hpos Hsorted. induction Hsorted as [|i l _ IH Hlt]; [constructor|].
        inversion Hpos as [|? ? Hi Hpos']; subst.
        rewrite omap_step. destruct (scanAt bytes i) as [c|] eqn:Hc; [|apply IH; assumption].
        constructor; [apply IH; assumption|].
        apply Forall_forall. intros c' Hc'.
        apply list_elem_of_omap in Hc' as (j & Hj & Hc').
        rewrite Forall_forall in Hlt, Hpos'.
        destruct (Hat i c Hi Hc) as [-> _].
        destruct (Hat j c' (Hpos' _ Hj) Hc') as [-> _]. apply Hlt. assumption. }
      apply Hs; [|apply seqZ_sorted].
      apply Forall_forall. intros i Hi. apply elem_of_seqZ in Hi. lia.
  - intros Hne. destruct (scanForCertificates bytes) as [|c rest]; [congruence|].
    inversion Hall; subst. lia.
Qed.

(** ** CertificateAttributeExtractor: the fields [extractFromAsn1] picks *)

(** X8. When the loop of [extractFromAsn1] over the fields of the
    TBSCertificate ends, the issuer is the first field that is a SEQUENCE
    starting with a SET and the subject is the second; the validity is
    what the time decoders give for the first two-element SEQUENCE for
    which one of them returns, whatever that field is; and the serial
    number is the first non-empty hex text of an INTEGER field, else
    ['NA']. *)
Theorem extractFromAsn1_field_choice :
  forall (F : Forge) (fields : list asn1) (st : TbsScan),
    tbsLoop tbsStart fields = Ok st ->
    scan_issuerAsn1 st = List.filter isNameField fields !! 0%nat
    /\ scan_subjectAsn1 st = List.filter isNameField fields !! 1%nat
    /\ scan_validity st = head (omap decodeNotAfter (List.filter isPair fields))
    /\ orNA (scan_serialNumber st)
       = default NA (head (List.filter nonEmpty (omap integerHex fields))).
Proof.
  intros F fields st Hloop.
  apply tbsLoop_choice in Hloop as (Hs & Hv & Hi & Hj). cbn in Hs, Hv, Hi, Hj.
  split; [assumption|]. split; [assumption|]. split; [assumption|].
  destruct (head (List.filter nonEmpty (omap integerHex fields))) as [hex|] eqn:Hhead.
  - rewrite Hs. cbn [default].
    apply head_Some_elem_of, list_elem_of_In, filter_In in Hhead as [_ Hne].
    unfold nonEmpty, streq in Hne. destruct hex; [discriminate|reflexivity].
  - unfold orNA. rewrite Hs. reflexivity.
Qed.

Lemma extractFromAsn1_field_choice_witness :
  exists st : TbsScan,
    @tbsLoop plainForge tbsStart algorithmFirst = Ok st
    /\ scan_issuerAsn1 st = List.filter isNameField algorithmFirst !! 0%nat
    /\ scan_subjectAsn1 st = List.filter isNameField algorithmFirst !! 1%nat
    /\ scan_validity st
       = head (omap (@decodeNotAfter plainForge) (List.filter isPair algorithmFirst))
    /\ orNA (scan_serialNumber st)
       = default NA (head (List.filter nonEmpty (omap (@integerHex plainForge) algorithmFirst))).
Proof.
  eexists. split; [vm_compute; reflexivity|].
  apply (extractFromAsn1_field_choice plainForge algorithmFirst).
  vm_compute. reflexivity.
Defined.

(** The signature algorithm of a certificate, a SEQUENCE of an OID and a
    NULL, comes before the validity and has two elements: the UTC
    decoder is given the empty value of the NULL, and the invalid date it
    returns becomes the end date of the record. *)
Example algorithm_taken_for_validity :
  head (List.filter isPair algorithmFirst) = Some algorithmField
  /\ notAfterOf algorithmField = JStr []
  /\ rmap endDate
       (@extractFromAsn1 plainForge
          (Asn1Arr 0 16 [Asn1Arr 0 16 algorithmFirst; Asn1Str 0 5 []; Asn1Str 0 5 []]))
     = Ok NaN.
Proof. repeat split; vm_compute; reflexivity. Qed.

(** ** CertificateAttributeExtractor: [getAttributes] *)

Lemma setIf_lookup_eq (key : option jsstring) (val : jsstring)
    (m : gmap jsstring jsstring) (k : jsstring) :
  setIf key val m !! k
  = if negb (streq k []) && bool_decide (key = Some k) then Some val else m !! k.
Proof.
  unfold setIf, streq. destruct key as [[|c r]|].
  - case_bool_decide as Hk; cbn [negb andb]; [reflexivity|].
    case_bool_decide as Hkey; [|reflexivity]. congruence.
  - destruct (decide (c :: r = k)) as [<-|Hne].
    + rewrite lookup_insert_eq. rewrite bool_decide_eq_false_2 by discriminate.
      rewrite bool_decide_eq_true_2 by reflexivity. reflexivity.
    + rewrite lookup_insert_ne by assumption.
      rewrite (bool_decide_eq_false_2 (Some (c :: r) = Some k)) by congruence.
      rewrite andb_false_r. reflexivity.
  - rewrite (bool_decide_eq_false_2 (None = Some k)) by discriminate.
    rewrite andb_false_r. reflexivity.
Qed.

Lemma last_cons_cons {A} (a b : A) (l : list A) : last (a :: b :: l) = last (b :: l).
Proof. reflexivity. Qed.

(** X9. The map [getAttributes] builds holds, under every key that is
    not the name of an inherited property, the value of the last
    attribute that has the key as its short name, its OID or its name,
    and nothing when no attribute has it; the empty key is never
    stored. *)
Theorem getAttributes_last_wins :
  forall (attributes : list Attr) (k : jsstring),
    inherited k = false ->
    getAttributes attributes !! k
    = attr_value <$> last (List.filter (storedUnder k) attributes).
Proof.
  intros attributes k _. unfold getAttributes.
  assert (forall m : gmap jsstring jsstring,
            foldl (fun m attr =>
                     setIf (attr_name attr) (attr_value attr)
                       (setIf (attr_type attr) (attr_value attr)
                          (setIf (attr_shortName attr) (attr_value attr) m)))
                  m attributes !! k
            = match last (List.filter (storedUnder k) attributes) with
              | Some attr => Some (attr_value attr)
              | None => m !! k
              end) as Hfold.
  { induction attributes as [|attr rest IH]; intros m; [reflexivity|].
    cbn [foldl List.filter]. rewrite IH.
    destruct (last (List.filter (storedUnder k) rest)) as [found|] eqn:Hlast.
    - destruct (storedUnder k attr); [|rewrite Hlast; reflexivity].
      destruct (List.filter (storedUnder k) rest) as [|b l]; [discriminate|].
      rewrite last_cons_cons, Hlast. reflexivity.
    - apply last_None in Hlast. rewrite Hlast.
      rewrite !setIf_lookup_eq. unfold storedUnder.
      destruct (negb (streq k [])); cbn [andb]; [|reflexivity].
      destruct (bool_decide (attr_name attr = Some k)),
        (bool_decide (attr_type attr = Some k)),
        (bool_decide (attr_shortName attr = Some k)); reflexivity. }
  rewrite Hfold. destruct (last _); [reflexivity|apply lookup_empty].
Qed.

Lemma getAttributes_last_wins_witness :
  getAttributes (@cert_subject pemForge tt ++ @cert_issuer pemForge tt) !! str "CN"
  = Some (str "CA").
Proof.
  rewrite (getAttributes_last_wins
             (@cert_subject pemForge tt ++ @cert_issuer pemForge tt) (str "CN") eq_refl).
  reflexivity.
Defined.

Example getAttributes_ex :
  getAttributes (@cert_subject pemForge tt) !! str "2.5.4.46" = Some (str "1990F56789")
  /\ getAttributes (@cert_subject pemForge tt) !! str "dnQualifier" = None
  /\ @extractAadhaarSignDetails pemForge tt = pemDetails.
Proof. repeat split; vm_compute; reflexivity. Qed.

(** ** [parseCertificate] against [parseCertificateFromBuffer] *)

(** X10. Whenever [parseCertificate] returns a record for a file,
    [parseCertificateFromBuffer] returns the same record for the bytes of
    the file.  When it throws, the message is that of the read or of the
    library's certificate reader under the prefix 'Failed to parse
    certificate: ': it has no fallback to the ASN.1 fields. *)
Theorem parseCertificate_agrees :
  forall (F : Forge) (readFileSync : jsstring -> result (list Z)) (certPath : jsstring),
    match parseCertificate readFileSync certPath with
    | Ok r =>
        exists certBuffer : list Z,
          readFileSync certPath = Ok certBuffer
          /\ parseCertificateFromBuffer certBuffer = Ok r
    | Throw m =>
        exists m' : jsstring,
          m = str "Failed to parse certificate: " ++ m'
          /\ (readFileSync certPath = Throw m'
              \/ exists certBuffer : list Z,
                   readFileSync certPath = Ok certBuffer
                   /\ (if includes certBuffer (str "BEGIN CERTIFICATE")
                       then pki_certificateFromPem certBuffer = Throw m'
                       else bind (asn1_fromDer certBuffer) pki_certificateFromAsn1 = Throw m'))
    end.
Proof.
  intros F readFileSync certPath. unfold parseCertificate.
  destruct (readFileSync certPath) as [certBuffer|m] eqn:Hread; cbn [bind rethrow].
  2: { exists m. auto. }
  destruct (includes certBuffer (str "BEGIN CERTIFICATE")) eqn:Hpem.
  - destruct (pki_certificateFromPem certBuffer) as [cert|m] eqn:Hcert; cbn [bind rethrow].
    + exists certBuffer. split; [reflexivity|].
      unfold parseCertificateFromBuffer. rewrite Hpem, Hcert. reflexivity.
    + exists m. split; [reflexivity|]. right. exists certBuffer. rewrite Hpem. auto.
  - cbn [bind].
    destruct (bind (asn1_fromDer certBuffer) pki_certificateFromAsn1) as [cert|m] eqn:Hcert;
      cbn [bind rethrow].
    + exists certBuffer. split; [reflexivity|].
      unfold parseCertificateFromBuffer. rewrite Hpem, Hcert. reflexivity.
    + exists m. split; [reflexivity|]. right. exists certBuffer. rewrite Hpem. auto.
Qed.

Example parseCertificate_ex :
  @parseCertificate plainForge (fun _ => Ok bareCertificate) (str "bare.cer")
  = Throw (str "Failed to parse certificate: Cannot read X.509 certificate. ASN.1 object is not an X509v3 Certificate.")
  /\ @parseCertificateFromBuffer plainForge bareCertificate = Ok bareDetails
  /\ @parseCertificate pemForge (fun _ => Ok (str "-----BEGIN CERTIFICATE-----")) (str "a.pem")
     = Ok pemDetails
  /\ @parseCertificateFromBuffer pemForge (str "-----BEGIN CERTIFICATE-----") = Ok pemDetails.
Proof. repeat split; vm_compute; reflexivity. Qed.

(** ** The errors of the pipeline *)

Section ErrorMessages.
Context {F : Forge}.

Lemma extractCertificateByPattern_error (fuel : nat) (bytes m : jsstring) :
  extractCertificateByPattern fuel bytes = Some (Throw m) ->
  exists m' : jsstring, m = str "Pattern-based extraction failed: " ++ m'.
Proof.
  unfold extractCertificateByPattern.
  destruct (scanForCertificates bytes) as [|first rest].
  - destruct (strategy1 fuel bytes _) as [[certificate|]|]; cbn; try discriminate.
    destruct (strategy2 bytes); cbn; [discriminate|]. intros [= <-]. eexists. reflexivity.
  - destruct (find isAadhaar (first :: rest)); cbn; discriminate.
Qed.

Lemma extractCertificateFromPKCS7_error (fuel : nat) (pkcs7Binary m : jsstring) :
  extractCertificateFromPKCS7 fuel pkcs7Binary = Some (Throw m) -> decodeError m.
Proof.
  unfold extractCertificateFromPKCS7.
  destruct (standardPKCS7 pkcs7Binary) as [[certificate|]|m0]; cbn.
  - discriminate.
  - intros [= <-]. left. reflexivity.
  - destruct (extractCertificateFromASN1 fuel pkcs7Binary) as [[certificate|m1]|] eqn:Hasn;
      cbn; try discriminate.
    intros [= <-]. right.
    unfold extractCertificateFromASN1 in Hasn.
    destruct (asn1_fromDer pkcs7Binary) as [asn1Obj|m2] eqn:Hder.
    + cbn in Hasn. destruct (certificatesField asn1Obj) as [certAsn1|].
      * destruct (asn1_toDer certAsn1) as [der|m3] eqn:Hto; cbn in Hasn; [discriminate|].
        injection Hasn as <-. eexists. split; [reflexivity|]. eauto 6.
      * cbn in Hasn. injection Hasn as <-. eexists. split; [reflexivity|]. auto.
    + destruct (includes m2 (str "Unparsed DER bytes")).
      * destruct (extractCertificateByPattern fuel pkcs7Binary) as [[c|m3]|] eqn:Hpat;
          cbn in Hasn; try discriminate.
        injection Hasn as <-. apply extractCertificateByPattern_error in Hpat as (m4 & ->).
        eexists. split; [reflexivity|]. eauto 6.
      * cbn in Hasn. injection Hasn as <-. eexists. split; [reflexivity|]. eauto 6.
Qed.

Lemma extractCertificateFromPDF_error (fuel : nat) (pdfBuffer : list Z) (m : jsstring) :
  extractCertificateFromPDF fuel pdfBuffer = Some (Throw m) -> extractionError m.
Proof.
  unfold extractCertificateFromPDF.
  destruct (matchAll sigRegex pdfBuffer) as [|first rest].
  - cbn. intros [= <-]. left. reflexivity.
  - destruct (trySignatures fuel (first :: rest)) as [[certificate|]|]; cbn; try discriminate.
    destruct (extractCertificateFromPKCS7 fuel (hexToBytes (group first 1)))
      as [[certificate|m1]|] eqn:Hp7; cbn; try discriminate.
    intros [= <-]. right. exists m1. split; [reflexivity|].
    apply (extractCertificateFromPKCS7_error _ _ _ Hp7).
Qed.

Lemma parseCertificateFromBuffer_error (certBuffer : list Z) (m : jsstring) :
  parseCertificateFromBuffer certBuffer = Throw m ->
  exists m' : jsstring, m = str "Failed to parse certificate from buffer: " ++ m'.
Proof.
  unfold parseCertificateFromBuffer, rethrow.
  destruct (if includes certBuffer (str "BEGIN CERTIFICATE") then _ else _) as [|m'];
    [discriminate|].
  intros [= <-]. exists m'. reflexivity.
Qed.

(** The errors of [processSinglePDF] from the bytes of the file on. *)
Lemma processSinglePDF_Throw (fuel : nat) (pdfBuffer : list Z) (m : jsstring) :
  processSinglePDF fuel pdfBuffer = Some (Throw m) ->
  (isPDF pdfBuffer = false /\ m = str "File is not a valid PDF")
  \/ (exists m' : jsstring,
        extractCertificateFromPDF fuel pdfBuffer = Some (Throw m')
        /\ m = str "Failed to extract certificate: " ++ m' /\ extractionError m')
  \/ (exists (certBuffer : list Z) (m' : jsstring),
        extractCertificateFromPDF fuel pdfBuffer = Some (Ok certBuffer)
        /\ parseCertificateFromBuffer certBuffer
            = Throw (str "Failed to parse certificate from buffer: " ++ m')
        /\ m = str "Failed to parse certificate: Failed to parse certificate from buffer: "
               ++ m').
Proof.
  unfold processSinglePDF.
  destruct (isPDF pdfBuffer); cbn [negb].
  2: { intros [= <-]. left. split; reflexivity. }
  destruct (extractCertificateFromPDF fuel pdfBuffer) as [[certBuffer|m1]|] eqn:Hpdf;
    try discriminate.
  - destruct (parseCertificateFromBuffer certBuffer) as [r|m2] eqn:Hparse; cbn; [discriminate|].
    intros [= <-]. right. right.
    destruct (parseCertificateFromBuffer_error _ _ Hparse) as (m3 & ->).
    exists certBuffer, m3. split; [reflexivity|]. split; [assumption|]. reflexivity.
  - intros [= <-]. right. left. exists m1. split; [reflexivity|]. split; [reflexivity|].
    apply (extractCertificateFromPDF_error _ _ _ Hpdf).
Qed.

End ErrorMessages.

(** X11. The error in the result of [processSinglePDF] is the message
    the read of the file threw, or, for a file that was read, 'File is
    not a valid PDF' when its bytes do not start as a PDF, or an error of
    the extraction under 'Failed to extract certificate: ', or an error
    of the parse of the extracted certificate under 'Failed to parse
    certificate: Failed to parse certificate from buffer: '.  An error of
    the extraction is, under 'Failed to extract certificate from PDF: ',
    'No signature found in PDF. The PDF may not be digitally signed.' or
    what the decode of the first signature threw, under the prefixes of
    the functions it passed through. *)
Theorem processSinglePDF_errors :
  forall (F : Forge) (readFileSync : jsstring -> result (list Z))
         (basename : jsstring -> jsstring) (fuel : nat) (pdfPath : jsstring)
         (file : FileResult) (m : jsstring),
    processSinglePDFResult readFileSync basename fuel pdfPath = Some file ->
    error file = Some m ->
    readFileSync pdfPath = Throw m
    \/ exists pdfBuffer : list Z,
         readFileSync pdfPath = Ok pdfBuffer
         /\ ((isPDF pdfBuffer = false /\ m = str "File is not a valid PDF")
             \/ (exists m' : jsstring,
                   extractCertificateFromPDF fuel pdfBuffer = Some (Throw m')
                   /\ m = str "Failed to extract certificate: " ++ m' /\ extractionError m')
             \/ (exists (certBuffer : list Z) (m' : jsstring),
                   extractCertificateFromPDF fuel pdfBuffer = Some (Ok certBuffer)
                   /\ parseCertificateFromBuffer certBuffer
                       = Throw (str "Failed to parse certificate from buffer: " ++ m')
                   /\ m = str "Failed to parse certificate: Failed to parse certificate from buffer: "
                          ++ m')).
Proof.
  intros F readFileSync basename fuel pdfPath file m. unfold processSinglePDFResult.
  destruct (readFileSync pdfPath) as [pdfBuffer|m0] eqn:Hread.
  - destruct (processSinglePDF fuel pdfBuffer) as [[details|m1]|] eqn:Hone; cbn;
      [intros [= <-]; discriminate| |discriminate].
    intros [= <-]. cbn [error]. intros [= <-].
    right. exists pdfBuffer. split; [reflexivity|].
    apply (processSinglePDF_Throw _ _ _ Hone).
  - cbn. intros [= <-]. cbn [error]. intros [= <-]. left. reflexivity.
Qed.

Lemma processSinglePDF_errors_witness :
  exists m' : jsstring,
    @extractCertificateFromPDF plainForge 1 (str "%PDF-1.4 /Contents <00>") = Some (Throw m')
    /\ @extractionError plainForge m'.
Proof.
  destruct (processSinglePDF_errors plainForge
              (fun _ => Ok (str "%PDF-1.4 /Contents <00>")) (fun p => p) 1 (str "a.pdf")
              {| filePath := str "a.pdf"; fileName := str "a.pdf"; success := false;
                 aadhaarDetails := None;
                 error := Some (str "Failed to extract certificate: Failed to extract certificate from PDF: Failed to extract certificate from PKCS#7: Failed to extract certificate from ASN.1: Too few bytes to parse DER.") |}
              (str "Failed to extract certificate: Failed to extract certificate from PDF: Failed to extract certificate from PKCS#7: Failed to extract certificate from ASN.1: Too few bytes to parse DER.")
              ltac:(vm_compute; reflexivity) eq_refl)
    as [H|(pdfBuffer & Hread & [[H _]|[(m' & Hpdf & _ & Herr)|(certBuffer & m' & H & _)]])].
  - discriminate H.
  - injection Hread as <-. vm_compute in H. discriminate H.
  - injection Hread as <-. exists m'. split; [exact Hpdf|exact Herr].
  - injection Hread as <-. vm_compute in H. discriminate H.
Defined.

(** ** [BatchPdfProcessor]: the counts of a batch *)

Section Batch.
Context {F : Forge}.
Variable readFileSync : jsstring -> result (list Z).
Variable basename : jsstring -> jsstring.

Lemma processSinglePDFResult_consistent (fuel : nat) (pdfPath : jsstring) (file : FileResult) :
  processSinglePDFResult readFileSync basename fuel pdfPath = Some file ->
  filePath file = pdfPath /\ fileName file = basename pdfPath /\ consistent file.
Proof.
  unfold processSinglePDFResult.
  destruct (match readFileSync pdfPath with
            | Ok pdfBuffer => processSinglePDF fuel pdfBuffer
            | Throw m => Some (Throw m)
            end) as [[details|m]|]; cbn; intros [= <-]; cbn.
  - split; [reflexivity|]. split; [reflexivity|]. left. eauto.
  - split; [reflexivity|]. split; [reflexivity|]. right. eauto.
Qed.

Lemma processFiles_counts (fuel : nat) (pdfFiles : list jsstring) :
  forall results results' : BatchResults,
    processFiles readFileSync basename fuel pdfFiles results = Some results' ->
    exists new : list FileResult,
      files results' = files results ++ new
      /\ filePath <$> new = pdfFiles
      /\ Forall consistent new
      /\ Forall (fun file => fileName file = basename (filePath file)) new
      /\ successCount results' = successCount results + successes new
      /\ failureCount results' = failureCount results + (Z.of_nat (length new) - successes new)
      /\ totalFiles results' = totalFiles results
      /\ processingTime results' = processingTime results.
Proof.
  induction pdfFiles as [|pdfPath rest IH]; intros results results'; cbn [processFiles].
  - intros [= <-]. exists []. rewrite app_nil_r. unfold successes. cbn.
    repeat split; try constructor; lia.
  - destruct (processSinglePDFResult readFileSync basename fuel pdfPath) as [file|] eqn:Hfile;
      [|discriminate].
    apply processSinglePDFResult_consistent in Hfile as (Hpath & Hname & Hcons).
    intros H. apply IH in H as (new & Hfiles & Hpaths & Hall & Hnames & Hs & Hf & Ht & Hp).
    cbn in Hfiles, Hs, Hf, Ht, Hp.
    exists (file :: new). rewrite Hfiles, <- app_assoc.
    split; [reflexivity|]. split; [cbn; congruence|].
    split; [constructor; assumption|]. split; [constructor; [congruence|assumption]|].
    unfold successes in *. cbn [List.filter length].
    destruct (success file); cbn [length]; repeat split; lia.
Qed.
End Batch.

Lemma processPDFDirectory_Ok (F : Forge) (readFileSync : jsstring -> result (list Z))
    (basename : jsstring -> jsstring)
    (findPDFFiles : jsstring -> bool -> result (list jsstring))
    (fuel : nat) (dirPath : jsstring) (recursive : bool) (startTime endTime : Z)
    (results : BatchResults) :
  processPDFDirectory readFileSync basename findPDFFiles fuel dirPath recursive
    startTime endTime = Some (Ok results) ->
  findPDFFiles dirPath recursive = Ok (filePath <$> files results)
  /\ totalFiles results = Z.of_nat (length (files results))
  /\ successCount results = successes (files results)
  /\ successCount results + failureCount results = totalFiles results
  /\ Forall consistent (files results)
  /\ processingTime results = endTime - startTime.
Proof.
  unfold processPDFDirectory.
  destruct (findPDFFiles dirPath recursive) as [pdfFiles|m]; [|discriminate].
  destruct (processFiles readFileSync basename fuel pdfFiles _) as [batch|] eqn:Hloop;
    cbn; [|discriminate].
  intros [= <-]. cbn.
  apply processFiles_counts in Hloop
    as (new & Hfiles & Hpaths & Hall & _ & Hs & Hf & Ht & _).
  cbn in Hfiles, Hs, Hf, Ht. subst new.
  assert (length (files batch) = length pdfFiles) as Hlen
    by (rewrite <- Hpaths, length_fmap; reflexivity).
  split; [congruence|]. split; [lia|]. split; [lia|]. split; [lia|].
  split; [assumption|reflexivity].
Qed.

(** X12. The results of [processPDFDirectory] list the files
    [findPDFFiles] found, one result each and in its order; [totalFiles]
    is their number, [successCount] the number of results with [success],
    and [successCount + failureCount = totalFiles]; each result holds
    details and no error, or an error and no details, as its [success]
    tells.  An error of [findPDFFiles] reaches the caller as it is. *)
Theorem processPDFDirectory_counts :
  forall (F : Forge) (readFileSync : jsstring -> result (list Z))
         (basename : jsstring -> jsstring)
         (findPDFFiles : jsstring -> bool -> result (list jsstring))
         (fuel : nat) (dirPath : jsstring) (recursive : bool) (startTime endTime : Z),
    match processPDFDirectory readFileSync basename findPDFFiles fuel dirPath recursive
            startTime endTime with
    | Some (Ok results) =>
        findPDFFiles dirPath recursive = Ok (filePath <$> files results)
        /\ totalFiles results = Z.of_nat (length (files results))
        /\ successCount results = successes (files results)
        /\ successCount results + failureCount results = totalFiles results
        /\ Forall consistent (files results)
        /\ processingTime results = endTime - startTime
    | Some (Throw m) => findPDFFiles dirPath recursive = Throw m
    | None => True
    end.
Proof.
  intros F readFileSync basename findPDFFiles fuel dirPath recursive startTime endTime.
  destruct (processPDFDirectory readFileSync basename findPDFFiles fuel dirPath recursive
              startTime endTime) as [[results|m]|] eqn:Hrun; [| |exact I].
  - apply (processPDFDirectory_Ok _ _ _ _ _ _ _ _ _ _ Hrun).
  - unfold processPDFDirectory in Hrun.
    destruct (findPDFFiles dirPath recursive) as [pdfFiles|m']; [|congruence].
    destruct (processFiles _ _ _ _ _); discriminate.
Qed.

Example processPDFDirectory_ex :
  @processPDFDirectory plainForge exampleRead (fun p => p) exampleFind 1 (str "docs") true 10 17
  = Some (Ok exampleBatch).
Proof. vm_compute. reflexivity. Qed.

Lemma collect_Ok {A B} (f : A -> result B) (l : list A) : forall (r : list B),
  collect f l = Ok r -> Forall2 (fun a b => f a = Ok b) l r.
Proof.
  induction l as [|a l IH]; intros r; cbn [collect].
  - intros [= <-]. constructor.
  - destruct (f a) as [b|m] eqn:Hb; [|discriminate]. cbn [bind].
    destruct (collect f l) as [r'|m]; [|discriminate]. cbn. intros [= <-].
    constructor; [assumption|apply IH; reflexivity].
Qed.

Lemma csvRow_length (toISOString : Z -> result jsstring) (file : FileResult)
    (row : list jsstring) :
  csvRow toISOString file = Ok row -> length row = 14%nat.
Proof.
  unfold csvRow. destruct (success file), (aadhaarDetails file) as [details|].
  - destruct (match endDate details with
              | Num t => if t =? 0 then Ok [] else toISOString t
              | NaN => Ok []
              end) as [date|m]; [|discriminate].
    cbn. intros [= <-]. reflexivity.
  - intros [= <-]. reflexivity.
  - intros [= <-]. reflexivity.
  - intros [= <-]. reflexivity.
Qed.

(** X13. For the results of a batch, the report lists the header row
    and then one row for each result with [success], and for each of the
    others too when failures are included: [resultsToJSON] lists
    [successCount] files, or [totalFiles] with failures, and the rows of
    [resultsToCSV] are one more than that, each of fourteen cells. *)
Theorem report_lists_files :
  forall (F : Forge) (readFileSync : jsstring -> result (list Z))
         (basename : jsstring -> jsstring)
         (findPDFFiles : jsstring -> bool -> result (list jsstring))
         (toISOString : Z -> result jsstring)
         (fuel : nat) (dirPath : jsstring) (recursive : bool) (startTime endTime : Z)
         (results : BatchResults) (includeFailures : bool),
    processPDFDirectory readFileSync basename findPDFFiles fuel dirPath recursive
      startTime endTime = Some (Ok results) ->
    Z.of_nat (length (output_files (resultsToJSON results includeFailures)))
    = (if includeFailures then totalFiles results else successCount results)
    /\ match csvRows toISOString results includeFailures with
       | Ok rows =>
           head rows = Some headers
           /\ Z.of_nat (length rows)
              = 1 + (if includeFailures then totalFiles results else successCount results)
           /\ Forall (fun row => length row = 14%nat) rows
       | Throw _ => True
       end.
Proof.
  intros F readFileSync basename findPDFFiles toISOString fuel dirPath recursive
    startTime endTime results includeFailures Hrun.
  apply processPDFDirectory_Ok in Hrun as (_ & Htotal & Hsucc & _ & Hcons & _).
  set (listed := List.filter (fun file => success file || includeFailures) (files results)).
  assert (Z.of_nat (length listed)
          = if includeFailures then totalFiles results else successCount results) as Hlisted.
  { unfold listed. destruct includeFailures.
    - rewrite Htotal. f_equal. f_equal.
      rewrite forallb_filter_id; [reflexivity|].
      apply forallb_forall. intros x _. apply orb_true_r.
    - rewrite Hsucc. unfold successes. f_equal. f_equal.
      apply List.filter_ext. intros x. apply orb_false_r. }
  split.
  - cbn [resultsToJSON output_files]. rewrite length_map. exact Hlisted.
  - unfold csvRows. fold listed.
    destruct (collect (csvRow toISOString) listed) as [rows|m] eqn:Hrows; cbn; [|exact I].
    apply collect_Ok in Hrows.
    split; [reflexivity|]. split.
    + apply Forall2_length in Hrows. rewrite <- Hrows. lia.
    + constructor; [reflexivity|].
      clear -Hrows. induction Hrows as [|file row l r Hrow _ IH]; constructor; [|exact IH].
      apply (csvRow_length _ _ _ Hrow).
Qed.

Lemma report_lists_files_witness :
  Z.of_nat (length (output_files (resultsToJSON exampleBatch false))) = successCount exampleBatch
  /\ match csvRows exampleDate exampleBatch false with
     | Ok rows =>
         head rows = Some headers
         /\ Z.of_nat (length rows) = 1 + successCount exampleBatch
         /\ Forall (fun row => length row = 14%nat) rows
     | Throw _ => True
     end.
Proof.
  apply (report_lists_files plainForge exampleRead (fun p => p) exampleFind exampleDate
           1 (str "docs") true 10 17 exampleBatch false).
  vm_compute. reflexivity.
Defined.

Example resultsToCSV_ex :
  resultsToCSV exampleDate exampleBatch true
  = Ok (str "File Name,File Path,Status,Signer Name,TPIN,Gender,Year of Birth,State,Pincode,Serial Number,End Date,Issuer Name,Issuer Organisation,Error"
        ++ [10] ++ str "a.pdf,a.pdf,Success,NA,NA,NA,NA,NA,NA,05,,NA,NA,"
        ++ [10] ++ str "b.pdf,b.pdf,Failed,,,,,,,,,,,"
        ++ [34] ++ str "ENOENT: no such file or directory, open 'b.pdf'" ++ [34]).
Proof. vm_compute. reflexivity. Qed.

(** ** [BatchPdfProcessor.escapeCSV] *)

Lemma escapeCSV_cases (s : jsstring) :
  (existsb special s = false /\ escapeCSV (Some s) = s)
  \/ (existsb special s = true
      /\ escapeCSV (Some s) = [34] ++ flat_map (fun c => if c =? 34 then [34; 34] else [c]) s ++ [34]).
Proof.
  unfold escapeCSV.
  assert (existsb special s
          = existsb (fun c => c =? 44) s || existsb (fun c => c =? 34) s
            || existsb (fun c => c =? 10) s) as ->.
  { induction s as [|c s IH]; [reflexivity|]. simpl. rewrite IH. unfold special.
    destruct (c =? 44), (c =? 34), (c =? 10), (existsb (fun c => c =? 44) s),
      (existsb (fun c => c =? 34) s); reflexivity. }
  destruct (_ || _ || _); auto.
Qed.

Lemma unquote_other (c : Z) (r : jsstring) : c <> 34 -> unquote (c :: r) = c :: unquote r.
Proof.
  intros Hc. destruct r as [|d r]; [reflexivity|].
  cbn [unquote]. assert ((c =? 34) = false) as -> by lia. reflexivity.
Qed.

Lemma unquote_doubled (s : jsstring) :
  unquote (flat_map (fun c => if c =? 34 then [34; 34] else [c]) s) = s.
Proof.
  induction s as [|c s IH]; [reflexivity|].
  cbn [flat_map]. destruct (Z.eqb_spec c 34) as [->|Hc].
  - cbn [app unquote]. change (34 =? 34) with true. cbn [andb]. rewrite IH. reflexivity.
  - cbn [app]. rewrite unquote_other by assumption. rewrite IH. reflexivity.
Qed.

Lemma readField_escapeCSV (s : jsstring) : readField (escapeCSV (Some s)) = s.
Proof.
  destruct (escapeCSV_cases s) as [[Hs ->]|[Hs ->]].
  - destruct s as [|c r]; [reflexivity|]. simpl in *.
    unfold special in Hs. destruct (c =? 34); [|reflexivity].
    rewrite orb_true_r in Hs. discriminate.
  - cbn [app readField]. change (34 =? 34) with true. cbv iota.
    rewrite removelast_last. apply unquote_doubled.
Qed.

Lemma splitRow_plain (s : jsstring) : forall (rest cell : jsstring),
  existsb special s = false ->
  splitRow (s ++ rest) false cell = splitRow rest false (cell ++ s).
Proof.
  induction s as [|c s IH]; intros rest cell Hs.
  - rewrite app_nil_r. reflexivity.
  - simpl in Hs. apply orb_false_elim in Hs as [Hc Hs]. unfold special in Hc.
    cbn [app splitRow].
    destruct (c =? 34); [rewrite orb_true_r in Hc; discriminate|].
    destruct (c =? 44); [discriminate|]. cbn.
    rewrite IH by assumption. rewrite <- app_assoc. reflexivity.
Qed.

Lemma splitRow_doubled (s : jsstring) : forall (rest cell : jsstring),
  splitRow (flat_map (fun c => if c =? 34 then [34; 34] else [c]) s ++ rest) true cell
  = splitRow rest true (cell ++ flat_map (fun c => if c =? 34 then [34; 34] else [c]) s).
Proof.
  induction s as [|c s IH]; intros rest cell.
  - rewrite app_nil_r. reflexivity.
  - cbn [flat_map]. destruct (Z.eqb_spec c 34) as [->|Hc].
    + cbn [app splitRow]. change (34 =? 34) with true. cbn [negb].
      rewrite IH. rewrite <- !app_assoc. reflexivity.
    + cbn [app splitRow]. assert ((c =? 34) = false) as -> by lia.
      rewrite andb_false_r. rewrite IH. rewrite <- app_assoc. reflexivity.
Qed.

Lemma splitRow_escaped (s : jsstring) (rest cell : jsstring) :
  splitRow (escapeCSV (Some s) ++ rest) false cell
  = splitRow rest false (cell ++ escapeCSV (Some s)).
Proof.
  destruct (escapeCSV_cases s) as [[Hs ->]|[Hs ->]].
  - apply splitRow_plain. assumption.
  - cbn [app splitRow]. change (34 =? 34) with true. cbn [negb].
    rewrite <- app_assoc. rewrite splitRow_doubled.
    cbn [app splitRow]. change (34 =? 34) with true. cbn [negb].
    rewrite <- !app_assoc. reflexivity.
Qed.

(** X14. What [escapeCSV] writes can be read back: a reader that takes
    a cell in double quotes for its content, with each doubled quote read
    as one, gives back the field, and a line of escaped cells joined by
    commas splits, at the commas outside quotes, into those cells. *)
Theorem escapeCSV_round_trip :
  forall (cell : jsstring) (cells : list jsstring),
    readField (escapeCSV (Some cell)) = cell
    /\ readRow (join [44] (map (fun c => escapeCSV (Some c)) (cell :: cells))) = cell :: cells.
Proof.
  intros cell cells. split; [apply readField_escapeCSV|].
  unfold readRow. revert cell.
  induction cells as [|next cells IH]; intros cell.
  - cbn [map join]. rewrite <- (app_nil_r (escapeCSV (Some cell))).
    rewrite splitRow_escaped. cbn [splitRow map app]. rewrite readField_escapeCSV. reflexivity.
  - change (join [44] (map (fun c => escapeCSV (Some c)) (cell :: next :: cells)))
      with (escapeCSV (Some cell) ++ [44]
            ++ join [44] (map (fun c => escapeCSV (Some c)) (next :: cells))).
    rewrite splitRow_escaped. cbn [app splitRow]. change (44 =? 34) with false.
    change (44 =? 44) with true. cbn [negb andb]. 
    rewrite map_cons, readField_escapeCSV, IH. reflexivity.
Qed.

Example escapeCSV_ex :
  escapeCSV (Some (str "Rao, A")) = [34] ++ str "Rao, A" ++ [34]
  /\ escapeCSV (Some [97; 34; 98]) = [34; 97; 34; 34; 98; 34]
  /\ escapeCSV (Some (str "plain")) = str "plain"
  /\ escapeCSV None = [].
Proof. repeat split; reflexivity. Qed.

(** ** [BatchPdfProcessor.formatTime] *)

(** X15. For a whole number of milliseconds from 0 up to [2^53],
    [formatTime] prints hours, minutes and seconds that add up to the
    whole seconds of the time, the minutes and the seconds below 60; it
    leaves out the hours when they are 0, and the minutes too when both
    are. *)
Theorem formatTime_recomposes :
  forall ms : Z,
    0 <= ms < 2 ^ 53 ->
    exists h m s : Z,
      0 <= h /\ 0 <= m < 60 /\ 0 <= s < 60
      /\ 3600 * h + 60 * m + s = ms / 1000
      /\ formatTime ms
         = if 0 <? h then
             numberToString h ++ str "h " ++ numberToString m ++ str "m "
             ++ numberToString s ++ str "s"
           else if 0 <? m then numberToString m ++ str "m " ++ numberToString s ++ str "s"
           else numberToString s ++ str "s".
Proof.
  intros ms [Hms _]. unfold formatTime.
  set (seconds := ms / 1000).
  assert (0 <= seconds) as Hs by (apply Z.div_pos; lia).
  assert (0 <= seconds / 60) as Hm by (apply Z.div_pos; lia).
  exists (seconds / 60 / 60), (Z.rem (seconds / 60) 60), (Z.rem seconds 60).
  rewrite !Z.rem_mod_nonneg by lia.
  pose proof (Z.mod_pos_bound seconds 60 ltac:(lia)).
  pose proof (Z.mod_pos_bound (seconds / 60) 60 ltac:(lia)).
  pose proof (Z.div_mod seconds 60 ltac:(lia)).
  pose proof (Z.div_mod (seconds / 60) 60 ltac:(lia)).
  split; [apply Z.div_pos; lia|]. split; [lia|]. split; [lia|]. split; [lia|].
  destruct (Z.ltb_spec 0 (seconds / 60 / 60)) as [Hh|Hh]; [reflexivity|].
  assert (seconds / 60 / 60 = 0) as Hz by (pose proof (Z.div_pos (seconds / 60) 60); lia).
  assert (seconds / 60 mod 60 = seconds / 60) as -> by lia.
  destruct (Z.ltb_spec 0 (seconds / 60)) as [Hmin|Hmin]; [reflexivity|].
  assert (seconds mod 60 = seconds) as -> by lia.
  reflexivity.
Qed.

Lemma formatTime_recomposes_witness :
  exists h m s : Z,
    0 <= h /\ 0 <= m < 60 /\ 0 <= s < 60
    /\ 3600 * h + 60 * m + s = 3725999 / 1000
    /\ formatTime 3725999
       = if 0 <? h then
           numberToString h ++ str "h " ++ numberToString m ++ str "m "
           ++ numberToString s ++ str "s"
         else if 0 <? m then numberToString m ++ str "m " ++ numberToString s ++ str "s"
         else numberToString s ++ str "s".
Proof. apply (formatTime_recomposes 3725999). lia. Defined.

Example formatTime_ex :
  formatTime 3725999 = str "1h 2m 5s" /\ formatTime 59999 = str "59s"
  /\ formatTime 60000 = str "1m 0s" /\ formatTime 0 = str "0s".
Proof. repeat split; vm_compute; reflexivity. Qed.

(** ** Pkcs7Decoder: what the byte-pattern fallback returns *)

Section PatternResults.
Context {F : Forge}.

Lemma parsesWith_three (certBinary : jsstring) :
  parsesWith certBinary (Z.eqb 3) = true -> parsesWith certBinary (Z.leb 3) = true.
Proof.
  unfold parsesWith. destruct (asn1_fromDer certBinary) as [a|m]; [|discriminate].
  unfold arrayOfLength. destruct (asn1_value a) as [|s|l]; try discriminate.
  intros H. apply Z.eqb_eq in H. rewrite <- H. reflexivity.
Qed.

Lemma scanAt_sliced (bytes : list Z) (i : Z) (c : FoundCert) :
  scanAt bytes i = Some c -> slicedCertificate bytes (buffer c).
Proof.
  unfold scanAt. destruct (longSequenceAt bytes i); [|discriminate].
  destruct (_ && _ && _); [|discriminate].
  destruct (parsesWith _ (Z.eqb 3)) eqn:Hparse; [|discriminate].
  intros [= <-]. cbn [buffer]. eexists _, _. split; [reflexivity|].
  apply parsesWith_three. exact Hparse.
Qed.

Lemma rawScanAt_sliced (bytes : list Z) (structStart rawPos : Z) (c : FoundCert) :
  rawScanAt bytes structStart rawPos = Some c -> slicedCertificate bytes (buffer c).
Proof.
  unfold rawScanAt. destruct (longSequenceAt bytes rawPos); [|discriminate].
  destruct (_ && _ && _); [|discriminate].
  destruct (parsesWith _ (Z.eqb 3)) eqn:Hparse; [|discriminate].
  intros [= <-]. cbn [buffer]. eexists _, _. split; [reflexivity|].
  apply parsesWith_three. exact Hparse.
Qed.

Lemma largest_in (rest : list FoundCert) : forall best : FoundCert,
  largest best rest ∈ best :: rest.
Proof.
  induction rest as [|c rest IH]; intros best; cbn [largest]; [left|].
  specialize (IH (if size best <? size c then c else best)).
  apply elem_of_cons in IH as [->|IH]; [|right; right; assumption].
  destruct (size best <? size c); [right; left|left].
Qed.

Lemma find_elem {A} (p : A -> bool) (l : list A) (a : A) : find p l = Some a -> a ∈ l.
Proof. intros H. apply find_some in H as [H _]. apply list_elem_of_In. assumption. Qed.

Lemma sequenceAt_certificate (bytes : list Z) (scanPos : Z) (certificate : list Z) :
  sequenceAt bytes scanPos = Some certificate ->
  slicedCertificate bytes certificate \/ nestedCertificate bytes certificate.
Proof.
  unfold sequenceAt.
  destruct (decodeSequenceLength bytes scanPos) as [seqLength seqLengthBytes].
  set (structEnd := (fun l => scanPos + seqLengthBytes + l) <$> seqLength).
  destruct (asn1_fromDer (slice bytes scanPos structEnd)) as [testAsn1|m] eqn:Hder;
    [|discriminate].
  destruct (asn1_value testAsn1) as [|s|elems] eqn:Hvalue; try discriminate.
  destruct (Z.eqb_spec (Z.of_nat (length elems)) 3) as [Hthree|Hother].
  - intros [= <-]. left. exists scanPos, structEnd. split; [reflexivity|].
    unfold parsesWith. rewrite Hder, Hvalue. cbn. rewrite Hthree. reflexivity.
  - destruct (3 <? Z.of_nat (length elems)); [|discriminate].
    destruct (find _ elems) as [elem|] eqn:Hfind.
    + destruct (asn1_toDer elem) as [der|m] eqn:Hto; [|discriminate].
      intros [= <-]. right.
      pose proof (find_elem _ _ _ Hfind) as Hin.
      apply find_some in Hfind as [_ Hp]. apply andb_prop in Hp as [Htype Hlen].
      apply Z.eqb_eq in Htype.
      exists scanPos, structEnd, testAsn1, elem, elems, der. auto 10.
    + destruct structEnd as [e|]; [|discriminate].
      destruct (omap (rawScanAt bytes scanPos) (seqZ scanPos (e - 100 - scanPos)))
        as [|first rest] eqn:Hraw; [discriminate|].
      assert (forall c, c ∈ first :: rest -> slicedCertificate bytes (buffer c)) as Hall.
      { intros c Hc. rewrite <- Hraw in Hc.
        apply list_elem_of_omap in Hc as (rawPos & _ & Hc).
        apply (rawScanAt_sliced _ _ _ _ Hc). }
      destruct (find isAadhaar (first :: rest)) as [cert|] eqn:Hfound; intros [= <-]; left.
      * apply Hall. apply (find_elem _ _ _ Hfound).
      * apply Hall. apply largest_in.
Qed.

Lemma sectionLoop_certificate (bytes : list Z) (sectionEnd : option Z) :
  forall (fuel : nat) (scanPos : Z) (certificate : list Z),
    sectionLoop fuel bytes sectionEnd scanPos = Some (Some certificate) ->
    exists p : Z, sequenceAt bytes p = Some certificate.
Proof.
  induction fuel as [|fuel IH]; intros scanPos certificate; cbn [sectionLoop]; [discriminate|].
  destruct (gtNum sectionEnd scanPos && (scanPos <? Z.of_nat (length bytes))); [|discriminate].
  destruct (eqNum (index bytes scanPos) 48); [|apply IH].
  destruct (sequenceAt bytes scanPos) as [found|] eqn:Hat.
  - intros [= <-]. exists scanPos. assumption.
  - destruct (decodeSequenceLength bytes scanPos) as [[l|] k]; [apply IH|discriminate].
Qed.

Lemma strategy1_certificate (fuel : nat) (bytes : list Z) (positions : list Z)
    (certificate : list Z) :
  strategy1 fuel bytes positions = Some (Some certificate) ->
  exists p : Z, sequenceAt bytes p = Some certificate.
Proof.
  induction positions as [|i positions IH]; cbn [strategy1]; [discriminate|].
  destruct (sectionAt fuel bytes i) as [[found|]|] eqn:Hat; [|exact IH|discriminate].
  intros [= <-]. unfold sectionAt in Hat.
  destruct (eqNum (index bytes i) 160); [|discriminate].
  destruct (decodeSectionLength bytes (i + 1)) as [certSectionLength contentStart].
  apply (sectionLoop_certificate _ _ _ _ _ Hat).
Qed.

End PatternResults.

(** X16. Whatever strategy finds it, a certificate the byte-pattern
    fallback returns is a slice of the signature that the library parses
    to at least three top-level elements, or the library's encoding of a
    three-element SEQUENCE that is an element of a parsed slice of the
    signature. *)
Theorem extractCertificateByPattern_certificates :
  forall (F : Forge) (fuel : nat) (pkcs7Binary : jsstring) (certificate : list Z),
    extractCertificateByPattern fuel pkcs7Binary = Some (Ok certificate) ->
    slicedCertificate pkcs7Binary certificate \/ nestedCertificate pkcs7Binary certificate.
Proof.
  intros F fuel bytes certificate. unfold extractCertificateByPattern.
  destruct (scanForCertificates bytes) as [|first rest] eqn:Hscan.
  - destruct (strategy1 fuel bytes _) as [[found|]|] eqn:Hs1; cbn; try discriminate.
    + intros [= <-]. apply strategy1_certificate in Hs1 as (p & Hp).
      apply (sequenceAt_certificate _ _ _ Hp).
    + destruct (strategy2 bytes) as [found|] eqn:Hs2; cbn; [|discriminate].
      intros [= <-]. left. unfold strategy2 in Hs2.
      apply head_Some_elem_of, list_elem_of_omap in Hs2 as (i & _ & Hat).
      unfold strategy2At in Hat. destruct (longSequenceAt bytes i); [|discriminate].
      destruct (_ || _); [discriminate|]. destruct (_ <? _); [discriminate|].
      destruct (parsesWith _ (Z.leb 3)) eqn:Hparse; [|discriminate].
      injection Hat as <-. eexists _, _. split; [reflexivity|exact Hparse].
  - assert (forall c, c ∈ first :: rest -> slicedCertificate bytes (buffer c)) as Hall.
    { intros c Hc. rewrite <- Hscan in Hc. unfold scanForCertificates in Hc.
      apply list_elem_of_omap in Hc as (i & _ & Hc). apply (scanAt_sliced _ _ _ Hc). }
    destruct (find isAadhaar (first :: rest)) as [cert|] eqn:Hfound; cbn; intros [= <-]; left.
    + apply Hall, (find_elem _ _ _ Hfound).
    + apply Hall. left.
Qed.

Lemma extractCertificateByPattern_certificates_witness :
  @slicedCertificate plainForge (signatureWith bareCertificate) bareCertificate
  \/ @nestedCertificate plainForge (signatureWith bareCertificate) bareCertificate.
Proof.
  apply (extractCertificateByPattern_certificates plainForge 1).
  vm_compute. reflexivity.
Defined.

(** ** CertificateAttributeExtractor: [extractAsn1Attributes] *)

Section Entries.
Context {F : Forge}.

Lemma rdnStep_Ok (attributes attributes' : gmap jsstring jsstring) (rdn : asn1) (k : jsstring) :
  rdnStep attributes rdn = Ok attributes' ->
  attributes' !! k
  = match rdnEntry rdn with
    | Some entry => if entryUnder k entry then Some (snd entry) else attributes !! k
    | None => attributes !! k
    end.
Proof.
  unfold rdnStep, rdnEntry.
  destruct ((asn1_type rdn =? SET) && (0 <? valueLength (asn1_value rdn)));
    [|intros [= <-]; reflexivity].
  cbv zeta.
  destruct (eqNum (elemType (valueAt (asn1_value rdn) 0)) SEQUENCE
            && (2 <=? valueLength (elemValue (valueAt (asn1_value rdn) 0))));
    [|intros [= <-]; reflexivity].
  destruct (asn1_derToOid _) as [oid|m]; [|discriminate]. cbn [bind].
  destruct (match elemValue (valueAt (elemValue (valueAt (asn1_value rdn) 0)) 1) with
            | JUndefined => Ok []
            | JStr s => Ok s
            | JArr l => util_decodeUtf8 l
            end) as [value|m]; [|discriminate].
  cbn [bind]. intros [= <-]. unfold entryUnder, streq. cbn [fst snd].
  destruct (nameMapLookup oid) as [alias|].
  - destruct (decide (alias = k)) as [->|Hne].
    + rewrite lookup_insert_eq. rewrite (bool_decide_eq_true_2 (Some k = Some k)) by reflexivity.
      rewrite orb_true_r. reflexivity.
    + rewrite lookup_insert_ne by assumption.
      rewrite (bool_decide_eq_false_2 (Some alias = Some k)) by congruence.
      rewrite orb_false_r. case_bool_decide as Hoid.
      * subst oid. apply lookup_insert_eq.
      * apply lookup_insert_ne. assumption.
  - rewrite (bool_decide_eq_false_2 (None = Some k)) by discriminate.
    rewrite orb_false_r. case_bool_decide as Hoid.
    + subst oid. apply lookup_insert_eq.
    + apply lookup_insert_ne. assumption.
Qed.

Lemma rdnLoop_Ok (rdns : list asn1) (k : jsstring) :
  forall attributes attributes' : gmap jsstring jsstring,
    rdnLoop attributes rdns = Ok attributes' ->
    attributes' !! k
    = match last (List.filter (entryUnder k) (omap rdnEntry rdns)) with
      | Some entry => Some (snd entry)
      | None => attributes !! k
      end.
Proof.
  induction rdns as [|rdn rdns IH]; intros attributes attributes'; cbn [rdnLoop].
  - intros [= <-]. reflexivity.
  - destruct (rdnStep attributes rdn) as [mid|m] eqn:Hstep; [|discriminate]. cbn [bind].
    intros Hrest. rewrite (IH _ _ Hrest), (rdnStep_Ok _ _ _ k Hstep).
    change (omap rdnEntry (rdn :: rdns))
      with (match rdnEntry rdn with
            | Some y => y :: omap rdnEntry rdns
            | None => omap rdnEntry rdns
            end).
    destruct (rdnEntry rdn) as [entry|]; [|reflexivity].
    cbn [List.filter]. destruct (entryUnder k entry).
    + destruct (List.filter (entryUnder k) (omap rdnEntry rdns)) as [|e l]; [reflexivity|].
      change (last (entry :: e :: l)) with (last (e :: l)).
      destruct (last (e :: l)) as [found|] eqn:Hlast; [reflexivity|].
      apply last_None in Hlast. discriminate.
    + reflexivity.
Qed.

End Entries.

(** X17. Of each RDN of a name [extractAsn1Attributes] reads the first
    attribute only.  The map it returns holds, under every key that is
    not the name of an inherited property, the value of the last RDN
    whose OID is the key or has the key as its short name in [nameMap],
    and nothing when no RDN has it. *)
Theorem extractAsn1Attributes_last_wins :
  forall (F : Forge) (tagClass type : Z) (rdns : list asn1)
         (attributes : gmap jsstring jsstring) (k : jsstring),
    extractAsn1Attributes (Some (Asn1Arr tagClass type rdns)) = Ok attributes ->
    inherited k = false ->
    attributes !! k = snd <$> last (List.filter (entryUnder k) (omap rdnEntry rdns)).
Proof.
  intros F tagClass type rdns attributes k Hattrs _. cbn [extractAsn1Attributes] in Hattrs.
  rewrite (rdnLoop_Ok _ k _ _ Hattrs).
  destruct (last _); [reflexivity|apply lookup_empty].
Qed.

Lemma extractAsn1Attributes_last_wins_witness :
  rmap (fun attributes : gmap jsstring jsstring => attributes !! str "CN")
    (@extractAsn1Attributes plainForge (Some twoNames))
  = Ok (Some (str "Asha Rao")).
Proof.
  destruct (@extractAsn1Attributes plainForge (Some twoNames)) as [attributes|m] eqn:Hattrs.
  - cbn [rmap bind]. f_equal.
    rewrite (extractAsn1Attributes_last_wins plainForge 0 16 _ attributes (str "CN") Hattrs
               eq_refl).
    vm_compute. reflexivity.
  - vm_compute in Hattrs. discriminate Hattrs.
Defined.

(** ** ByteScanner: the lengths the scans read *)

Lemma toInt32_congruent (a b : Z) :
  a mod 4294967296 = b mod 4294967296 -> toInt32 a = toInt32 b.
Proof.
  intros H. unfold toInt32. f_equal.
  rewrite (Z.add_mod a), (Z.add_mod b), H by lia. reflexivity.
Qed.

Lemma toInt32_mod (z : Z) : toInt32 z mod 4294967296 = z mod 4294967296.
Proof.
  unfold toInt32.
  rewrite Zminus_mod, Z.mod_mod by lia.
  rewrite <- Zminus_mod. f_equal. lia.
Qed.

Lemma toInt32_shifted (x : Z) : exists k : Z, toInt32 (x * 256) = 256 * k.
Proof.
  unfold toInt32.
  replace (x * 256 + 2147483648) with (256 * (x + 8388608)) by lia.
  change 4294967296 with (256 * 16777216).
  rewrite Z.mul_mod_distr_l by lia.
  exists ((x + 8388608) mod 16777216 - 8388608). lia.
Qed.

Lemma lor_low_byte (k b : Z) : 0 <= b <= 255 -> Z.lor (256 * k) b = 256 * k + b.
Proof.
  intros Hb. rewrite <- Z.add_lor_land.
  assert (Z.land (256 * k) b = 0) as ->; [|lia].
  apply Z.bits_inj'. intros n Hn. rewrite Z.land_spec, Z.bits_0.
  destruct (Z.lt_ge_cases n 8) as [Hlow|Hhigh].
  - replace (256 * k) with (k * 2 ^ 8) by lia.
    rewrite Z.mul_pow2_bits_low by lia. reflexivity.
  - assert (Z.testbit b n = false) as ->; [|apply andb_false_r].
    destruct (Z.eq_dec b 0) as [->|Hnz]; [apply Z.bits_0|].
    apply Z.bits_above_log2; [lia|].
    assert (Z.log2 b < 8); [|lia].
    apply Z.log2_lt_pow2; lia.
Qed.

Lemma shl8or_exact (x : Z) (o : option Z) :
  0 <= default 0 o <= 255 ->
  shl8or x o = toInt32 (x * 256 + default 0 o).
Proof.
  intros Hb. unfold shl8or.
  rewrite Z.shiftl_mul_pow2 by lia. change (2 ^ 8) with 256.
  rewrite (toInt32_small (default 0 o)) by lia.
  destruct (toInt32_shifted x) as (k & Hk). rewrite Hk.
  rewrite lor_low_byte by assumption.
  apply toInt32_congruent.
  rewrite <- Hk. rewrite Z.add_mod, toInt32_mod, <- Z.add_mod by lia. reflexivity.
Qed.

Lemma default_index_byte (bytes : list Z) (k : Z) :
  Forall (fun b => isByte b = true) bytes -> 0 <= default 0 (index bytes k) <= 255.
Proof.
  intros Hall. unfold index. destruct (k <? 0); [cbn; lia|].
  destruct (bytes !! Z.to_nat k) as [b|] eqn:Hb; [|cbn; lia].
  rewrite Forall_forall in Hall.
  assert (isByte b = true) as Hbyte
    by (apply Hall; eapply list_elem_of_lookup_2; eassumption).
  unfold isByte in Hbyte. zbool. cbn. lia.
Qed.

Lemma readLength_fold (bytes : list Z) (start : Z) (js : list Z) :
  Forall (fun b => isByte b = true) bytes ->
  forall acc acc' : Z,
    acc = toInt32 acc' ->
    foldl (fun len j => shl8or len (index bytes (start + j))) acc js
    = toInt32 (foldl (fun len j => len * 256 + default 0 (index bytes (start + j))) acc' js).
Proof.
  intros Hall. induction js as [|j js IH]; intros acc acc' Hacc; cbn [foldl]; [assumption|].
  apply IH. rewrite shl8or_exact by (apply default_index_byte; assumption).
  apply toInt32_congruent. subst acc.
  rewrite Z.add_mod, Z.mul_mod, toInt32_mod, <- Z.mul_mod, <- Z.add_mod by lia.
  reflexivity.
Qed.

Lemma bigEndianAt_bound (bytes : list Z) (start : Z) :
  Forall (fun b => isByte b = true) bytes ->
  forall (js : list Z) (acc : Z),
    0 <= acc ->
    0 <= foldl (fun len j => len * 256 + default 0 (index bytes (start + j))) acc js
      < (acc + 1) * 256 ^ Z.of_nat (length js).
Proof.
  intros Hall. induction js as [|j js IH]; intros acc Hacc; cbn [foldl length].
  - change (256 ^ Z.of_nat 0) with 1. lia.
  - pose proof (default_index_byte bytes (start + j) Hall) as Hb.
    specialize (IH (acc * 256 + default 0 (index bytes (start + j))) ltac:(lia)).
    replace (Z.of_nat (S (length js))) with (1 + Z.of_nat (length js)) by lia.
    rewrite Z.pow_add_r by lia. change (256 ^ 1) with 256.
    assert (0 < 256 ^ Z.of_nat (length js)) by (apply Z.pow_pos_nonneg; lia).
    nia.
Qed.

(** X18. The length the scans read from [n] length bytes is the number
    those bytes write, most significant byte first, taken as a 32-bit
    signed integer; for up to three length bytes it is that number
    itself, which is not negative. *)
Theorem readLength_big_endian :
  forall (bytes : list Z) (start n : Z),
    Forall (fun b => isByte b = true) bytes ->
    readLength bytes start n = toInt32 (bigEndianAt bytes start n)
    /\ (0 <= n <= 3 ->
        readLength bytes start n = bigEndianAt bytes start n
        /\ 0 <= bigEndianAt bytes start n < 256 ^ n).
Proof.
  intros bytes start n Hall.
  assert (readLength bytes start n = toInt32 (bigEndianAt bytes start n)) as Hread
    by (apply readLength_fold; [assumption|reflexivity]).
  split; [exact Hread|]. intros Hn.
  pose proof (bigEndianAt_bound bytes start Hall (seqZ 0 n) 0 ltac:(lia)) as Hbound.
  rewrite length_seqZ, Z2Nat.id in Hbound by lia. fold (bigEndianAt bytes start n) in Hbound.
  assert (256 ^ n <= 256 ^ 3) by (apply Z.pow_le_mono_r; lia).
  change (256 ^ 3) with 16777216 in *.
  split; [|lia]. rewrite Hread. apply toInt32_small. lia.
Qed.

Lemma readLength_big_endian_witness :
  readLength [48; 130; 1; 35] 2 2 = bigEndianAt [48; 130; 1; 35] 2 2
  /\ 0 <= bigEndianAt [48; 130; 1; 35] 2 2 < 256 ^ 2.
Proof.
  destruct (readLength_big_endian [48; 130; 1; 35] 2 2 ltac:(repeat constructor)) as [_ H].
  apply H. lia.
Defined.

Example readLength_wraps :
  bigEndianAt stuckSignature 6 4 = 4294967290
  /\ readLength stuckSignature 6 4 = -6.
Proof. split; reflexivity. Qed.

(** X19. The two places that decode a tag length agree on every length
    byte but [0x80]: for the same length byte the decode of a section
    gives the length and the end of the header that the decode of a
    SEQUENCE gives.  At the byte [0x80] they part: the section is taken
    to run to the end of the array, and the SEQUENCE gets the length 0
    with a header of two bytes, so the two lengths are the same only when
    the byte [0x80] is the last of the array. *)
Theorem decoders_differ_at_indefinite :
  forall (bytes : list Z) (scanPos : Z),
    if eqNum (index bytes (scanPos + 1)) 128
    then decodeSectionLength bytes (scanPos + 1)
         = (Some (Z.of_nat (length bytes) - (scanPos + 2)), scanPos + 2)
         /\ decodeSequenceLength bytes scanPos = (Some 0, 2)
         /\ (fst (decodeSectionLength bytes (scanPos + 1))
             = fst (decodeSequenceLength bytes scanPos)
             <-> scanPos + 2 = Z.of_nat (length bytes))
    else decodeSectionLength bytes (scanPos + 1)
         = (fst (decodeSequenceLength bytes scanPos),
            scanPos + snd (decodeSequenceLength bytes scanPos)).
Proof.
  intros bytes scanPos. unfold decodeSectionLength, decodeSequenceLength.
  replace (scanPos + 1 + 1) with (scanPos + 2) by lia.
  destruct (eqNum (index bytes (scanPos + 1)) 128) eqn:Hbyte.
  - destruct (index bytes (scanPos + 1)) as [b|]; [|discriminate].
    cbn [eqNum] in Hbyte. apply Z.eqb_eq in Hbyte as ->.
    change (negb (andNum (Some 128) 128 =? 0)) with true.
    change (andNum (Some 128) 127) with 0.
    change (readLength bytes (scanPos + 2) 0) with 0.
    cbn [fst snd]. split; [reflexivity|]. split; [reflexivity|].
    split; [intros [= H]; lia|intros H; f_equal; lia].
  - destruct (negb (andNum (index bytes (scanPos + 1)) 128 =? 0)); cbn [fst snd].
    + f_equal. lia.
    + reflexivity.
Qed.

Example decoders_differ_ex :
  decodeSectionLength [160; 128; 48; 128; 0; 0] 1 = (Some 4, 2)
  /\ decodeSequenceLength [160; 128; 48; 128; 0; 0] 2 = (Some 0, 2)
  /\ decodeSectionLength [160; 128; 48; 128; 0; 0] 3 = (Some 2, 4).
Proof. repeat split; reflexivity. Qed.
